(** * pytrainer: the activity module ([pytrainer/lib/activity.py])

    A shallow embedding of class [Activity] and of the Python 2 built-ins
    it relies on, followed by the properties of the activity layer.

    Conventions of the embedding.
    - A Python value is a [pyval]; a finite Python float is modelled by
      the rational number it denotes ([Qc], canonical rationals, so that
      equality is Leibniz equality), next to the two infinities and
      not-a-number.  The result of a float operation is the exact result
      rounded to the nearest float ([fl]: 53 significant bits, ties to
      even), and so is the number that a decimal literal spells.  An
      integer operand enters with its exact value (integers of the
      module stay far below [2 ^ 53]); overflow, underflow and the sign
      of zero are outside the model.
    - The module is Python 2: [/] between two integers is floor division,
      and values of different types compare by the fixed ordering
      None < numbers < strings.
    - A computation that may raise returns a [result]; [try]/[except]
      is a [match] on it.

    The Strava upload extension
    ([extensions/stravaupload/stravaupload.py]) is embedded in module
    [Strava], after the activity module and before the properties. *)

From Stdlib Require Import ZArith QArith Qcanon String Ascii List.
From Stdlib Require Import DecimalString.
From Stdlib Require DecimalPos DecimalN.
From stdpp Require Import base numbers strings list gmap fin_maps.

Open Scope string_scope.
Open Scope Z_scope.

(** ** Python values and exceptions *)

Inductive pyval : Type :=
| PNone
| PInt (z : Z)
| PFloat (q : Qc)
| PInf (neg : bool)
| PNaN
| PStr (s : string).

Inductive pyexn : Type :=
| ZeroDivisionError
| TypeError
| ValueError
| AttributeError
| OverflowError
| PyException (msg : string).

Inductive result (A : Type) : Type :=
| Ok (a : A)
| Raise (e : pyexn).

Arguments Ok {A} a.
Arguments Raise {A} e.

Definition bind {A B : Type} (r : result A) (k : A -> result B) : result B :=
  match r with
  | Ok a => k a
  | Raise e => Raise e
  end.

Notation "'let*' x := c 'in' k" := (bind c (fun x => k))
  (at level 10, x name, c at level 100, k at level 200).

(** [try: c  except: d] with a bare [except] (or [except Exception]). *)
Definition try_except {A : Type} (c : result A) (d : A) : A :=
  match c with
  | Ok a => a
  | Raise _ => d
  end.

#[global] Instance pyval_eq_dec : EqDecision pyval.
Proof. solve_decision. Defined.

(** ** Numbers *)

Definition Qc_of_Z (z : Z) : Qc := Q2Qc (inject_Z z).

(** The rational [n / d]. *)
Definition ratio (n d : Z) : Qc := (Qc_of_Z n / Qc_of_Z d)%Qc.

Definition Qc_eqb (a b : Qc) : bool := bool_decide (a = b).
Definition Qc_ltb (a b : Qc) : bool := bool_decide (a < b)%Qc.

(** The integer nearest to [a / b] for [0 < b], ties to even. *)
Definition round_half_even (a b : Z) : Z :=
  let k := a / b in
  let r := a mod b in
  if 2 * r <? b then k
  else if b <? 2 * r then k + 1
  else if Z.even k then k else k + 1.

(** The exponent [e] with [2 ^ e <= n / d < 2 ^ (e + 1)], for positive
    [n] and [d]. *)
Definition binade (n d : Z) : Z :=
  let e := Z.log2 n - Z.log2 d in
  if (if 0 <=? e then d * 2 ^ e <=? n else d <=? n * 2 ^ (- e))
  then e else e - 1.

(** Rounding to the nearest float: the significand of the result is the
    integer nearest to [|q| * 2 ^ shift], where [shift] brings [|q|]
    into [2 ^ 52, 2 ^ 53). *)
Definition fl (q : Qc) : Qc :=
  let n := Z.abs (Qnum q) in
  let d := Z.pos (Qden q) in
  if n =? 0 then q
  else
    let shift := 52 - binade n d in
    let v :=
      if 0 <=? shift
      then ratio (round_half_even (n * 2 ^ shift) d) (2 ^ shift)
      else Qc_of_Z (round_half_even n (d * 2 ^ (- shift)) * 2 ^ (- shift)) in
    if Qnum q <? 0 then (- v)%Qc else v.

(** The value of a finite Python number, None for the other values. *)
Definition num_of (v : pyval) : option Qc :=
  match v with
  | PInt z => Some (Qc_of_Z z)
  | PFloat q => Some q
  | PNone | PInf _ | PNaN | PStr _ => None
  end.

(** A float: a rational, an infinity (negative or positive) or
    not-a-number. *)
Inductive xfloat : Type :=
| XFin (q : Qc)
| XInf (neg : bool)
| XNaN.

(** A Python number as a float, None for [None] and for strings. *)
Definition to_x (v : pyval) : option xfloat :=
  match v with
  | PInt z => Some (XFin (Qc_of_Z z))
  | PFloat q => Some (XFin q)
  | PInf neg => Some (XInf neg)
  | PNaN => Some XNaN
  | PNone | PStr _ => None
  end.

Definition of_x (x : xfloat) : pyval :=
  match x with
  | XFin q => PFloat q
  | XInf neg => PInf neg
  | XNaN => PNaN
  end.

(** Applies a function to what a computation returns. *)
Definition on_result {A B : Type} (f : A -> B) (r : result A) : result B :=
  match r with
  | Ok a => Ok (f a)
  | Raise e => Raise e
  end.

(** Float division; a zero divisor raises whatever the dividend. *)
Definition xdiv (x y : xfloat) : result xfloat :=
  match y with
  | XFin b =>
      if Qc_eqb b 0 then Raise ZeroDivisionError
      else
        match x with
        | XFin a => Ok (XFin (fl (a / b)))
        | XInf neg => Ok (XInf (xorb neg (Qc_ltb b 0)))
        | XNaN => Ok XNaN
        end
  | XInf _ =>
      match x with
      | XFin _ => Ok (XFin 0%Qc)
      | XInf _ | XNaN => Ok XNaN
      end
  | XNaN => Ok XNaN
  end.

Definition xmul (x y : xfloat) : xfloat :=
  match x, y with
  | XNaN, _ | _, XNaN => XNaN
  | XFin a, XFin b => XFin (fl (a * b))
  | XInf neg, XFin b | XFin b, XInf neg =>
      if Qc_eqb b 0 then XNaN else XInf (xorb neg (Qc_ltb b 0))
  | XInf n, XInf m => XInf (xorb n m)
  end.

Definition xsub (x y : xfloat) : xfloat :=
  match x, y with
  | XNaN, _ | _, XNaN => XNaN
  | XFin a, XFin b => XFin (fl (a - b))
  | XInf neg, XFin _ => XInf neg
  | XFin _, XInf neg => XInf (negb neg)
  | XInf n, XInf m => if Bool.eqb n m then XNaN else XInf n
  end.

(** [x > y]; every comparison with not-a-number is false. *)
Definition xgt (x y : xfloat) : bool :=
  match x, y with
  | XNaN, _ | _, XNaN => false
  | XFin a, XFin b => Qc_ltb b a
  | XInf neg, XFin _ => negb neg
  | XFin _, XInf neg => neg
  | XInf n, XInf m => (negb n && m)%bool
  end.

Definition xeq (x y : xfloat) : bool :=
  match x, y with
  | XFin a, XFin b => Qc_eqb a b
  | XInf n, XInf m => Bool.eqb n m
  | _, _ => false
  end.

(** Python 2 [a / b]. *)
Definition py_div (a b : pyval) : result pyval :=
  match a, b with
  | PInt x, PInt y =>
      if y =? 0 then Raise ZeroDivisionError else Ok (PInt (x / y))
  | _, _ =>
      match to_x a, to_x b with
      | Some x, Some y => on_result of_x (xdiv x y)
      | _, _ => Raise TypeError
      end
  end.

(** Python [a * b] on numbers (sequence repetition is not used by the
    module: every product has a number on the left or a float on the
    right). *)
Definition py_mul (a b : pyval) : result pyval :=
  match a, b with
  | PInt x, PInt y => Ok (PInt (x * y))
  | _, _ =>
      match to_x a, to_x b with
      | Some x, Some y => Ok (of_x (xmul x y))
      | _, _ => Raise TypeError
      end
  end.

(** Python [a - b]. *)
Definition py_sub (a b : pyval) : result pyval :=
  match a, b with
  | PInt x, PInt y => Ok (PInt (x - y))
  | _, _ =>
      match to_x a, to_x b with
      | Some x, Some y => Ok (of_x (xsub x y))
      | _, _ => Raise TypeError
      end
  end.

(** Python 2 [a > b]: numbers by value, strings lexicographically, and
    across types None < numbers < strings. *)
Definition py_gt (a b : pyval) : bool :=
  match a, b with
  | PNone, _ => false
  | _, PNone => true
  | PStr s, PStr t => String.ltb t s
  | PStr _, _ => true
  | _, PStr _ => false
  | _, _ =>
      match to_x a, to_x b with
      | Some x, Some y => xgt x y
      | _, _ => false
      end
  end.

(** Python [a == b]. *)
Definition py_eq (a b : pyval) : bool :=
  match a, b with
  | PNone, PNone => true
  | PStr s, PStr t => String.eqb s t
  | _, _ =>
      match to_x a, to_x b with
      | Some x, Some y => xeq x y
      | _, _ => false
      end
  end.

(** Truth value: [None], [0], [0.0] and [""] are false. *)
Definition truthy (v : pyval) : bool :=
  match v with
  | PNone => false
  | PInt z => negb (z =? 0)
  | PFloat q => negb (Qc_eqb q 0)
  | PInf _ | PNaN => true
  | PStr s => negb (String.eqb s "")
  end.

(** [not v] *)
Definition py_not (v : pyval) : bool := negb (truthy v).

(** ** Text: decimal literals and formatting *)

Definition is_space (c : ascii) : bool :=
  let n := N_of_ascii c in ((n =? 32) || ((9 <=? n) && (n <=? 13)))%N.

Definition digit_of (c : ascii) : option Z :=
  let n := N_of_ascii c in
  if ((48 <=? n) && (n <=? 57))%N then Some (Z.of_N n - 48) else None.

Fixpoint lstrip (l : list ascii) : list ascii :=
  match l with
  | c :: l' => if is_space c then lstrip l' else l
  | [] => []
  end.

Definition strip (l : list ascii) : list ascii :=
  rev (lstrip (rev (lstrip l))).

(** Reads a run of digits: the number read so far, how many digits were
    read, and the rest of the text. *)
Fixpoint take_digits (l : list ascii) (acc : Z) (cnt : nat)
  : Z * nat * list ascii :=
  match l with
  | c :: l' =>
      match digit_of c with
      | Some d => take_digits l' (10 * acc + d) (S cnt)
      | None => (acc, cnt, l)
      end
  | [] => (acc, cnt, [])
  end.

(** An optional sign: [true] for a minus. *)
Definition take_sign (l : list ascii) : bool * list ascii :=
  match l with
  | c :: l' =>
      if Ascii.eqb c "-" then (true, l')
      else if Ascii.eqb c "+" then (false, l')
      else (false, l)
  | [] => (false, [])
  end.

Definition pow10 (e : Z) : Qc :=
  if 0 <=? e then Qc_of_Z (10 ^ e) else (/ Qc_of_Z (10 ^ (- e)))%Qc.

(** The optional exponent part of a float literal and what follows it. *)
Definition take_exponent (l : list ascii) : option (Z * list ascii) :=
  match l with
  | c :: l' =>
      if (Ascii.eqb c "e" || Ascii.eqb c "E")%bool then
        let '(neg, l1) := take_sign l' in
        let '(e, ne, l2) := take_digits l1 0 0%nat in
        match ne with
        | O => None
        | S _ => Some (if neg then - e else e, l2)
        end
      else Some (0, l)
  | [] => Some (0, [])
  end.

(** The number that a finite literal of [float(s)] spells: surrounding
    white space, an optional sign, digits with an optional fraction (one
    of the two parts may be empty), an optional exponent. *)
Definition float_of_string (s : string) : option Qc :=
  let l := strip (list_ascii_of_string s) in
  let '(neg, l1) := take_sign l in
  let '(i, ni, l2) := take_digits l1 0 0%nat in
  let '(f, nf, l3) :=
    match l2 with
    | c :: l2' =>
        if Ascii.eqb c "." then take_digits l2' 0 0%nat else (0, 0%nat, l2)
    | [] => (0, 0%nat, [])
    end in
  match (ni + nf)%nat with
  | O => None
  | S _ =>
      match take_exponent l3 with
      | Some (e, []) =>
          let m := (Qc_of_Z i + ratio f (10 ^ Z.of_nat nf))%Qc in
          let v := (m * pow10 e)%Qc in
          Some (if neg then (- v)%Qc else v)
      | _ => None
      end
  end.

(** Lower case of a letter. *)
Definition lower (c : ascii) : ascii :=
  let n := N_of_ascii c in
  if ((65 <=? n) && (n <=? 90))%N then ascii_of_N (n + 32) else c.

(** The non-finite literals of [float(s)]: an optional sign, then [inf],
    [infinity] or [nan] in any case. *)
Definition nonfinite_of_string (s : string) : option pyval :=
  let l := strip (list_ascii_of_string s) in
  let '(neg, l1) := take_sign l in
  let w := string_of_list_ascii (map lower l1) in
  if (String.eqb w "inf" || String.eqb w "infinity")%bool then Some (PInf neg)
  else if String.eqb w "nan" then Some PNaN
  else None.

(** What [float(s)] makes of a string, None when it raises
    [ValueError]: the float nearest to the number that a finite literal
    spells. *)
Definition float_text (s : string) : option pyval :=
  match float_of_string s with
  | Some q => Some (PFloat (fl q))
  | None => nonfinite_of_string s
  end.

(** [int(s)] on a string: white space, sign, digits. *)
Definition int_of_string (s : string) : option Z :=
  let l := strip (list_ascii_of_string s) in
  let '(neg, l1) := take_sign l in
  match take_digits l1 0 0%nat with
  | (_, O, _) => None
  | (i, S _, []) => Some (if neg then - i else i)
  | _ => None
  end.

(** The builtin [float(v)]. *)
Definition py_float (v : pyval) : result pyval :=
  match v with
  | PNone => Raise TypeError
  | PInt z => Ok (PFloat (Qc_of_Z z))
  | PFloat q => Ok (PFloat q)
  | PInf neg => Ok (PInf neg)
  | PNaN => Ok PNaN
  | PStr s =>
      match float_text s with
      | Some v => Ok v
      | None => Raise ValueError
      end
  end.

(** The integer part of a rational, towards zero. *)
Definition Qc_trunc (q : Qc) : Z := Z.quot (Qnum q) (Z.pos (Qden q)).

(** The builtin [int(v)]. *)
Definition py_int (v : pyval) : result pyval :=
  match v with
  | PNone => Raise TypeError
  | PInt z => Ok (PInt z)
  | PFloat q => Ok (PInt (Qc_trunc q))
  | PInf _ => Raise OverflowError
  | PNaN => Raise ValueError
  | PStr s =>
      match int_of_string s with
      | Some z => Ok (PInt z)
      | None => Raise ValueError
      end
  end.

(** [s.replace(a, b)] for single characters. *)
Fixpoint replace (a b : ascii) (s : string) : string :=
  match s with
  | EmptyString => EmptyString
  | String c s' => String (if Ascii.eqb c a then b else c) (replace a b s')
  end.

(** Decimal digits of a natural number. *)
Definition str_of_nonneg (z : Z) : string :=
  NilZero.string_of_uint (N.to_uint (Z.to_N z)).

Definition str_of_Z (z : Z) : string :=
  if z <? 0 then "-" ++ str_of_nonneg (- z) else str_of_nonneg z.

(** [|q| * 100] rounded to the nearest integer, ties to even. *)
Definition round_hundredths (q : Qc) : Z :=
  let a := Z.abs (Qnum q) * 100 in
  let d := Z.pos (Qden q) in
  let k := a / d in
  let r := a mod d in
  if 2 * r <? d then k
  else if d <? 2 * r then k + 1
  else if Z.even k then k else k + 1.

(** ["%0.2f" % q] *)
Definition format_2f (q : Qc) : string :=
  let n := round_hundredths q in
  let frac := n mod 100 in
  (if Qc_ltb q 0 then "-" else "")
    ++ str_of_nonneg (n / 100) ++ "."
    ++ (if frac <? 10 then "0" else "") ++ str_of_nonneg frac.

(** ** Collaborators that are not part of the module *)

(** Modelled from the spec: the unit conversions of
    [pytrainer/lib/unitsconversor.py], which is not among the sources.
    The spec gives the distance factor (a point at 10 km has x-value
    [10 × 0.621371] in imperial mode) and asks for the same factor to be
    applied consistently to speed and pace; speed (km/h) is converted like
    a distance, pace (min/km) by the inverse factor.  The spec names no
    factor for elevation: the international foot is used.  An absent
    value stays absent (spec, section 8: [get_value("distance")] on an
    absent distance is the empty text in either system): a conversion
    passes [None] through. *)
Definition miles_per_km : Qc := ratio 621371 1000000.
Definition feet_per_metre : Qc := ratio 32808399 10000000.

Definition km2miles (v : pyval) : result pyval :=
  match v with
  | PNone => Ok PNone
  | _ => py_mul v (PFloat miles_per_km)
  end.

Definition pacekm2miles (v : pyval) : result pyval :=
  match v with
  | PNone => Ok PNone
  | _ => py_div v (PFloat miles_per_km)
  end.

Definition m2feet (v : pyval) : result pyval :=
  match v with
  | PNone => Ok PNone
  | _ => py_mul v (PFloat feet_per_metre)
  end.

Record datapoint : Type := {
  dp_x : pyval;
  dp_y : pyval;
  dp_label : pyval;
  dp_color : pyval
}.

(** Modelled from the spec: the series object of
    [pytrainer/lib/graphdata.py], which is not among the sources: ordered
    (x, y) pairs plus display metadata (title, axis labels, colour,
    rendering style).  A point without data contributes nothing to a
    series (spec, testable properties: a series whose points all made
    zero-length contributions, e.g. no heart rate in any point, ends up
    empty): [addPoints] keeps a point only if both coordinates are true
    values.  A bar is a fixed marker and is always kept. *)
Record GraphData : Type := {
  g_title : pyval;
  xlabel : pyval;
  ylabel : pyval;
  linecolor : pyval;
  y2linecolor : pyval;
  graphType : option string;
  show_on_y1 : bool;
  points : list datapoint
}.

Definition new_GraphData (title xl yl : pyval) : GraphData :=
  {| g_title := title; xlabel := xl; ylabel := yl;
     linecolor := PNone; y2linecolor := PNone;
     graphType := None; show_on_y1 := false; points := [] |}.

Definition set_color (c1 c2 : pyval) (g : GraphData) : GraphData :=
  {| g_title := g_title g; xlabel := xlabel g; ylabel := ylabel g;
     linecolor := c1; y2linecolor := c2;
     graphType := graphType g; show_on_y1 := show_on_y1 g;
     points := points g |}.

Definition set_graphType (t : string) (g : GraphData) : GraphData :=
  {| g_title := g_title g; xlabel := xlabel g; ylabel := ylabel g;
     linecolor := linecolor g; y2linecolor := y2linecolor g;
     graphType := Some t; show_on_y1 := show_on_y1 g;
     points := points g |}.

Definition set_show_on_y1 (b : bool) (g : GraphData) : GraphData :=
  {| g_title := g_title g; xlabel := xlabel g; ylabel := ylabel g;
     linecolor := linecolor g; y2linecolor := y2linecolor g;
     graphType := graphType g; show_on_y1 := b;
     points := points g |}.

Definition append_point (p : datapoint) (g : GraphData) : GraphData :=
  {| g_title := g_title g; xlabel := xlabel g; ylabel := ylabel g;
     linecolor := linecolor g; y2linecolor := y2linecolor g;
     graphType := graphType g; show_on_y1 := show_on_y1 g;
     points := points g ++ [p] |}.

Definition addPoints (x y label color : pyval) (g : GraphData) : GraphData :=
  if (py_not x || py_not y)%bool then g
  else append_point {| dp_x := x; dp_y := y; dp_label := label; dp_color := color |} g.

Definition addBars (x y : pyval) (g : GraphData) : GraphData :=
  append_point {| dp_x := x; dp_y := y; dp_label := PNone; dp_color := PNone |} g.

(** [len(g)] *)
Definition len (g : GraphData) : nat := length (points g).

Definition x_values (g : GraphData) : list pyval := map dp_x (points g).

(** ** Data delivered by the track-log parser, the database and the profile *)

(** One entry of [gpx.trkpoints]: a dictionary with these keys. *)
Record trkpoint : Type := {
  elapsed_distance : pyval;
  time_elapsed : pyval;
  ele : pyval;
  correctedElevation : pyval;
  hr : pyval;
  cadence : pyval;
  velocity : pyval
}.

(** One lap of [gpx.getLaps()]: a tuple, by position; the module reads
    the first seven entries, [lap_rest] holds the entries after them. *)
Record gpxlap : Type := {
  lap0 : pyval; lap1 : pyval; lap2 : pyval; lap3 : pyval;
  lap4 : pyval; lap5 : pyval; lap6 : pyval;
  lap_rest : list pyval
}.

(** The entries of the tuple, in order. *)
Definition entries (lap : gpxlap) : list pyval :=
  [ lap0 lap; lap1 lap; lap2 lap; lap3 lap; lap4 lap; lap5 lap; lap6 lap ]
    ++ lap_rest lap.

(** [s == t] for the entries of two tuples: as many entries, equal one
    by one with [==] (the two tuples share no entry that is
    not-a-number, which would equal itself). *)
Fixpoint all_eq (s t : list pyval) : bool :=
  match s, t with
  | [], [] => true
  | x :: s', y :: t' => py_eq x y && all_eq s' t'
  | _, _ => false
  end.

(** [s == t] for two laps of the track log (two distinct tuples). *)
Definition tuple_eq (s t : gpxlap) : bool := all_eq (entries s) (entries t).

(** What the parser computed from the file of the activity; the totals
    are floats. *)
Record Gpx : Type := {
  trkpoints : list trkpoint;
  total_dist : Qc;
  total_dist_trkpts : Qc;
  total_time : Qc;
  total_time_trkpts : Qc;
  getLaps : list gpxlap
}.

Module Lap.
(** A lap dictionary; of its keys the module reads [elapsed_time] and
    [distance] only, the other columns of the [laps] table are left
    out. *)
Record t : Type := {
  record : pyval;
  lap_number : pyval;
  elapsed_time : pyval;
  distance : pyval;
  start_lat : pyval;
  start_lon : pyval;
  end_lat : pyval;
  end_lon : pyval;
  calories : pyval
}.
End Lap.

Module DbRow.
(** A row of the join of [records] and [sports], in the order of
    [cols]. *)
Record t : Type := {
  sports_name : pyval;
  id_sports : pyval;
  date : pyval;
  distance : pyval;
  time : pyval;
  beats : pyval;
  comments : pyval;
  average : pyval;
  calories : pyval;
  id_record : pyval;
  title : pyval;
  upositive : pyval;
  unegative : pyval;
  maxspeed : pyval;
  maxpace : pyval;
  pace : pyval;
  maxbeats : pyval;
  date_time_utc : pyval;
  date_time_local : pyval;
  sports_max_pace : pyval
}.
End DbRow.

(** A heart-rate zone of the profile: a tuple, by position (lower bound,
    upper bound, colour, label). *)
Record zone : Type := {
  zone0 : pyval; zone1 : pyval; zone2 : pyval; zone3 : pyval
}.

(** What [pytrainer_main] answers for one activity identifier:
    - [prf_us_system]: [profile.getValue("pytraining","prf_us_system")];
    - [gpx]: the parsed file [<gpxdir>/<id>.gpx], [None] if there is no
      such file;
    - [select_result]: the rows of [ddbb.select] for the identifier;
    - [select_dict_result]: the laps of [ddbb.select_dict] (or [None]);
    - [getMaxHR], [getZones]: from the profile. *)
Record pytrainer_main : Type := {
  prf_us_system : pyval;
  gpx : option Gpx;
  select_result : list DbRow.t;
  select_dict_result : option (list Lap.t);
  getMaxHR : pyval;
  getZones : list zone
}.

(** An instant with its offset to UTC in seconds; the offset is [None]
    for a datetime without time zone. *)
Record datetime : Type := { instant : Z; utcoffset : option Z }.

(** Library functions whose results the module stores or returns without
    looking into them. *)
Class Externals : Type := {
  (** [dateutil.parser.parse] *)
  dateutil_parse : pyval -> result datetime;
  (** [d.astimezone(tzlocal())]; raises on a datetime without time
      zone *)
  astimezone_tzlocal : datetime -> result datetime;
  (** [d.strftime("%X")]; raises on a year that it cannot format *)
  strftime_X : datetime -> result string;
  (** [Date().second2time]: hours, minutes, seconds *)
  second2time : pyval -> Z * Z * Z;
  (** [str(x)] for a float [x] *)
  str_float : Qc -> string;
  (** [format % value] *)
  py_format : string -> pyval -> result string
}.

(** ** The instance *)

(** The attributes assigned from the row of the database. *)
Record db_fields : Type := {
  sport_name : pyval;
  sport_id : pyval;
  title : pyval;
  date : pyval;
  time : pyval;
  time_tuple : Z * Z * Z;
  beats : pyval;
  comments : pyval;
  calories : pyval;
  id_record : pyval;
  maxbeats : pyval;
  date_time_local : pyval;
  date_time_utc : pyval;
  date_time : datetime;
  distance : pyval;
  average : pyval;
  upositive : pyval;
  unegative : pyval;
  maxspeed : pyval;
  maxpace : pyval;
  pace : pyval
}.

(** An instance past the two guards of [__init__].  [fields] is [None]
    as long as the attributes of [db_fields] have not been assigned;
    [lap_distance] and [lap_time] likewise.  The attributes that only the
    display uses (axis, limits, grids) are left out. *)
Record Activity : Type := {
  id : pyval;
  us_system : bool;
  has_gpx_file : bool;
  tracklist : option (list trkpoint);
  laps : option (list Lap.t);
  has_data : bool;
  distance_data : gmap string GraphData;
  time_data : gmap string GraphData;
  time_pause : pyval;
  pace_limit : pyval;
  starttime : pyval;
  gpx_distance : pyval;
  fields : option db_fields;
  lap_distance : option GraphData;
  lap_time : option GraphData
}.

(** What [Activity(pytrainer_main, id)] leaves behind when it returns:
    after one of the two guards an object with the attribute [id] and no
    other, else a populated instance. *)
Inductive constructed : Type :=
| Unpopulated (id : pyval)
| Populated (a : Activity).

Definition set_series (dd td : gmap string GraphData) (a : Activity) : Activity :=
  {| id := id a; us_system := us_system a; has_gpx_file := has_gpx_file a;
     tracklist := tracklist a; laps := laps a; has_data := has_data a;
     distance_data := dd; time_data := td;
     time_pause := time_pause a; pace_limit := pace_limit a;
     starttime := starttime a; gpx_distance := gpx_distance a;
     fields := fields a;
     lap_distance := lap_distance a; lap_time := lap_time a |}.

Definition set_lap_markers (ld lt : GraphData) (a : Activity) : Activity :=
  {| id := id a; us_system := us_system a; has_gpx_file := has_gpx_file a;
     tracklist := tracklist a; laps := laps a; has_data := has_data a;
     distance_data := distance_data a; time_data := time_data a;
     time_pause := time_pause a; pace_limit := pace_limit a;
     starttime := starttime a; gpx_distance := gpx_distance a;
     fields := fields a;
     lap_distance := Some ld; lap_time := Some lt |}.

Definition set_gpx_data (tl : list trkpoint) (d : pyval) (a : Activity) : Activity :=
  {| id := id a; us_system := us_system a; has_gpx_file := has_gpx_file a;
     tracklist := Some tl; laps := laps a; has_data := has_data a;
     distance_data := distance_data a; time_data := time_data a;
     time_pause := time_pause a; pace_limit := pace_limit a;
     starttime := starttime a; gpx_distance := d;
     fields := fields a;
     lap_distance := lap_distance a; lap_time := lap_time a |}.

Definition set_time_pause (p : pyval) (a : Activity) : Activity :=
  {| id := id a; us_system := us_system a; has_gpx_file := has_gpx_file a;
     tracklist := tracklist a; laps := laps a; has_data := has_data a;
     distance_data := distance_data a; time_data := time_data a;
     time_pause := p; pace_limit := pace_limit a;
     starttime := starttime a; gpx_distance := gpx_distance a;
     fields := fields a;
     lap_distance := lap_distance a; lap_time := lap_time a |}.

Definition set_row_data (f : db_fields) (limit start : pyval) (a : Activity) : Activity :=
  {| id := id a; us_system := us_system a; has_gpx_file := has_gpx_file a;
     tracklist := tracklist a; laps := laps a; has_data := true;
     distance_data := distance_data a; time_data := time_data a;
     time_pause := time_pause a; pace_limit := limit;
     starttime := start; gpx_distance := gpx_distance a;
     fields := Some f;
     lap_distance := lap_distance a; lap_time := lap_time a |}.

Definition set_laps (l : option (list Lap.t)) (a : Activity) : Activity :=
  {| id := id a; us_system := us_system a; has_gpx_file := has_gpx_file a;
     tracklist := tracklist a; laps := l; has_data := has_data a;
     distance_data := distance_data a; time_data := time_data a;
     time_pause := time_pause a; pace_limit := pace_limit a;
     starttime := starttime a; gpx_distance := gpx_distance a;
     fields := fields a;
     lap_distance := lap_distance a; lap_time := lap_time a |}.

(** A [for] loop whose body may raise. *)
Fixpoint for_each {A S : Type} (body : A -> S -> result S) (l : list A) (s : S)
  : result S :=
  match l with
  | [] => Ok s
  | x :: l' => let* s' := body x s in for_each body l' s'
  end.

(** *** Units ([_set_units]) *)

Definition distance_unit (a : Activity) : string :=
  if us_system a then "miles" else "km".
Definition speed_unit (a : Activity) : string :=
  if us_system a then "miles/h" else "km/h".
Definition pace_unit (a : Activity) : string :=
  if us_system a then "min/mile" else "min/km".
Definition height_unit (a : Activity) : string :=
  if us_system a then "feet" else "m".

Definition units (a : Activity) : gmap string string :=
  list_to_map
    [ ("distance", distance_unit a); ("average", speed_unit a);
      ("upositive", height_unit a); ("unegative", height_unit a);
      ("maxspeed", speed_unit a); ("pace", pace_unit a);
      ("maxpace", pace_unit a) ].

(** ["%s (%s)" % (name, unit)] *)
Definition axis_label (name unit : string) : pyval :=
  PStr (name ++ " (" ++ unit ++ ")").

(** *** [_float] and [_int] *)

Definition _float (value : pyval) : pyval := try_except (py_float value) (PFloat 0%Qc).
Definition _int (value : pyval) : pyval := try_except (py_int value) (PInt 0).

(** *** [pace_to_float] and [pace_from_float] *)

(** [value.replace(':', '.')], then [float], [None] on [ValueError];
    only strings have [replace]. *)
Definition pace_to_float (value : pyval) : result pyval :=
  match value with
  | PStr s =>
      match py_float (PStr (replace ":" "." s)) with
      | Ok v => Ok v
      | Raise ValueError => Ok PNone
      | Raise e => Raise e
      end
  | _ => Raise AttributeError
  end.

Section WithExternals.

Context `{Externals}.

(** [str(v)] *)
Definition py_str (v : pyval) : string :=
  match v with
  | PNone => "None"
  | PInt z => str_of_Z z
  | PFloat q => str_float q
  | PInf neg => if neg then "-inf" else "inf"
  | PNaN => "nan"
  | PStr s => s
  end.

Definition pace_from_float (value : pyval) : result pyval :=
  if py_not value then Ok (PStr "")
  else
    let* _value :=
      match py_float value with
      | Ok (PFloat q) => Ok (format_2f q)
      | Ok v => Ok (py_str v)
      | Raise ValueError => Ok (py_str value)
      | Raise e => Raise e
      end in
    Ok (PStr (replace "." ":" _value)).

(** *** [_init_from_gpx_file] *)

Definition acceptable_lapse : pyval := PInt 4.

Definition _init_from_gpx_file (g : Gpx) (a : Activity) : result Activity :=
  let a := set_gpx_data (trkpoints g) (PFloat (total_dist g)) a in
  let* time_diff := py_sub (PFloat (total_time_trkpts g)) (PFloat (total_time g)) in
  if py_gt time_diff acceptable_lapse then Ok (set_time_pause time_diff a)
  else Ok a.

(** *** [_get_laps_from_gpx] *)

(** [l.index(x)] for the [x] that is entry [i] of [l]: the first
    position whose entry is [x] itself or compares equal to [x]. *)
Fixpoint list_index (i : nat) (x : gpxlap) (l : list gpxlap) : Z :=
  match l with
  | [] => 0
  | y :: l' =>
      match i with
      | O => 0
      | S i' => if tuple_eq y x then 0 else 1 + list_index i' x l'
      end
  end.

(** The lap dictionary of the lap [lap] met at position [i] of the loop
    over [gpxLaps]. *)
Definition lap_from_gpx (self_id : pyval) (gpxLaps : list gpxlap) (i : nat)
    (lap : gpxlap) : Lap.t :=
  {| Lap.record := self_id;
     Lap.lap_number := PInt (list_index i lap gpxLaps);
     Lap.elapsed_time := lap0 lap;
     Lap.distance := lap4 lap;
     Lap.start_lat := lap5 lap;
     Lap.start_lon := lap6 lap;
     Lap.end_lat := lap1 lap;
     Lap.end_lon := lap2 lap;
     Lap.calories := lap3 lap |}.

(** The laps derived from the track log; each of them is also handed to
    [record.insertLaps]. *)
Definition _get_laps_from_gpx (g : Gpx) (a : Activity) : list Lap.t :=
  imap (lap_from_gpx (id a) (getLaps g)) (getLaps g).

(** *** [_init_from_db] *)

(** The load error of [_init_from_db]:
    [raise Exception("Error - multiple results from DB for id: %s" % self.id)] *)
Definition InconsistentData (self_id : pyval) : pyexn :=
  PyException ("Error - multiple results from DB for id: " ++ py_str self_id).

(** ["... %d" % v]: [%d] wants a number. *)
Definition percent_d (v : pyval) : result unit :=
  match v with
  | PInt _ | PFloat _ => Ok tt
  | PInf _ => Raise OverflowError
  | PNaN => Raise ValueError
  | PNone | PStr _ => Raise TypeError
  end.

Definition or_empty (v : pyval) : pyval :=
  if decide (v = PNone) then PStr "" else v.

Definition populate (row : DbRow.t) (a : Activity) : result Activity :=
  let sport_name := if py_eq (DbRow.sports_name row) PNone then PStr "" else DbRow.sports_name row in
  let pace_limit := DbRow.sports_max_pace row in
  let pace_limit :=
    if (py_eq pace_limit (PInt 0) || py_eq pace_limit (PStr ""))%bool
    then PNone else pace_limit in
  let time := _int (DbRow.time row) in
  let* date_time :=
    if decide (DbRow.date_time_local row = PNone) then
      let* tmpDateTime := dateutil_parse (DbRow.date_time_utc row) in
      astimezone_tzlocal tmpDateTime
    else dateutil_parse (DbRow.date_time_local row) in
  let* starttime := strftime_X date_time in
  let distance := _float (DbRow.distance row) in
  let distance := if py_not distance then gpx_distance a else distance in
  Ok (set_row_data
        {| sport_name := sport_name;
           sport_id := DbRow.id_sports row;
           title := or_empty (DbRow.title row);
           date := DbRow.date row;
           time := time;
           time_tuple := second2time time;
           beats := _int (DbRow.beats row);
           comments := or_empty (DbRow.comments row);
           calories := _int (DbRow.calories row);
           id_record := DbRow.id_record row;
           maxbeats := _int (DbRow.maxbeats row);
           date_time_local := DbRow.date_time_local row;
           date_time_utc := DbRow.date_time_utc row;
           date_time := date_time;
           distance := distance;
           average := _float (DbRow.average row);
           upositive := _float (DbRow.upositive row);
           unegative := _float (DbRow.unegative row);
           maxspeed := _float (DbRow.maxspeed row);
           maxpace := _float (DbRow.maxpace row);
           pace := _float (DbRow.pace row) |}
        pace_limit (PStr starttime) a).

(** [laps is None or laps == [] or len(laps) < 1] *)
Definition no_laps (l : option (list Lap.t)) : bool :=
  match l with
  | None | Some [] => true
  | Some (_ :: _) => false
  end.

(** The second component lists the laps passed to [record.insertLaps]. *)
Definition _init_from_db (main : pytrainer_main) (a : Activity)
  : result (Activity * list Lap.t) :=
  let db_result := select_result main in
  let* a :=
    match db_result with
    | [row] => populate row a
    | _ => Raise (InconsistentData (id a))
    end in
  let laps := select_dict_result main in
  if no_laps laps then
    let* _ := percent_d (id a) in
    if has_gpx_file a then
      match gpx main with
      | Some g =>
          let laps := _get_laps_from_gpx g a in
          Ok (set_laps (Some laps) a, laps)
      | None => Raise AttributeError
      end
    else Ok (set_laps laps a, [])
  else Ok (set_laps laps a, []).

(** *** [_init_graph_data] *)

(** The [pace] of a trackpoint (the first [try] of the loop). *)
Definition point_pace (limit : pyval) (track : trkpoint) : pyval :=
  try_except
    (let* pace := py_div (PInt 60) (velocity track) in
     if (negb (bool_decide (limit = PNone)) && py_gt pace limit)%bool
     then Ok (PInt 0) else Ok pace)
    (PInt 0).

(** The [hr_p] of a trackpoint (the second [try] of the loop). *)
Definition point_hr_p (maxhr : pyval) (track : trkpoint) : pyval :=
  try_except
    (let* h := py_float (hr track) in
     let* r := py_div h maxhr in
     py_mul r (PInt 100))
    (PInt 0).

(** [d[key].addPoints(x=x, y=y)] *)
Definition add_to (key : string) (x y : pyval) (d : gmap string GraphData)
  : gmap string GraphData :=
  alter (addPoints x y PNone PNone) key d.

(** The two mappings under construction. *)
Record series : Type := {
  by_distance : gmap string GraphData;
  by_time : gmap string GraphData
}.

(** The body of [for track in self.tracklist]. *)
Definition point_step (us : bool) (limit maxhr : pyval) (track : trkpoint)
    (s : series) : result series :=
  let pace := point_pace limit track in
  let hr_p := point_hr_p maxhr track in
  let dd := by_distance s in
  let td := by_time s in
  let* s :=
    if us then
      let* xd := km2miles (elapsed_distance track) in
      let* e := m2feet (ele track) in
      let dd := add_to "elevation" xd e dd in
      let* ce := m2feet (correctedElevation track) in
      let dd := add_to "cor_elevation" xd ce dd in
      let* v := km2miles (velocity track) in
      let dd := add_to "speed" xd v dd in
      let* p := pacekm2miles pace in
      let dd := add_to "pace" xd p dd in
      let dd := add_to "hr" xd (hr track) dd in
      let dd := add_to "hr_p" xd hr_p dd in
      let dd := add_to "cadence" xd (cadence track) dd in
      let td := add_to "elevation" (time_elapsed track) e td in
      let td := add_to "cor_elevation" (time_elapsed track) ce td in
      let td := add_to "speed" (time_elapsed track) v td in
      let td := add_to "pace" (time_elapsed track) p td in
      Ok {| by_distance := dd; by_time := td |}
    else
      let xd := elapsed_distance track in
      let dd := add_to "elevation" xd (ele track) dd in
      let dd := add_to "cor_elevation" xd (correctedElevation track) dd in
      let dd := add_to "speed" xd (velocity track) dd in
      let dd := add_to "pace" xd pace dd in
      let dd := add_to "hr" xd (hr track) dd in
      let dd := add_to "hr_p" xd hr_p dd in
      let dd := add_to "cadence" xd (cadence track) dd in
      let td := add_to "elevation" (time_elapsed track) (ele track) td in
      let td := add_to "cor_elevation" (time_elapsed track) (correctedElevation track) td in
      let td := add_to "speed" (time_elapsed track) (velocity track) td in
      let td := add_to "pace" (time_elapsed track) pace td in
      Ok {| by_distance := dd; by_time := td |} in
  let td := by_time s in
  let td := add_to "hr" (time_elapsed track) (hr track) td in
  let td := add_to "hr_p" (time_elapsed track) hr_p td in
  let td := add_to "cadence" (time_elapsed track) (cadence track) td in
  Ok {| by_distance := by_distance s; by_time := td |}.

(** [d.keys()] *)
Definition keys (d : gmap string GraphData) : list string := (map_to_list d).*1.

(** The body of the two removal loops: [if len(d[item]) == 0: del d[item]]. *)
Definition drop_if_empty (d : gmap string GraphData) (item : string)
  : gmap string GraphData :=
  match d !! item with
  | Some g => if Nat.eqb (len g) 0 then delete item d else d
  | None => d
  end.

Definition remove_empty (d : gmap string GraphData) : gmap string GraphData :=
  foldl drop_if_empty d (keys d).

(** The seven series of a mapping, as the head of [_init_graph_data]
    creates them. *)
Definition new_point_series (a : Activity) (xl : pyval)
    (d : gmap string GraphData) : gmap string GraphData :=
  let d := <["elevation" :=
    set_show_on_y1 true
      (set_color (PStr "#ff0000") (PStr "#ff0000")
         (new_GraphData (PStr "Elevation") xl (axis_label "Elevation" (height_unit a))))]> d in
  let d := <["cor_elevation" :=
    set_color (PStr "#993333") (PStr "#993333")
      (new_GraphData (PStr "Corrected Elevation") xl
         (axis_label "Corrected Elevation" (height_unit a)))]> d in
  let d := <["speed" :=
    set_color (PStr "#000000") (PStr "#000000")
      (new_GraphData (PStr "Speed") xl (axis_label "Speed" (speed_unit a)))]> d in
  let d := <["pace" :=
    set_color (PStr "#0000ff") (PStr "#0000ff")
      (new_GraphData (PStr "Pace") xl (axis_label "Pace" (pace_unit a)))]> d in
  let d := <["hr" :=
    set_color (PStr "#00ff00") (PStr "#00ff00")
      (new_GraphData (PStr "Heart Rate") xl (axis_label "Heart Rate" "bpm"))]> d in
  let d := <["hr_p" :=
    set_color (PStr "#00ff00") (PStr "#00ff00")
      (new_GraphData (PStr "Heart Rate (% of max)") xl (axis_label "Heart Rate" "%"))]> d in
  <["cadence" :=
    set_color (PStr "#cc00ff") (PStr "#cc00ff")
      (new_GraphData (PStr "Cadence") xl (axis_label "Cadence" "rpm"))]> d.

(** The body of [for zone in zones]. *)
Definition zone_step (z : zone) (s : series) : series :=
  {| by_distance :=
       alter (addPoints (zone0 z) (zone1 z) (zone3 z) (zone2 z)) "hr_z" (by_distance s);
     by_time :=
       alter (addPoints (zone0 z) (zone1 z) (zone3 z) (zone2 z)) "hr_z" (by_time s) |}.

(** The heart-rate zones, added after the removal loops. *)
Definition add_hr_zones (a : Activity) (zones : list zone) (s : series) : series :=
  match by_distance s !! "hr" with
  | Some _ =>
      let dd := <["hr_z" :=
        set_color PNone PNone
          (set_graphType "hspan"
             (new_GraphData (PStr "Heart Rate zone")
                (axis_label "Distance" (distance_unit a))
                (axis_label "Heart Rate" "bpm")))]> (by_distance s) in
      let td := <["hr_z" :=
        set_color PNone PNone
          (new_GraphData (PStr "Heart Rate zone") (PStr "Time (seconds)")
             (axis_label "Heart Rate" "bpm"))]> (by_time s) in
      foldl (fun s z => zone_step z s) {| by_distance := dd; by_time := td |} zones
  | None => s
  end.

(** Series generation for a track list: creation, the loop over the
    points, the removal of the series without values, the zones. *)
Definition point_series (main : pytrainer_main) (a : Activity)
    (tl : list trkpoint) : result series :=
  let dd := new_point_series a (axis_label "Distance" (distance_unit a))
              (distance_data a) in
  let td := new_point_series a (PStr "Time (seconds)") (time_data a) in
  let maxhr := getMaxHR main in
  let* s := for_each (point_step (us_system a) (pace_limit a) maxhr) tl
              {| by_distance := dd; by_time := td |} in
  let s := {| by_distance := remove_empty (by_distance s);
              by_time := remove_empty (by_time s) |} in
  Ok (add_hr_zones a (getZones main) s).

Definition _init_graph_data (main : pytrainer_main) (a : Activity) : result Activity :=
  match tracklist a with
  | None => Ok a
  | Some tl =>
      let* s := point_series main a tl in
      Ok (set_series (by_distance s) (by_time s) a)
  end.

(** *** [_generate_per_lap_graphs] *)

(** [float(lap['elapsed_time'].decode('utf-8'))]: only strings have
    [decode]. *)
Definition lap_seconds (lap : Lap.t) : result pyval :=
  match Lap.elapsed_time lap with
  | PStr s => py_float (PStr s)
  | _ => Raise AttributeError
  end.

(** [lap['distance']/1000] *)
Definition lap_km (lap : Lap.t) : result pyval :=
  py_div (Lap.distance lap) (PInt 1000).

(** [try: pace = time/(60*dist)  except ZeroDivisionError: pace = 0.0] *)
Definition lap_pace (time dist : pyval) : result pyval :=
  match (let* d := py_mul (PInt 60) dist in py_div time d) with
  | Ok pace => Ok pace
  | Raise ZeroDivisionError => Ok (PFloat 0%Qc)
  | Raise e => Raise e
  end.

(** [try: avg_speed = dist/(time/3600)  except: avg_speed = 0.0] *)
Definition lap_avg_speed (time dist : pyval) : pyval :=
  try_except (let* h := py_div time (PInt 3600) in py_div dist h) (PFloat 0%Qc).

(** [if self.pace_limit is not None and pace > self.pace_limit: pace = 0.0] *)
Definition limit_lap_pace (limit pace : pyval) : pyval :=
  if (negb (bool_decide (limit = PNone)) && py_gt pace limit)%bool
  then PFloat 0%Qc else pace.

Record lap_graphs : Type := {
  lg_lap_distance : GraphData;
  lg_lap_time : GraphData;
  lg_distance_data : gmap string GraphData;
  lg_time_data : gmap string GraphData
}.

(** [d[key].addBars(x=x, y=y)] *)
Definition bar_to (key : string) (x y : pyval) (d : gmap string GraphData)
  : gmap string GraphData :=
  alter (addBars x y) key d.

(** The body of [for lap in self.laps]. *)
Definition lap_step (us : bool) (limit : pyval) (lap : Lap.t) (s : lap_graphs)
  : result lap_graphs :=
  let* time := lap_seconds lap in
  let* dist := lap_km lap in
  let* pace := lap_pace time dist in
  let avg_speed := lap_avg_speed time dist in
  let pace := limit_lap_pace limit pace in
  let lt := addBars time (PInt 10) (lg_lap_time s) in
  if us then
    let* d := km2miles dist in
    let ld := addBars d (PInt 10) (lg_lap_distance s) in
    let* p := pacekm2miles pace in
    let dd := bar_to "pace_lap" d p (lg_distance_data s) in
    let td := bar_to "pace_lap" time p (lg_time_data s) in
    let* v := km2miles avg_speed in
    let dd := bar_to "speed_lap" d v dd in
    let td := bar_to "speed_lap" time v td in
    Ok {| lg_lap_distance := ld; lg_lap_time := lt;
          lg_distance_data := dd; lg_time_data := td |}
  else
    let ld := addBars dist (PInt 10) (lg_lap_distance s) in
    let dd := bar_to "pace_lap" dist pace (lg_distance_data s) in
    let td := bar_to "pace_lap" time pace (lg_time_data s) in
    let dd := bar_to "speed_lap" dist avg_speed dd in
    let td := bar_to "speed_lap" time avg_speed td in
    Ok {| lg_lap_distance := ld; lg_lap_time := lt;
          lg_distance_data := dd; lg_time_data := td |}.

Definition lap_marker : GraphData :=
  set_graphType "vspan"
    (set_color (PStr "#CCFF00") (PStr "#CCFF00") (new_GraphData PNone PNone PNone)).

Definition bar_series (title xl yl : pyval) (color : string) : GraphData :=
  set_graphType "bar" (set_color (PStr color) (PStr color) (new_GraphData title xl yl)).

(** The four graphs and two markers as created before the loop. *)
Definition new_lap_graphs (a : Activity) : lap_graphs :=
  let xd := axis_label "Distance" (distance_unit a) in
  let xt := PStr "Time (seconds)" in
  let yp := axis_label "Pace" (pace_unit a) in
  let ys := axis_label "Speed" (speed_unit a) in
  let dd := <["pace_lap" := bar_series (PStr "Pace by Lap") xd yp "#99CCFF"]> (distance_data a) in
  let td := <["pace_lap" := bar_series (PStr "Pace by Lap") xt yp "#99CCFF"]> (time_data a) in
  let dd := <["speed_lap" := bar_series (PStr "Speed by Lap") xd ys "#336633"]> dd in
  let td := <["speed_lap" := bar_series (PStr "Speed by Lap") xt ys "#336633"]> td in
  {| lg_lap_distance := lap_marker; lg_lap_time := lap_marker;
     lg_distance_data := dd; lg_time_data := td |}.

Definition _generate_per_lap_graphs (a : Activity) : result Activity :=
  match laps a with
  | None => Ok a
  | Some ls =>
      let* s := for_each (lap_step (us_system a) (pace_limit a)) ls (new_lap_graphs a) in
      Ok (set_lap_markers (lg_lap_distance s) (lg_lap_time s)
            (set_series (lg_distance_data s) (lg_time_data s) a))
  end.

(** *** [__init__] *)

(** The attributes as assigned by [__init__] before any source is read. *)
Definition fresh (main : pytrainer_main) (self_id : pyval) : Activity :=
  {| id := self_id;
     us_system := py_eq (prf_us_system main) (PStr "True");
     has_gpx_file := bool_decide (is_Some (gpx main));
     tracklist := None; laps := None; has_data := false;
     distance_data := ∅; time_data := ∅;
     time_pause := PInt 0; pace_limit := PNone;
     starttime := PNone; gpx_distance := PNone;
     fields := None; lap_distance := None; lap_time := None |}.

(** [Activity(pytrainer_main, id)]: the object left behind and the laps
    written back to the database, or the exception that leaves the
    constructor. *)
Definition __init__ (main : option pytrainer_main) (self_id : pyval)
  : result (constructed * list Lap.t) :=
  if decide (self_id = PNone) then Ok (Unpopulated self_id, [])
  else
    match main with
    | None => Ok (Unpopulated self_id, [])
    | Some main =>
        let a := fresh main self_id in
        let* a :=
          match gpx main with
          | Some g => _init_from_gpx_file g a
          | None => Ok a
          end in
        let* r := _init_from_db main a in
        let* a := _init_graph_data main r.1 in
        let* a := _generate_per_lap_graphs a in
        Ok (Populated a, r.2)
    end.

(** *** [get_value] and [get_value_f] *)

(** ["%02d" % z] *)
Definition pad2 (z : Z) : string :=
  if ((0 <=? z) && (z <? 10))%bool then "0" ++ str_of_Z z else str_of_Z z.

(** [self.<attribute>] for an attribute assigned from the database row. *)
Definition attribute (a : Activity) (proj : db_fields -> pyval) : result pyval :=
  match fields a with
  | Some f => Ok (proj f)
  | None => Raise AttributeError
  end.

(** [conv(v)] in the imperial system, [v] in the metric one. *)
Definition converted (a : Activity) (conv : pyval -> result pyval)
    (proj : db_fields -> pyval) : result pyval :=
  let* v := attribute a proj in
  if us_system a then conv v else Ok v.

Definition get_value (a : Activity) (param : string) : result pyval :=
  if String.eqb param "distance" then converted a km2miles distance
  else if String.eqb param "average" then converted a km2miles average
  else if String.eqb param "upositive" then converted a m2feet upositive
  else if String.eqb param "unegative" then converted a m2feet unegative
  else if String.eqb param "maxspeed" then converted a km2miles maxspeed
  else if String.eqb param "maxpace" then
    let* v := converted a pacekm2miles maxpace in pace_from_float v
  else if String.eqb param "pace" then
    let* v := converted a pacekm2miles pace in pace_from_float v
  else if String.eqb param "calories" then attribute a calories
  else if String.eqb param "time" then
    let* t := attribute a time in
    if py_not t then Ok (PStr "")
    else
      let '(_hour, _min, _sec) := second2time t in
      if _hour =? 0 then Ok (PStr (pad2 _min ++ ":" ++ pad2 _sec))
      else Ok (PStr (str_of_Z _hour ++ ":" ++ pad2 _min ++ ":" ++ pad2 _sec))
  else Ok PNone.

Definition get_value_f (a : Activity) (param : string) (format : option string)
    (with_units : bool) : result string :=
  let* value := get_value a param in
  if py_not value then Ok ""
  else
    let* result :=
      match format with
      | Some fmt => py_format fmt value
      | None => Ok (py_str value)
      end in
    if with_units then
      match units a !! param with
      | Some u => Ok (result ++ u)
      | None => Ok result
      end
    else Ok result.

End WithExternals.

(** ** Concrete inputs

    Stand-ins for the library functions and a small activity, on which
    the model is run in the examples below. *)

(** Whether the text of a timestamp names a time zone: a final [Z] or
    an offset. *)
Definition zoned (s : string) : bool :=
  existsb (fun c => (Ascii.eqb c "Z" || Ascii.eqb c "+")%bool)
    (list_ascii_of_string s).

Definition sample_externals : Externals :=
  {| dateutil_parse := fun v =>
       match v with
       | PStr s => if String.eqb s "" then Raise ValueError
                   else Ok {| instant := 0;
                              utcoffset := if zoned s then Some 0 else None |}
       | _ => Raise TypeError
       end;
     astimezone_tzlocal := fun d =>
       match utcoffset d with
       | Some _ => Ok {| instant := instant d; utcoffset := Some 0 |}
       | None => Raise ValueError
       end;
     strftime_X := fun _ => Ok "00:00:00";
     second2time := fun v =>
       match v with
       | PInt z => (z / 3600, (z mod 3600) / 60, z mod 60)
       | _ => (0, 0, 0)
       end;
     str_float := format_2f;
     py_format := fun fmt v =>
       match num_of v with
       | Some q => if String.eqb fmt "%0.2f" then Ok (format_2f q) else Raise ValueError
       | None => Raise TypeError
       end |}.

Definition sample_point (d t e h v : pyval) : trkpoint :=
  {| elapsed_distance := d; time_elapsed := t; ele := e;
     correctedElevation := e; hr := h; cadence := PNone; velocity := v |}.

Definition sample_row (dist pace_ limit : pyval) : DbRow.t :=
  {| DbRow.sports_name := PStr "Run"; DbRow.id_sports := PInt 1;
     DbRow.date := PStr "2012-05-01"; DbRow.distance := dist;
     DbRow.time := PInt 3600; DbRow.beats := PInt 140; DbRow.comments := PNone;
     DbRow.average := PFloat (Qc_of_Z 10); DbRow.calories := PInt 700;
     DbRow.id_record := PInt 7; DbRow.title := PStr "Morning run";
     DbRow.upositive := PFloat (Qc_of_Z 120); DbRow.unegative := PFloat (Qc_of_Z 118);
     DbRow.maxspeed := PFloat (Qc_of_Z 14); DbRow.maxpace := pace_;
     DbRow.pace := pace_; DbRow.maxbeats := PInt 171;
     DbRow.date_time_utc := PStr "2012-05-01T06:00:00Z";
     DbRow.date_time_local := PStr "2012-05-01T08:00:00+02:00";
     DbRow.sports_max_pace := limit |}.

(** The row of an activity stored without a local timestamp. *)
Definition sample_row_utc (utc : string) : DbRow.t :=
  {| DbRow.sports_name := PStr "Run"; DbRow.id_sports := PInt 1;
     DbRow.date := PStr "2012-05-01"; DbRow.distance := PFloat (Qc_of_Z 10);
     DbRow.time := PInt 3600; DbRow.beats := PInt 140; DbRow.comments := PNone;
     DbRow.average := PFloat (Qc_of_Z 10); DbRow.calories := PInt 700;
     DbRow.id_record := PInt 7; DbRow.title := PStr "Morning run";
     DbRow.upositive := PFloat (Qc_of_Z 120); DbRow.unegative := PFloat (Qc_of_Z 118);
     DbRow.maxspeed := PFloat (Qc_of_Z 14); DbRow.maxpace := PFloat (Qc_of_Z 6);
     DbRow.pace := PFloat (Qc_of_Z 6); DbRow.maxbeats := PInt 171;
     DbRow.date_time_utc := PStr utc;
     DbRow.date_time_local := PNone;
     DbRow.sports_max_pace := PInt 0 |}.

Definition sample_lap (seconds metres : pyval) : Lap.t :=
  {| Lap.record := PInt 7; Lap.lap_number := PInt 0;
     Lap.elapsed_time := seconds; Lap.distance := metres;
     Lap.start_lat := PNone; Lap.start_lon := PNone;
     Lap.end_lat := PNone; Lap.end_lon := PNone; Lap.calories := PInt 0 |}.

Definition sample_gpx (pts : list trkpoint) (from_laps from_points : Z) : Gpx :=
  {| trkpoints := pts; total_dist := Qc_of_Z 10; total_dist_trkpts := Qc_of_Z 10;
     total_time := Qc_of_Z from_laps; total_time_trkpts := Qc_of_Z from_points;
     getLaps := [] |}.

Definition sample_main (us : string) (g : option Gpx) (rows : list DbRow.t)
    (ls : option (list Lap.t)) : pytrainer_main :=
  {| prf_us_system := PStr us; gpx := g; select_result := rows;
     select_dict_result := ls; getMaxHR := PInt 190;
     getZones := [ {| zone0 := PInt 100; zone1 := PInt 140;
                      zone2 := PStr "#ffff99"; zone3 := PStr "Moderate" |} ] |}.


(** A ten-kilometre hour with two track points and one lap. *)
Definition sample_points : list trkpoint :=
  [ sample_point (PFloat (Qc_of_Z 5)) (PInt 1800) (PFloat (Qc_of_Z 420))
      (PInt 150) (PFloat (Qc_of_Z 10));
    sample_point (PFloat (Qc_of_Z 10)) (PInt 3600) (PFloat (Qc_of_Z 431))
      (PInt 160) (PFloat (Qc_of_Z 10)) ].

Definition sample_laps : list Lap.t :=
  [ sample_lap (PStr "3600") (PFloat (Qc_of_Z 10000)) ].

(** The activity with a track log whose points span [from_points]
    seconds and whose laps add up to [from_laps] seconds. *)
Definition sample_with_gpx (us : string) (from_laps from_points : Z) : pytrainer_main :=
  sample_main us (Some (sample_gpx sample_points from_laps from_points))
    [ sample_row (PFloat (Qc_of_Z 10)) (PFloat (Qc_of_Z 6)) (PInt 0) ]
    (Some sample_laps).

(** The same activity without a track log, with the given rows and laps. *)
Definition sample_without_gpx (rows : list DbRow.t) (ls : option (list Lap.t))
  : pytrainer_main :=
  sample_main "False" None rows ls.

(** The characters that a float literal is made of. *)
Definition float_char (c : ascii) : bool :=
  (is_space c || bool_decide (is_Some (digit_of c))
   || Ascii.eqb c "." || Ascii.eqb c "-" || Ascii.eqb c "+"
   || Ascii.eqb (lower c) "e"
   || Ascii.eqb (lower c) "i" || Ascii.eqb (lower c) "n"
   || Ascii.eqb (lower c) "f" || Ascii.eqb (lower c) "t"
   || Ascii.eqb (lower c) "y" || Ascii.eqb (lower c) "a")%bool.

(** What the removal loops leave of an entry of a mapping. *)
Definition keep_nonempty {A : Type} (size : A -> nat) (o : option A) : option A :=
  match o with
  | Some g => if Nat.eqb (size g) 0 then None else Some g
  | None => None
  end.

(** The activity with a track log (heart rate in every point) and a
    profile without heart-rate zones. *)
Definition sample_without_zones : pytrainer_main :=
  {| prf_us_system := PStr "False";
     gpx := Some (sample_gpx sample_points 3598 3600);
     select_result := [ sample_row (PFloat (Qc_of_Z 10)) (PFloat (Qc_of_Z 6)) (PInt 0) ];
     select_dict_result := Some sample_laps;
     getMaxHR := PInt 190;
     getZones := [] |}.

(** The same instance in the other measurement system. *)
Definition with_us_system (b : bool) (a : Activity) : Activity :=
  {| id := id a; us_system := b; has_gpx_file := has_gpx_file a;
     tracklist := tracklist a; laps := laps a; has_data := has_data a;
     distance_data := distance_data a; time_data := time_data a;
     time_pause := time_pause a; pace_limit := pace_limit a;
     starttime := starttime a; gpx_distance := gpx_distance a;
     fields := fields a;
     lap_distance := lap_distance a; lap_time := lap_time a |}.

(** Whether [addPoints] keeps the point [(x, y)]. *)
Definition kept (x y : pyval) : bool := truthy x && truthy y.

(** The x-values of every series of a mapping. *)
Definition x_sequences (d : gmap string GraphData) : gmap string (list pyval) :=
  x_values <$> d.

(** The number of points of every series of a mapping. *)
Definition sizes (d : gmap string GraphData) : gmap string nat := len <$> d.

(** Two runs agree on the sizes of the series by distance and on the
    x-values of the series by time. *)
Definition same_shape (s1 s2 : series) : Prop :=
  sizes (by_distance s1) = sizes (by_distance s2)
  /\ x_sequences (by_time s1) = x_sequences (by_time s2).

Definition bump (b : bool) (n : nat) : nat := if b then S n else n.

Definition push (b : bool) (x : pyval) (l : list pyval) : list pyval :=
  if b then (l ++ [x])%list else l.

(** Every x-value of every series of the mapping is the [time_elapsed]
    of a point of the track list. *)
Definition times_of (tl : list trkpoint) (d : gmap string GraphData) : Prop :=
  forall k g x, d !! k = Some g -> x ∈ x_values g ->
    exists t, t ∈ tl /\ x = time_elapsed t.

(** The answers of [pytrainer_main] under another setting of the
    measurement system. *)
Definition in_system (u : pyval) (main : pytrainer_main) : pytrainer_main :=
  {| prf_us_system := u; gpx := gpx main;
     select_result := select_result main;
     select_dict_result := select_dict_result main;
     getMaxHR := getMaxHR main; getZones := getZones main |}.

(** A track point whose converted entries are numbers. *)
Definition numeric_point (t : trkpoint) : Prop :=
  is_Some (num_of (elapsed_distance t)) /\ is_Some (num_of (ele t))
  /\ is_Some (num_of (correctedElevation t)) /\ is_Some (num_of (velocity t)).


(** A lap that [_generate_per_lap_graphs] can read: the elapsed time is
    the text of a number and the distance is a number. *)
Definition readable_lap (lap : Lap.t) : Prop :=
  (exists s t, Lap.elapsed_time lap = PStr s /\ float_of_string s = Some t)
  /\ is_Some (num_of (Lap.distance lap)).

(** [limit is not None and pace > limit] for a float [pace]. *)
Definition exceeds (limit : pyval) (pace : Qc) : bool :=
  negb (bool_decide (limit = PNone)) && py_gt (PFloat pace) limit.

(** A length or a speed as the graphs per lap plot it: converted to
    miles in the imperial system. *)
Definition plotted_length (us : bool) (q : Qc) : Qc :=
  if us then fl (q * miles_per_km) else q.

(** A pace as the graphs per lap plot it. *)
Definition plotted_pace (us : bool) (q : Qc) : Qc :=
  if us then fl (q / miles_per_km) else q.

(** The graphs per lap before the first lap: the two markers and the
    two bar series, without bars. *)
Definition sample_lap_graphs : lap_graphs :=
  {| lg_lap_distance := lap_marker; lg_lap_time := lap_marker;
     lg_distance_data :=
       {[ "pace_lap" := bar_series PNone PNone PNone "#99CCFF";
          "speed_lap" := bar_series PNone PNone PNone "#336633" ]};
     lg_time_data :=
       {[ "pace_lap" := bar_series PNone PNone PNone "#99CCFF";
          "speed_lap" := bar_series PNone PNone PNone "#336633" ]} |}.

(** The laps that [_init_from_db] stores: those of the database, or,
    when it has none and there is a track log, those of the track log. *)
Definition laps_to_graph (main : pytrainer_main) (self_id : pyval)
  : option (list Lap.t) :=
  if no_laps (select_dict_result main) then
    match gpx main with
    | Some g => Some (imap (lap_from_gpx self_id (getLaps g)) (getLaps g))
    | None => select_dict_result main
    end
  else select_dict_result main.

(** The timestamp of the row can be read: the local one, if there is
    one, is parsed; else the one in UTC is parsed and moved to the local
    time zone; the outcome can be formatted as a time of day. *)
Definition timestamp_parses `{Externals} (row : DbRow.t) : Prop :=
  exists d s,
    (if decide (DbRow.date_time_local row = PNone)
     then let* tmpDateTime := dateutil_parse (DbRow.date_time_utc row) in
          astimezone_tzlocal tmpDateTime
     else dateutil_parse (DbRow.date_time_local row)) = Ok d
    /\ strftime_X d = Ok s.

(** ** Further definitions used by the properties of the remaining code *)

Definition is_float (v : pyval) : bool :=
  match v with
  | PFloat _ | PInf _ | PNaN => true
  | PNone | PInt _ | PStr _ => false
  end.

Definition is_int (v : pyval) : bool :=
  match v with
  | PInt _ => true
  | _ => false
  end.

(** The column [sports.max_pace] as [_init_from_db] keeps it: 0 and the
    empty string mean that the sport has no limit. *)
Definition normalised_limit (v : pyval) : pyval :=
  if (py_eq v (PInt 0) || py_eq v (PStr ""))%bool then PNone else v.

(** The total distance of the track log, [None] without a track log. *)
Definition track_log_distance (main : pytrainer_main) : pyval :=
  match gpx main with
  | Some g => PFloat (total_dist g)
  | None => PNone
  end.

(** What [_init_from_db] stores for a row, given the distance of the
    track log. *)
Definition stored_from `{Externals} (row : DbRow.t) (track_distance : pyval)
    (f : db_fields) : Prop :=
  sport_name f = (if py_eq (DbRow.sports_name row) PNone then PStr ""
                  else DbRow.sports_name row)
  /\ title f = or_empty (DbRow.title row)
  /\ comments f = or_empty (DbRow.comments row)
  /\ time f = _int (DbRow.time row)
  /\ time_tuple f = second2time (_int (DbRow.time row))
  /\ beats f = _int (DbRow.beats row)
  /\ calories f = _int (DbRow.calories row)
  /\ maxbeats f = _int (DbRow.maxbeats row)
  /\ average f = _float (DbRow.average row)
  /\ upositive f = _float (DbRow.upositive row)
  /\ unegative f = _float (DbRow.unegative row)
  /\ maxspeed f = _float (DbRow.maxspeed row)
  /\ maxpace f = _float (DbRow.maxpace row)
  /\ pace f = _float (DbRow.pace row)
  /\ distance f = (if py_not (_float (DbRow.distance row)) then track_distance
                   else _float (DbRow.distance row))
  /\ sport_id f = DbRow.id_sports row
  /\ date f = DbRow.date row
  /\ id_record f = DbRow.id_record row.

(** The field names that [get_value] knows. *)
Definition known_params : list string :=
  [ "distance"; "average"; "upositive"; "unegative"; "maxspeed";
    "maxpace"; "pace"; "calories"; "time" ].

(** The laps that [_init_from_db] passes to [record.insertLaps]: the
    laps derived from the track log, when the database had none. *)
Definition written_back (main : pytrainer_main) (self_id : pyval) : list Lap.t :=
  if no_laps (select_dict_result main) then
    match gpx main with
    | Some g => imap (lap_from_gpx self_id (getLaps g)) (getLaps g)
    | None => []
    end
  else [].

(** A lap of a track log, and a track log with laps: two of them are
    equal. *)
Definition sample_gpxlap (seconds : string) (metres : Z) : gpxlap :=
  {| lap0 := PStr seconds; lap1 := PStr "48.1"; lap2 := PStr "11.5";
     lap3 := PInt 100; lap4 := PFloat (Qc_of_Z metres);
     lap5 := PStr "48.0"; lap6 := PStr "11.4"; lap_rest := [] |}.

(** The same lap with its calories as a float: [100.0 == 100]. *)
Definition sample_gpxlap_float (seconds : string) (metres : Z) : gpxlap :=
  {| lap0 := PStr seconds; lap1 := PStr "48.1"; lap2 := PStr "11.5";
     lap3 := PFloat (Qc_of_Z 100); lap4 := PFloat (Qc_of_Z metres);
     lap5 := PStr "48.0"; lap6 := PStr "11.4"; lap_rest := [] |}.

Definition sample_gpx_with_laps : Gpx :=
  {| trkpoints := sample_points; total_dist := Qc_of_Z 10;
     total_dist_trkpts := Qc_of_Z 10;
     total_time := Qc_of_Z 3598; total_time_trkpts := Qc_of_Z 3600;
     getLaps := [ sample_gpxlap "1200" 3000; sample_gpxlap "1198" 4000;
                  sample_gpxlap "1200" 3000 ] |}.

Definition y_values (g : GraphData) : list pyval := map dp_y (points g).

(** The point that [addPoints(x, y)] appends, if it appends one. *)
Definition point_of (x y : pyval) : list datapoint :=
  if kept x y
  then [ {| dp_x := x; dp_y := y; dp_label := PNone; dp_color := PNone |} ]
  else [].

(** The points that a track list gives to a series which plots [y]
    against [x]. *)
Definition points_from (x y : trkpoint -> pyval) (tl : list trkpoint)
  : list datapoint :=
  flat_map (fun t => point_of (x t) (y t)) tl.

(** What each series of the track points plots, before any conversion
    of units; [None] for a name that is no series of the track points. *)
Definition plotted (limit maxhr : pyval) (k : string) : option (trkpoint -> pyval) :=
  if String.eqb k "elevation" then Some ele
  else if String.eqb k "cor_elevation" then Some correctedElevation
  else if String.eqb k "speed" then Some velocity
  else if String.eqb k "pace" then Some (point_pace limit)
  else if String.eqb k "hr" then Some hr
  else if String.eqb k "hr_p" then Some (point_hr_p maxhr)
  else if String.eqb k "cadence" then Some cadence
  else None.

(** A series with no point is removed. *)
Definition nonempty (l : list datapoint) : option (list datapoint) :=
  match l with [] => None | _ :: _ => Some l end.

(** The points that the zones of the profile give to the zone series. *)
Definition zone_points (zs : list zone) : list datapoint :=
  flat_map (fun z =>
    if kept (zone0 z) (zone1 z)
    then [ {| dp_x := zone0 z; dp_y := zone1 z;
              dp_label := zone3 z; dp_color := zone2 z |} ]
    else []) zs.

(** The conversions that the loop over the track points applies in the
    imperial system: to the distance axis, and to the values of a
    series. *)
Definition distance_in_units (us : bool) (v : pyval) : result pyval :=
  if us then km2miles v else Ok v.

Definition in_units (us : bool) (k : string) (v : pyval) : result pyval :=
  if us then
    if (String.eqb k "elevation" || String.eqb k "cor_elevation")%bool then m2feet v
    else if String.eqb k "speed" then km2miles v
    else if String.eqb k "pace" then pacekm2miles v
    else Ok v
  else Ok v.

(** Every point of the series [k] of a mapping satisfies [P]. *)
Definition points_satisfy (P : datapoint -> Prop) (k : string)
    (d : gmap string GraphData) : Prop :=
  forall g p, d !! k = Some g -> p ∈ points g -> P p.

(** The point was plotted for a point of the track list: [x] and [y]
    computed its coordinates, and both are true values. *)
Definition plotted_for (tl : list trkpoint) (x y : trkpoint -> result pyval)
    (p : datapoint) : Prop :=
  exists t, t ∈ tl /\ x t = Ok (dp_x p) /\ y t = Ok (dp_y p)
    /\ kept (dp_x p) (dp_y p) = true.

(** The names under which the constructor stores series. *)
Definition series_names : list string :=
  [ "elevation"; "cor_elevation"; "speed"; "pace"; "hr"; "hr_p"; "cadence";
    "hr_z"; "pace_lap"; "speed_lap" ].

(** What one lap gives to the graphs per lap: its time, its distance,
    its pace and its speed, as plotted. *)
Record lapbar : Type := {
  bar_time : pyval;
  bar_dist : pyval;
  bar_pace : pyval;
  bar_speed : pyval
}.

(** The bar that [addBars(x, y)] appends. *)
Definition bar (x y : pyval) : datapoint :=
  {| dp_x := x; dp_y := y; dp_label := PNone; dp_color := PNone |}.

(** The bars of a lap are those of [lap]: the time is its elapsed time
    read as a float, the distance its distance in kilometres, in miles
    in the imperial system. *)
Definition bar_of_lap (us : bool) (lap : Lap.t) (b : lapbar) : Prop :=
  lap_seconds lap = Ok (bar_time b)
  /\ exists dist, lap_km lap = Ok dist
       /\ distance_in_units us dist = Ok (bar_dist b).

(** The value of a run of decimal digits read after [acc]. *)
Fixpoint uint_value (d : Decimal.uint) (acc : Z) : Z :=
  match d with
  | Decimal.Nil => acc
  | Decimal.D0 d => uint_value d (10 * acc + 0)
  | Decimal.D1 d => uint_value d (10 * acc + 1)
  | Decimal.D2 d => uint_value d (10 * acc + 2)
  | Decimal.D3 d => uint_value d (10 * acc + 3)
  | Decimal.D4 d => uint_value d (10 * acc + 4)
  | Decimal.D5 d => uint_value d (10 * acc + 5)
  | Decimal.D6 d => uint_value d (10 * acc + 6)
  | Decimal.D7 d => uint_value d (10 * acc + 7)
  | Decimal.D8 d => uint_value d (10 * acc + 8)
  | Decimal.D9 d => uint_value d (10 * acc + 9)
  end.

(** The two digits that ["%0.2f"] prints after the point. *)
Definition two_digits (f : Z) : string :=
  (if f <? 10 then "0" else "") ++ str_of_nonneg f.

(** [two_digits f] is two digits whose value is [f]. *)
Definition two_digits_ok (f : Z) : bool :=
  match list_ascii_of_string (two_digits f) with
  | [c1; c2] =>
      match digit_of c1, digit_of c2 with
      | Some a, Some b => (10 * a + b =? f) && negb (is_space c2)
      | _, _ => false
      end
  | _ => false
  end.

(** * The Strava upload extension ([extensions/stravaupload/stravaupload.py])

    The extension reads and writes files and talks to a web service.
    Both are explicit here: a [world] holds the files and the calls made
    to the service so far, and every function takes a world and returns
    the world it leaves.  What the service answers, which files can be
    written and how Python renders values and errors as text are
    collected in a [service], about which nothing is assumed. *)

Module Strava.

(** What [json.loads] returns: a scalar (as a Python value: [None], a
    number or a text), a truth value, a list (its items are never read)
    or a dictionary.  A character above 127 in a text stands for a
    character outside ASCII. *)
Inductive json : Type :=
| JVal (v : pyval)
| JBool (b : bool)
| JList
| JDict (members : dict)
with dict : Type :=
| Empty
| Entry (key : string) (value : json) (rest : dict).

(** The exceptions, as far as [run] tells them apart, each with its
    text [str(e)]: [ValueError] and [KeyError] (with their subclasses),
    [TypeError], any other subclass of [Exception], and what is no
    [Exception] at all ([KeyboardInterrupt], [SystemExit]). *)
Inductive exn : Type :=
| ValueError (text : string)
| KeyError (text : string)
| TypeError (text : string)
| OtherException (text : string)
| NoException.

Inductive outcome (A : Type) : Type :=
| Returns (a : A)
| Raises (e : exn).

Arguments Returns {A} a.
Arguments Raises {A} e.

(** The values posted to the service. *)
Definition values : Type := gmap string json.

(** One call of [get_web_data]. *)
Definition call : Type := string * values.

(** What the extension cannot know: the outcome of
    [get_web_data(url, values)] given the calls made before, whether
    [open(path, 'w')] succeeds, the text of the [TypeError] raised by
    [j[key]] when [j] is no dictionary, and the text ["%s" % j]. *)
Record service : Type := {
  respond : list call -> call -> outcome json;
  writable : string -> bool;
  subscript_error : json -> string;
  text_of : json -> string
}.

Record world : Type := {
  files : gmap string string;
  calls : list call
}.

(** The object: the directory of the configuration, the two options,
    and whether a main window was given. *)
Record StravaUpload : Type := {
  conf_dir : string;
  email : json;
  password : json;
  has_main : bool
}.

Definition login_url : string := "https://www.strava.com/api/v2/authentication/login".
Definition upload_url : string := "http://www.strava.com/api/v2/upload".

(** ["%s/.strava_token" % self.conf_dir] *)
Definition strava_token (self : StravaUpload) : string :=
  conf_dir self ++ "/.strava_token".

(** [f.readline()] on a file just opened: the first line, with its
    newline. *)
Fixpoint readline (s : string) : string :=
  match s with
  | EmptyString => EmptyString
  | String c s' =>
      if Ascii.eqb c "010" then String c EmptyString else String c (readline s')
  end.

(** [s.strip() == ''] *)
Definition blank (s : string) : bool :=
  match strip (list_ascii_of_string s) with
  | [] => true
  | _ :: _ => false
  end.

Definition is_ascii (s : string) : bool :=
  forallb (fun c => (N_of_ascii c <? 128)%N) (list_ascii_of_string s).

(** [d[key]] on a dictionary read from JSON. *)
Fixpoint lookup_member (key : string) (members : dict) : option json :=
  match members with
  | Empty => None
  | Entry k v rest => if String.eqb k key then Some v else lookup_member key rest
  end.

(** [result[key]] *)
Definition getitem (sv : service) (result : json) (key : string) : outcome json :=
  match result with
  | JDict members =>
      match lookup_member key members with
      | Some v => Returns v
      | None => Raises (KeyError ("'" ++ key ++ "'"))
      end
  | _ => Raises (TypeError (subscript_error sv result))
  end.

(** [j is None] *)
Definition is_none (j : json) : bool :=
  match j with
  | JVal PNone => true
  | _ => false
  end.

(** Python 2 [j > 0]: numbers by value, [True] as 1 and [False] as 0,
    [None] below every number, every other value above. *)
Definition positive (j : json) : bool :=
  match j with
  | JVal v => py_gt v (PInt 0)
  | JBool b => b
  | JList | JDict _ => true
  end.

(** [get_web_data]: the call is recorded, the service decides. *)
Definition get_web_data (sv : service) (url : string) (vs : values) (w : world)
  : outcome json * world :=
  (respond sv (calls w) (url, vs),
   {| files := files w; calls := calls w ++ [(url, vs)] |}).

(** [with open(self.strava_token, 'w') as f: f.write(token)], its
    failures ignored: once the file is open it is empty, and stays so
    when [write] rejects the token. *)
Definition write_token (sv : service) (self : StravaUpload) (token : json)
    (w : world) : world :=
  if writable sv (strava_token self) then
    let content :=
      match token with
      | JVal (PStr s) => if is_ascii s then s else ""
      | _ => ""
      end in
    {| files := <[strava_token self := content]> (files w); calls := calls w |}
  else w.

(** The branch of [login_token] that asks the service for a token and
    stores it. *)
Definition fetch_token (sv : service) (self : StravaUpload) (w : world)
  : outcome json * world :=
  let '(r, w) :=
    get_web_data sv login_url
      (<["email" := email self]> (<["password" := password self]> ∅)) w in
  match r with
  | Returns result =>
      match getitem sv result "token" with
      | Returns token => (Returns token, write_token sv self token w)
      | Raises e => (Raises e, w)
      end
  | Raises e => (Raises e, w)
  end.

(** [token] stays [None] when the file cannot be read. *)
Definition login_token (sv : service) (self : StravaUpload) (w : world)
  : outcome json * world :=
  let token := readline <$> files w !! strava_token self in
  match token with
  | Some t =>
      if blank t then fetch_token sv self w
      else (Returns (JVal (PStr t)), w)
  | None => fetch_token sv self w
  end.

Definition upload (sv : service) (self : StravaUpload) (token : json)
    (gpx_file : string) (w : world) : outcome json * world :=
  match files w !! gpx_file with
  | Some gpx =>
      if blank gpx then (Returns (JVal (PInt 0)), w)
      else
        let '(r, w) :=
          get_web_data sv upload_url
            (<["token" := token]>
               (<["type" := JVal (PStr "gpx")]>
                  (<["data" := JVal (PStr gpx)]> ∅))) w in
        match r with
        | Returns result => (getitem sv result "upload_id", w)
        | Raises e => (Raises e, w)
        end
  | None => (Returns (JVal (PInt 0)), w)
  end.

(** ["%s/gpx/%s.gpx" % (self.conf_dir, id)], for the text of [id]. *)
Definition gpx_path (self : StravaUpload) (id : string) : string :=
  conf_dir self ++ "/gpx/" ++ id ++ ".gpx".

(** The [try] block of [run]: the text of the log, or the exception
    that leaves the block. *)
Definition attempt (sv : service) (self : StravaUpload) (id : string)
    (w : world) : outcome string * world :=
  let log := "Strava Upload " in
  let '(r, w) := login_token sv self w in
  match r with
  | Returns user_token =>
      if is_none user_token then (Returns log, w)
      else
        let '(r, w) := upload sv self user_token (gpx_path self id) w in
        match r with
        | Returns upload_id =>
            if positive upload_id
            then (Returns (log ++ "success (id: " ++ text_of sv upload_id ++ ")!"), w)
            else (Returns (log ++ "failed to upload!"), w)
        | Raises e => (Raises e, w)
        end
  | Raises e => (Raises e, w)
  end.

(** [run]: the text shown in the message dialogue, or the exception
    that leaves [run]; without a main window the dialogue cannot be
    created. *)
Definition run (sv : service) (self : StravaUpload) (id : string) (w : world)
  : outcome string * world :=
  let log := "Strava Upload " in
  let '(r, w) := attempt sv self id w in
  let shown :=
    match r with
    | Returns log => Returns log
    | Raises (ValueError e) | Raises (KeyError e) =>
        Returns (log ++ "JSON error: " ++ e ++ ".  Username and password correct?")
    | Raises (TypeError e) | Raises (OtherException e) =>
        Returns (log ++ "failed! " ++ e)
    | Raises NoException => Raises NoException
    end in
  match shown with
  | Returns log =>
      if has_main self then (Returns log, w)
      else (Raises (OtherException "'NoneType' object has no attribute 'windowmain'"), w)
  | Raises e => (Raises e, w)
  end.

(** The service never fails with something that is no [Exception]. *)
Definition answers (sv : service) : Prop :=
  forall history c, respond sv history c <> Raises NoException.

(** [w'] comes after [w]: at most [n] further calls were made, and no
    file other than the token file was touched. *)
Definition follows (self : StravaUpload) (n : nat) (w w' : world) : Prop :=
  (exists new, calls w' = (calls w ++ new)%list /\ (length new <= n)%nat)
  /\ forall path, path <> strava_token self -> files w' !! path = files w !! path.

(** The token file cannot be read, or its first line is blank. *)
Definition no_stored_token (self : StravaUpload) (w : world) : Prop :=
  match readline <$> files w !! strava_token self with
  | Some t => blank t = true
  | None => True
  end.

(** There is no track log for [id], or it is blank. *)
Definition no_track_log (self : StravaUpload) (id : string) (w : world) : Prop :=
  match files w !! gpx_path self id with
  | Some gpx => blank gpx = true
  | None => True
  end.

(** The call that asks for a token, and the one that uploads a track
    log. *)
Definition login_call (self : StravaUpload) : call :=
  (login_url, <["email" := email self]> (<["password" := password self]> ∅)).

Definition upload_call (token : json) (gpx : string) : call :=
  (upload_url,
   <["token" := token]>
     (<["type" := JVal (PStr "gpx")]> (<["data" := JVal (PStr gpx)]> ∅))).

(** A service that hands out the token ["abc"] and accepts every upload
    under the number 42; a configuration and a world with one track
    log. *)
Definition sample_service : service :=
  {| respond := fun _ c =>
       if String.eqb c.1 login_url
       then Returns (JDict (Entry "token" (JVal (PStr "abc")) Empty))
       else Returns (JDict (Entry "upload_id" (JVal (PInt 42)) Empty));
     writable := fun _ => true;
     subscript_error := fun _ => "not a dictionary";
     text_of := fun j =>
       match j with
       | JVal (PInt z) => str_of_Z z
       | JVal (PStr s) => s
       | _ => "?"
       end |}.

(** A service whose answers hold nothing. *)
Definition empty_service : service :=
  {| respond := fun _ _ => Returns (JDict Empty);
     writable := fun _ => true;
     subscript_error := fun _ => "";
     text_of := fun _ => "" |}.

Definition sample_self : StravaUpload :=
  {| conf_dir := "/c"; email := JVal (PStr "u@example.org");
     password := JVal (PStr "secret"); has_main := true |}.

Definition empty_world : world := {| files := ∅; calls := [] |}.

Definition sample_world : world :=
  {| files := {[ "/c/gpx/7.gpx" := "<gpx></gpx>" ]}; calls := [] |}.

End Strava.

(** * Properties *)

(** Closed equations between values holding rationals. *)
Ltac qc_compute :=
  vm_compute;
  repeat first
    [ reflexivity
    | apply Qc_is_canon; reflexivity
    | match goal with |- ?f _ = ?f _ => apply (f_equal f) end ].

Example float_of_string_530 : float_of_string "5.30" = Some (ratio 53 10).
Proof. qc_compute. Qed.

Example float_of_string_exp : float_of_string " -1.5e2 " = Some (Qc_of_Z (-150)).
Proof. qc_compute. Qed.

Example float_of_string_colon : float_of_string "5:30" = None.
Proof. reflexivity. Qed.

Example format_2f_53 : format_2f (ratio 53 10) = "5.30".
Proof. reflexivity. Qed.

Example format_2f_neg : format_2f (ratio (-1) 1000) = "-0.00".
Proof. reflexivity. Qed.

(** ** Facts about the number model *)

Lemma Qc_of_Z_0 : Qc_of_Z 0 = 0%Qc.
Proof. reflexivity. Qed.

Lemma Qc_of_Z_eq_0 (z : Z) : Qc_of_Z z = 0%Qc -> z = 0.
Proof.
  unfold Qc_of_Z. intros E. apply Q2Qc_eq_iff in E.
  unfold Qeq in E. simpl in E. lia.
Qed.

Lemma Qc_of_Z_neq_0 (z : Z) : z <> 0 -> Qc_of_Z z <> 0%Qc.
Proof. intros Hz E. apply Hz, Qc_of_Z_eq_0, E. Qed.

Lemma Qc_eqb_true (a b : Qc) : Qc_eqb a b = true <-> a = b.
Proof. unfold Qc_eqb. apply bool_decide_eq_true. Qed.

Lemma Qc_eqb_false (a b : Qc) : Qc_eqb a b = false <-> a <> b.
Proof. unfold Qc_eqb. apply bool_decide_eq_false. Qed.

Lemma Qc_ltb_true (a b : Qc) : Qc_ltb a b = true <-> (a < b)%Qc.
Proof. unfold Qc_ltb. apply bool_decide_eq_true. Qed.

Lemma Qc_ltb_false (a b : Qc) : Qc_ltb a b = false <-> (b <= a)%Qc.
Proof.
  unfold Qc_ltb. rewrite bool_decide_eq_false. split.
  - apply Qcnot_lt_le.
  - apply Qcle_not_lt.
Qed.

Lemma Qc_of_Z_add (a b : Z) : Qc_of_Z (a + b) = (Qc_of_Z a + Qc_of_Z b)%Qc.
Proof.
  apply Qc_is_canon. unfold Qc_of_Z. simpl.
  rewrite !Qred_correct. rewrite inject_Z_plus. reflexivity.
Qed.

Lemma Qc_of_Z_mul (a b : Z) : Qc_of_Z (a * b) = (Qc_of_Z a * Qc_of_Z b)%Qc.
Proof.
  apply Qc_is_canon. unfold Qc_of_Z. simpl.
  rewrite !Qred_correct. rewrite inject_Z_mult. reflexivity.
Qed.

Lemma Qc_of_Z_opp (a : Z) : Qc_of_Z (- a) = (- Qc_of_Z a)%Qc.
Proof.
  apply Qc_is_canon. unfold Qc_of_Z. simpl.
  rewrite !Qred_correct. rewrite inject_Z_opp. reflexivity.
Qed.

Lemma Qc_of_Z_sub (a b : Z) : Qc_of_Z (a - b) = (Qc_of_Z a - Qc_of_Z b)%Qc.
Proof.
  unfold Z.sub, Qcminus. rewrite Qc_of_Z_add, Qc_of_Z_opp. reflexivity.
Qed.

Lemma Qc_of_Z_parts (z : Z) :
  Qnum (Qc_of_Z z) = z /\ Qden (Qc_of_Z z) = 1%positive.
Proof.
  unfold Qc_of_Z, Q2Qc, this.
  rewrite Qred_identity; [split; reflexivity|].
  simpl. apply Z.gcd_1_r.
Qed.

Lemma Qc_of_Z_lt (a b : Z) : (Qc_of_Z a < Qc_of_Z b)%Qc <-> a < b.
Proof.
  unfold Qclt, Qc_of_Z. simpl. rewrite !Qred_correct.
  unfold Qlt, inject_Z. simpl. lia.
Qed.

Lemma Qc_of_Z_pos (z : Z) : 0 < z -> (0 < Qc_of_Z z)%Qc.
Proof. intros Hz. change 0%Qc with (Qc_of_Z 0). apply Qc_of_Z_lt, Hz. Qed.

Lemma Qc_ltb_of_Z (a b : Z) : Qc_ltb (Qc_of_Z a) (Qc_of_Z b) = (a <? b).
Proof.
  destruct (a <? b) eqn:Hab.
  - apply Qc_ltb_true, Qc_of_Z_lt, Z.ltb_lt, Hab.
  - apply bool_decide_eq_false. intros Hlt.
    apply (proj1 (Qc_of_Z_lt a b)) in Hlt.
    apply Z.ltb_ge in Hab. lia.
Qed.

Lemma Qcdiv_pos (a b : Qc) : (0 < a)%Qc -> (0 < b)%Qc -> (0 < a / b)%Qc.
Proof.
  unfold Qclt, Qcdiv, Qcmult, Qcinv. simpl. intros Ha Hb.
  rewrite !Qred_correct. apply Qmult_lt_0_compat; [exact Ha|].
  apply Qinv_lt_0_compat. exact Hb.
Qed.

Lemma Qc_pos_num (q : Qc) : (0 < q)%Qc <-> 0 < Qnum q.
Proof. unfold Qclt, Qlt. simpl. lia. Qed.

(** *** Rounding

    Rounding keeps zero and the sign of a number: a number that is not
    zero is rounded to a float with a positive significand. *)

Lemma round_half_even_ge (a b : Z) : a / b <= round_half_even a b.
Proof.
  unfold round_half_even.
  destruct (2 * (a mod b) <? b); [lia|].
  destruct (b <? 2 * (a mod b)); [lia|].
  destruct (Z.even (a / b)); lia.
Qed.

Lemma round_half_even_pos (a b : Z) : 0 < b -> b <= a -> 0 < round_half_even a b.
Proof.
  intros Hb Hab. pose proof (round_half_even_ge a b).
  assert (1 <= a / b); [|lia].
  apply Z.div_le_lower_bound; lia.
Qed.

Lemma binade_le (n d : Z) : binade n d <= Z.log2 n - Z.log2 d.
Proof.
  unfold binade.
  destruct (if 0 <=? Z.log2 n - Z.log2 d then _ else _); lia.
Qed.

Lemma significand_pos (n d : Z) :
  0 < n -> 0 < d ->
  let shift := 52 - binade n d in
  (0 <= shift -> 0 < round_half_even (n * 2 ^ shift) d)
  /\ (shift < 0 -> 0 < round_half_even n (d * 2 ^ (- shift))).
Proof.
  intros Hn Hd shift.
  pose proof (binade_le n d) as He.
  destruct (Z.log2_spec n Hn) as [Hn1 Hn2].
  destruct (Z.log2_spec d Hd) as [Hd1 Hd2].
  pose proof (Z.log2_nonneg n) as Hln.
  pose proof (Z.log2_nonneg d) as Hld.
  split; intros Hs.
  - apply round_half_even_pos; [lia|].
    assert (H1 : 2 ^ Z.succ (Z.log2 d) <= 2 ^ (Z.log2 n + shift)).
    { apply Z.pow_le_mono_r; lia. }
    rewrite Z.pow_add_r in H1 by lia.
    assert (H2 : 2 ^ Z.log2 n * 2 ^ shift <= n * 2 ^ shift).
    { apply Z.mul_le_mono_nonneg_r; [apply Z.pow_nonneg; lia | lia]. }
    lia.
  - assert (Hp : 0 < 2 ^ (- shift)) by (apply Z.pow_pos_nonneg; lia).
    apply round_half_even_pos; [lia|].
    assert (H1 : 2 ^ (Z.succ (Z.log2 d) + - shift) <= 2 ^ Z.log2 n).
    { apply Z.pow_le_mono_r; lia. }
    rewrite Z.pow_add_r in H1 by lia.
    assert (H2 : d * 2 ^ (- shift) <= 2 ^ Z.succ (Z.log2 d) * 2 ^ (- shift)).
    { apply Z.mul_le_mono_nonneg_r; lia. }
    lia.
Qed.

Lemma fl_0 : fl 0 = 0%Qc.
Proof. reflexivity. Qed.

Lemma fl_pos (q : Qc) : (0 < q)%Qc -> (0 < fl q)%Qc.
Proof.
  intros Hq. apply Qc_pos_num in Hq. unfold fl.
  rewrite (Z.abs_eq (Qnum q)) by lia.
  destruct (Z.eqb_spec (Qnum q) 0) as [E | _]; [lia|].
  destruct (Z.ltb_spec (Qnum q) 0) as [E | _]; [lia|].
  destruct (significand_pos (Qnum q) (Z.pos (Qden q)) Hq eq_refl) as [H1 H2].
  destruct (Z.leb_spec 0 (52 - binade (Qnum q) (Z.pos (Qden q)))) as [Hs | Hs].
  - apply Qcdiv_pos; apply Qc_of_Z_pos; [auto | apply Z.pow_pos_nonneg; lia].
  - apply Qc_of_Z_pos. apply Z.mul_pos_pos; [auto | apply Z.pow_pos_nonneg; lia].
Qed.

Lemma fl_opp (q : Qc) : fl (- q) = (- fl q)%Qc.
Proof.
  unfold fl.
  assert (Hn : Qnum (- q)%Qc = - Qnum q /\ Qden (- q)%Qc = Qden q).
  { destruct q as [[n d] Hc]. unfold Qcopp, Q2Qc, this.
    assert (E : Qred (- (n # d)) = (- (n # d))%Q).
    { rewrite Qred_opp. f_equal. exact Hc. }
    rewrite E. simpl. auto. }
  destruct Hn as [-> ->]. rewrite Z.abs_opp.
  destruct (Z.eqb_spec (Z.abs (Qnum q)) 0) as [E | E]; [reflexivity|].
  set (v := if 0 <=? _ then _ else _).
  destruct (Z.ltb_spec (- Qnum q) 0), (Z.ltb_spec (Qnum q) 0); try lia.
  - reflexivity.
  - rewrite Qcopp_involutive. reflexivity.
Qed.

Lemma fl_neg (q : Qc) : (q < 0)%Qc -> (fl q < 0)%Qc.
Proof.
  intros Hq.
  assert (Hp : (0 < fl (- q))%Qc).
  { apply fl_pos. apply Qclt_minus_iff in Hq. rewrite Qcplus_0_l in Hq. exact Hq. }
  rewrite fl_opp in Hp. apply Qclt_minus_iff. rewrite Qcplus_0_l. exact Hp.
Qed.

Lemma fl_eq_0 (q : Qc) : fl q = 0%Qc -> q = 0%Qc.
Proof.
  intros E. destruct (Qc_dec q 0) as [[Hlt | Hgt] | Heq]; [| |exact Heq].
  - apply fl_neg in Hlt. rewrite E in Hlt.
    exfalso. exact (Qclt_not_le _ _ Hlt (Qcle_refl _)).
  - apply fl_pos in Hgt. rewrite E in Hgt.
    exfalso. exact (Qclt_not_le _ _ Hgt (Qcle_refl _)).
Qed.

Lemma fl_neq_0 (q : Qc) : q <> 0%Qc -> fl q <> 0%Qc.
Proof. intros Hq E. apply Hq, fl_eq_0, E. Qed.

Lemma round_half_even_1 (a : Z) : round_half_even a 1 = a.
Proof.
  unfold round_half_even. rewrite Z.mod_1_r, Z.div_1_r. reflexivity.
Qed.

(** An integer of at most 53 bits is a float. *)
Lemma fl_of_Z (z : Z) : Z.abs z < 2 ^ 53 -> fl (Qc_of_Z z) = Qc_of_Z z.
Proof.
  assert (Hpos : forall n, 0 < n -> n < 2 ^ 53 -> fl (Qc_of_Z n) = Qc_of_Z n).
  { intros n Hn Hlt. unfold fl.
    destruct (Qc_of_Z_parts n) as [-> ->].
    rewrite (Z.abs_eq n) by lia.
    destruct (Z.eqb_spec n 0) as [E | _]; [lia|].
    destruct (Z.ltb_spec n 0) as [E | _]; [lia|].
    pose proof (binade_le n 1) as Hb. change (Z.log2 1) with 0 in Hb.
    assert (Hl : Z.log2 n < 53) by (apply Z.log2_lt_pow2; lia).
    destruct (Z.leb_spec 0 (52 - binade n 1)) as [Hs | Hs]; [|lia].
    rewrite round_half_even_1. unfold ratio. rewrite Qc_of_Z_mul.
    assert (Hp : Qc_of_Z (2 ^ (52 - binade n 1)) <> 0%Qc).
    { apply Qc_of_Z_neq_0. apply Z.pow_nonzero; lia. }
    field. exact Hp. }
  intros Hz. destruct (Z.lt_trichotomy z 0) as [Hneg | [-> | Hp]].
  - replace z with (- - z) by lia. rewrite Qc_of_Z_opp, fl_opp.
    rewrite Hpos by lia. reflexivity.
  - reflexivity.
  - apply Hpos; lia.
Qed.

(** One tenth is no float: it is rounded to the nearest one. *)
Example fl_tenth : fl (ratio 1 10) = ratio 3602879701896397 36028797018963968.
Proof. qc_compute. Qed.

(** An integer below [2 ^ 53] is a float; above, ties go to the even
    significand. *)
Example fl_integer :
  fl (Qc_of_Z 25) = Qc_of_Z 25
  /\ fl (Qc_of_Z (2 ^ 53 + 1)) = Qc_of_Z (2 ^ 53)
  /\ fl (Qc_of_Z (2 ^ 53 + 3)) = Qc_of_Z (2 ^ 53 + 4).
Proof. repeat split; qc_compute. Qed.

Lemma py_div_float (a : pyval) (x y : Qc) :
  num_of a = Some x -> y <> 0%Qc ->
  py_div a (PFloat y) = Ok (PFloat (fl (x / y))).
Proof.
  intros Ha Hy. apply Qc_eqb_false in Hy.
  destruct a; simpl in Ha; try discriminate; injection Ha as <-;
    unfold py_div; simpl; rewrite Hy; reflexivity.
Qed.

Lemma py_div_by_zero (a b : pyval) (x : Qc) :
  num_of a = Some x -> num_of b = Some 0%Qc ->
  py_div a b = Raise ZeroDivisionError.
Proof.
  intros Ha Hb. unfold py_div.
  destruct a as [|x'|x'| | |], b as [|y|y| | |]; simpl in *; try discriminate.
  - assert (Hy : Qc_of_Z y = 0%Qc) by congruence.
    apply Qc_of_Z_eq_0 in Hy. subst y. reflexivity.
  - assert (Hy : y = 0%Qc) by congruence. subst y. reflexivity.
  - assert (Hy : Qc_of_Z y = 0%Qc) by congruence. rewrite Hy. reflexivity.
  - assert (Hy : y = 0%Qc) by congruence. subst y. reflexivity.
Qed.


(** ** C2: the pace of a trackpoint *)







(** ** More facts about the number model *)

Lemma Qcmult_neq_0 (x y : Qc) : x <> 0%Qc -> y <> 0%Qc -> (x * y)%Qc <> 0%Qc.
Proof. intros Hx Hy E. destruct (Qcmult_integral _ _ E); contradiction. Qed.

Lemma Qcinv_neq_0 (y : Qc) : y <> 0%Qc -> (/ y)%Qc <> 0%Qc.
Proof.
  intros Hy E. pose proof (Qcmult_inv_r y Hy) as Hi.
  rewrite E, Qcmult_0_r in Hi. symmetry in Hi. exact (Q_apart_0_1 Hi).
Qed.

Lemma Qcdiv_neq_0 (x y : Qc) : x <> 0%Qc -> y <> 0%Qc -> (x / y)%Qc <> 0%Qc.
Proof. intros Hx Hy. apply Qcmult_neq_0; [exact Hx | apply Qcinv_neq_0, Hy]. Qed.

Lemma Qcdiv_0_l (y : Qc) : (0 / y)%Qc = 0%Qc.
Proof. unfold Qcdiv. apply Qcmult_0_l. Qed.

Lemma miles_per_km_neq_0 : miles_per_km <> 0%Qc.
Proof. apply Qc_eqb_false. reflexivity. Qed.

Lemma feet_per_metre_neq_0 : feet_per_metre <> 0%Qc.
Proof. apply Qc_eqb_false. reflexivity. Qed.

Lemma num_of_zero_cases (v : pyval) :
  num_of v = Some 0%Qc -> v = PInt 0 \/ v = PFloat 0%Qc.
Proof.
  destruct v as [|z|q| | |s]; simpl; intros E; try discriminate.
  - left. f_equal. apply Qc_of_Z_eq_0. congruence.
  - right. congruence.
Qed.

Lemma bind_Ok {A B : Type} (a : A) (k : A -> result B) : bind (Ok a) k = k a.
Proof. reflexivity. Qed.

Lemma py_mul_int_float (z : Z) (q : Qc) :
  py_mul (PInt z) (PFloat q) = Ok (PFloat (fl (Qc_of_Z z * q))).
Proof. reflexivity. Qed.

Lemma py_div_of_float (x : Qc) (b : pyval) (y : Qc) :
  num_of b = Some y -> y <> 0%Qc ->
  py_div (PFloat x) b = Ok (PFloat (fl (x / y))).
Proof.
  intros Hb Hy. apply Qc_eqb_false in Hy.
  destruct b; simpl in Hb; try discriminate; injection Hb as <-;
    unfold py_div; simpl; rewrite Hy; reflexivity.
Qed.

Lemma fl_div_0 (y : Qc) : fl (0 / y) = 0%Qc.
Proof. rewrite Qcdiv_0_l. apply fl_0. Qed.

Lemma fl_mul_0 (y : Qc) : fl (0 * y) = 0%Qc.
Proof. rewrite Qcmult_0_l. apply fl_0. Qed.

Lemma km2miles_float (q : Qc) :
  km2miles (PFloat q) = Ok (PFloat (fl (q * miles_per_km))).
Proof. reflexivity. Qed.

Lemma pacekm2miles_float (q : Qc) :
  pacekm2miles (PFloat q) = Ok (PFloat (fl (q / miles_per_km))).
Proof.
  unfold pacekm2miles.
  apply (py_div_float (PFloat q) q); [reflexivity | apply miles_per_km_neq_0].
Qed.

(** ** C6: pace and average speed of a lap *)

Lemma lap_seconds_float (lap : Lap.t) (txt : string) (t : Qc) :
  Lap.elapsed_time lap = PStr txt -> float_text txt = Some (PFloat t) ->
  lap_seconds lap = Ok (PFloat t).
Proof.
  intros Hs Ht. unfold lap_seconds. rewrite Hs. simpl.
  rewrite Ht. reflexivity.
Qed.

(** The quotient [time / d] of the pace, for a float [time]: 0.0 when
    the divisor is zero. *)
Lemma lap_pace_quotient (t : Qc) (d : pyval) (y : Qc) :
  num_of d = Some y ->
  match py_div (PFloat t) d with
  | Ok pace => Ok pace
  | Raise ZeroDivisionError => Ok (PFloat 0%Qc)
  | Raise e => Raise e
  end = Ok (PFloat (if Qc_eqb y 0 then 0%Qc else fl (t / y))).
Proof.
  intros Hd. destruct (Qc_eqb y 0) eqn:Hy.
  - apply Qc_eqb_true in Hy. subst y.
    rewrite (py_div_by_zero (PFloat t) d t); [reflexivity..|exact Hd].
  - apply Qc_eqb_false in Hy.
    rewrite (py_div_of_float t d y Hd Hy). reflexivity.
Qed.

Lemma lap_pace_float (t km : Qc) :
  lap_pace (PFloat t) (PFloat km)
    = Ok (PFloat (if Qc_eqb km 0 then 0%Qc
                  else fl (t / fl (Qc_of_Z 60 * km)))).
Proof.
  unfold lap_pace. rewrite py_mul_int_float, bind_Ok.
  rewrite (lap_pace_quotient t _ (fl (Qc_of_Z 60 * km))) by reflexivity.
  assert (H60 : Qc_of_Z 60 <> 0%Qc) by (apply Qc_of_Z_neq_0; lia).
  destruct (Qc_eqb km 0) eqn:Hkm.
  - apply Qc_eqb_true in Hkm. subst km.
    rewrite Qcmult_0_r, fl_0. reflexivity.
  - apply Qc_eqb_false in Hkm.
    assert (Hne : fl (Qc_of_Z 60 * km) <> 0%Qc)
      by (apply fl_neq_0, Qcmult_neq_0; assumption).
    apply Qc_eqb_false in Hne. rewrite Hne. reflexivity.
Qed.

Lemma lap_pace_int (t : Qc) (km : Z) :
  lap_pace (PFloat t) (PInt km)
    = Ok (PFloat (if km =? 0 then 0%Qc else fl (t / Qc_of_Z (60 * km)))).
Proof.
  unfold lap_pace. cbn [py_mul bind].
  rewrite (lap_pace_quotient t _ (Qc_of_Z (60 * km))) by reflexivity.
  destruct (Z.eqb_spec km 0) as [-> | Hkm].
  - reflexivity.
  - assert (Hne : Qc_of_Z (60 * km) <> 0%Qc) by (apply Qc_of_Z_neq_0; lia).
    apply Qc_eqb_false in Hne. rewrite Hne. reflexivity.
Qed.

(** The average speed of a lap of [y] kilometres, for a float [time]:
    0.0 when the time is zero. *)
Lemma lap_avg_speed_number (t : Qc) (dist : pyval) (y : Qc) :
  num_of dist = Some y ->
  (forall z, dist <> PInt z) \/ y = 0%Qc ->
  lap_avg_speed (PFloat t) dist
    = PFloat (if Qc_eqb t 0 then 0%Qc else fl (y / fl (t / Qc_of_Z 3600))).
Proof.
  intros Hd Hcase. unfold lap_avg_speed.
  assert (H3600 : Qc_of_Z 3600 <> 0%Qc) by (apply Qc_of_Z_neq_0; lia).
  rewrite (py_div_of_float t (PInt 3600) (Qc_of_Z 3600))
    by (try reflexivity; exact H3600).
  rewrite bind_Ok.
  destruct (Qc_eqb t 0) eqn:Ht.
  - apply Qc_eqb_true in Ht. subst t. rewrite fl_div_0.
    rewrite (py_div_by_zero dist _ y); [reflexivity | exact Hd | reflexivity].
  - apply Qc_eqb_false in Ht.
    assert (Hne : fl (t / Qc_of_Z 3600) <> 0%Qc)
      by (apply fl_neq_0, Qcdiv_neq_0; assumption).
    rewrite (py_div_float dist y) by assumption. reflexivity.
Qed.

Lemma limit_lap_pace_float (limit : pyval) (q : Qc) :
  limit_lap_pace limit (PFloat q) = PFloat (if exceeds limit q then 0%Qc else q).
Proof.
  unfold limit_lap_pace, exceeds.
  destruct (negb (bool_decide (limit = PNone)) && py_gt (PFloat q) limit)%bool;
    reflexivity.
Qed.

(** What the body of the loop over the laps appends, once the time, the
    distance, the pace and the speed have been computed and converted. *)
Lemma lap_step_returned (us : bool) (limit : pyval) (lap : Lap.t)
    (s : lap_graphs) (time dist pace0 d p v : pyval) :
  lap_seconds lap = Ok time ->
  lap_km lap = Ok dist ->
  lap_pace time dist = Ok pace0 ->
  (if us then km2miles dist else Ok dist) = Ok d ->
  (if us then pacekm2miles (limit_lap_pace limit pace0)
   else Ok (limit_lap_pace limit pace0)) = Ok p ->
  (if us then km2miles (lap_avg_speed time dist)
   else Ok (lap_avg_speed time dist)) = Ok v ->
  exists s', lap_step us limit lap s = Ok s'
    /\ lg_lap_time s' = addBars time (PInt 10) (lg_lap_time s)
    /\ lg_lap_distance s' = addBars d (PInt 10) (lg_lap_distance s)
    /\ lg_distance_data s' !! "pace_lap"
       = addBars d p <$> lg_distance_data s !! "pace_lap"
    /\ lg_time_data s' !! "pace_lap"
       = addBars time p <$> lg_time_data s !! "pace_lap"
    /\ lg_distance_data s' !! "speed_lap"
       = addBars d v <$> lg_distance_data s !! "speed_lap"
    /\ lg_time_data s' !! "speed_lap"
       = addBars time v <$> lg_time_data s !! "speed_lap".
Proof.
  intros Ht Hk Hp Hd Hpp Hv. unfold lap_step.
  rewrite Ht. cbn [bind]. rewrite Hk. cbn [bind]. rewrite Hp. cbn [bind].
  destruct us.
  - rewrite Hd. cbn [bind]. rewrite Hpp. cbn [bind]. rewrite Hv. cbn [bind].
    eexists. split; [reflexivity|].
    cbn [lg_lap_time lg_lap_distance lg_distance_data lg_time_data].
    unfold bar_to.
    rewrite !(lookup_alter_ne _ _ "speed_lap" "pace_lap") by discriminate.
    rewrite !lookup_alter_eq.
    rewrite !(lookup_alter_ne _ _ "pace_lap" "speed_lap") by discriminate.
    auto 10.
  - injection Hd as <-. injection Hpp as <-. injection Hv as <-.
    eexists. split; [reflexivity|].
    cbn [lg_lap_time lg_lap_distance lg_distance_data lg_time_data].
    unfold bar_to.
    rewrite !(lookup_alter_ne _ _ "speed_lap" "pace_lap") by discriminate.
    rewrite !lookup_alter_eq.
    rewrite !(lookup_alter_ne _ _ "pace_lap" "speed_lap") by discriminate.
    auto 10.
Qed.

(** The bars of a lap with a float distance. *)
Lemma lap_step_float (us : bool) (limit : pyval) (lap : Lap.t) (s : lap_graphs)
    (txt : string) (t m : Qc) :
  Lap.elapsed_time lap = PStr txt -> float_text txt = Some (PFloat t) ->
  Lap.distance lap = PFloat m ->
  let km := fl (m / Qc_of_Z 1000) in
  let quotient := fl (t / fl (Qc_of_Z 60 * km)) in
  let pace := if (Qc_eqb m 0 || exceeds limit quotient)%bool then 0%Qc
              else quotient in
  let speed := if Qc_eqb t 0 then 0%Qc
               else fl (km / fl (t / Qc_of_Z 3600)) in
  exists s', lap_step us limit lap s = Ok s'
    /\ lg_lap_time s' = addBars (PFloat t) (PInt 10) (lg_lap_time s)
    /\ lg_lap_distance s'
       = addBars (PFloat (plotted_length us km)) (PInt 10) (lg_lap_distance s)
    /\ lg_distance_data s' !! "pace_lap"
       = addBars (PFloat (plotted_length us km)) (PFloat (plotted_pace us pace))
           <$> lg_distance_data s !! "pace_lap"
    /\ lg_time_data s' !! "pace_lap"
       = addBars (PFloat t) (PFloat (plotted_pace us pace))
           <$> lg_time_data s !! "pace_lap"
    /\ lg_distance_data s' !! "speed_lap"
       = addBars (PFloat (plotted_length us km)) (PFloat (plotted_length us speed))
           <$> lg_distance_data s !! "speed_lap"
    /\ lg_time_data s' !! "speed_lap"
       = addBars (PFloat t) (PFloat (plotted_length us speed))
           <$> lg_time_data s !! "speed_lap".
Proof.
  intros Hs Ht Hm km quotient pace speed.
  assert (H1000 : Qc_of_Z 1000 <> 0%Qc) by (apply Qc_of_Z_neq_0; lia).
  assert (Hkm : lap_km lap = Ok (PFloat km)).
  { unfold lap_km. rewrite Hm.
    apply (py_div_of_float m (PInt 1000)); [reflexivity | exact H1000]. }
  assert (Hz : Qc_eqb km 0 = Qc_eqb m 0).
  { destruct (Qc_eqb m 0) eqn:Hm0.
    - apply Qc_eqb_true in Hm0. apply Qc_eqb_true. subst km m. apply fl_div_0.
    - apply Qc_eqb_false in Hm0. apply Qc_eqb_false.
      apply fl_neq_0, Qcdiv_neq_0; assumption. }
  assert (Hpace : limit_lap_pace limit
                    (PFloat (if Qc_eqb km 0 then 0%Qc else quotient))
                  = PFloat pace).
  { rewrite limit_lap_pace_float, Hz. subst pace. f_equal.
    destruct (Qc_eqb m 0); simpl.
    - destruct (exceeds limit 0); reflexivity.
    - reflexivity. }
  apply (lap_step_returned us limit lap s (PFloat t) (PFloat km)
           (PFloat (if Qc_eqb km 0 then 0%Qc else quotient))).
  - apply (lap_seconds_float lap txt); assumption.
  - exact Hkm.
  - apply lap_pace_float.
  - destruct us; [apply km2miles_float | reflexivity].
  - rewrite Hpace. destruct us; [apply pacekm2miles_float | reflexivity].
  - rewrite (lap_avg_speed_number t (PFloat km) km)
      by (try reflexivity; left; discriminate).
    destruct us; [apply km2miles_float | reflexivity].
Qed.

(** The bars of a lap with an integer distance, in the metric system. *)
Lemma lap_step_int (limit : pyval) (lap : Lap.t) (s : lap_graphs)
    (txt : string) (t : Qc) (z : Z) :
  Lap.elapsed_time lap = PStr txt -> float_text txt = Some (PFloat t) ->
  Lap.distance lap = PInt z ->
  let km := z / 1000 in
  let quotient := fl (t / Qc_of_Z (60 * km)) in
  let pace := if ((km =? 0) || exceeds limit quotient)%bool then 0%Qc
              else quotient in
  exists s' speed, lap_step false limit lap s = Ok s'
    /\ lap_avg_speed (PFloat t) (PInt km) = speed
    /\ lg_lap_time s' = addBars (PFloat t) (PInt 10) (lg_lap_time s)
    /\ lg_lap_distance s' = addBars (PInt km) (PInt 10) (lg_lap_distance s)
    /\ lg_distance_data s' !! "pace_lap"
       = addBars (PInt km) (PFloat pace) <$> lg_distance_data s !! "pace_lap"
    /\ lg_time_data s' !! "pace_lap"
       = addBars (PFloat t) (PFloat pace) <$> lg_time_data s !! "pace_lap"
    /\ lg_distance_data s' !! "speed_lap"
       = addBars (PInt km) speed <$> lg_distance_data s !! "speed_lap"
    /\ lg_time_data s' !! "speed_lap"
       = addBars (PFloat t) speed <$> lg_time_data s !! "speed_lap".
Proof.
  intros Hs Ht Hm km quotient pace.
  assert (Hkm : lap_km lap = Ok (PInt km)).
  { unfold lap_km. rewrite Hm. reflexivity. }
  assert (Hpace : limit_lap_pace limit
                    (PFloat (if km =? 0 then 0%Qc else quotient))
                  = PFloat pace).
  { rewrite limit_lap_pace_float. subst pace. f_equal.
    destruct (km =? 0); simpl.
    - destruct (exceeds limit 0); reflexivity.
    - reflexivity. }
  destruct (lap_step_returned false limit lap s (PFloat t) (PInt km)
              (PFloat (if km =? 0 then 0%Qc else quotient))
              (PInt km) (PFloat pace) (lap_avg_speed (PFloat t) (PInt km)))
    as (s' & Hstep & Hrest).
  - apply (lap_seconds_float lap txt); assumption.
  - exact Hkm.
  - apply lap_pace_int.
  - reflexivity.
  - rewrite Hpace. reflexivity.
  - reflexivity.
  - exists s', (lap_avg_speed (PFloat t) (PInt km)). auto.
Qed.

(** C6 (as amended).  The body of the loop over the laps reads the
    elapsed time of the lap, a text, as the float [t] nearest to the
    number it spells; a lap whose time or distance cannot be read stops
    the construction with the exception.
    For a lap with a float distance of [m] metres the lap is
    [km = m / 1000] kilometres long and the body appends, to the pace
    series by distance and by time, a bar of height [t / (60 * km)], or
    0.0 when the distance is zero or when a pace limit is set and the
    quotient exceeds it, and to the speed series a bar of height
    [km / (t / 3600)], or 0.0 when the time is zero; every operation
    is rounded to the nearest float, and in the imperial system the
    distance, the pace and the speed are converted.  With a distance of
    zero, integer or float, both bars have height 0.0 and nothing is
    raised.  For an integer distance the kilometres are the quotient of
    the floor division by 1000. *)
Theorem lap_pace_speed_correct (us : bool) (limit : pyval) (lap : Lap.t)
    (s : lap_graphs) :
  (forall e, lap_seconds lap = Raise e -> lap_step us limit lap s = Raise e)
  /\ (forall time e, lap_seconds lap = Ok time -> lap_km lap = Raise e ->
        lap_step us limit lap s = Raise e)
  /\ (forall (txt : string) (t m : Qc),
        Lap.elapsed_time lap = PStr txt -> float_text txt = Some (PFloat t) ->
        Lap.distance lap = PFloat m ->
        let km := fl (m / Qc_of_Z 1000) in
        let quotient := fl (t / fl (Qc_of_Z 60 * km)) in
        let pace := if (Qc_eqb m 0 || exceeds limit quotient)%bool then 0%Qc
                    else quotient in
        let speed := if Qc_eqb t 0 then 0%Qc
                     else fl (km / fl (t / Qc_of_Z 3600)) in
        exists s', lap_step us limit lap s = Ok s'
          /\ lg_lap_time s' = addBars (PFloat t) (PInt 10) (lg_lap_time s)
          /\ lg_lap_distance s'
             = addBars (PFloat (plotted_length us km)) (PInt 10) (lg_lap_distance s)
          /\ lg_distance_data s' !! "pace_lap"
             = addBars (PFloat (plotted_length us km)) (PFloat (plotted_pace us pace))
                 <$> lg_distance_data s !! "pace_lap"
          /\ lg_time_data s' !! "pace_lap"
             = addBars (PFloat t) (PFloat (plotted_pace us pace))
                 <$> lg_time_data s !! "pace_lap"
          /\ lg_distance_data s' !! "speed_lap"
             = addBars (PFloat (plotted_length us km))
                 (PFloat (plotted_length us speed))
                 <$> lg_distance_data s !! "speed_lap"
          /\ lg_time_data s' !! "speed_lap"
             = addBars (PFloat t) (PFloat (plotted_length us speed))
                 <$> lg_time_data s !! "speed_lap")
  /\ (forall (txt : string) (t : Qc),
        Lap.elapsed_time lap = PStr txt -> float_text txt = Some (PFloat t) ->
        num_of (Lap.distance lap) = Some 0%Qc ->
        exists s' x, lap_step us limit lap s = Ok s'
          /\ num_of x = Some 0%Qc
          /\ lg_distance_data s' !! "pace_lap"
             = addBars x (PFloat 0%Qc) <$> lg_distance_data s !! "pace_lap"
          /\ lg_time_data s' !! "pace_lap"
             = addBars (PFloat t) (PFloat 0%Qc) <$> lg_time_data s !! "pace_lap"
          /\ lg_distance_data s' !! "speed_lap"
             = addBars x (PFloat 0%Qc) <$> lg_distance_data s !! "speed_lap"
          /\ lg_time_data s' !! "speed_lap"
             = addBars (PFloat t) (PFloat 0%Qc) <$> lg_time_data s !! "speed_lap")
  /\ (forall (txt : string) (t : Qc) (z : Z),
        Lap.elapsed_time lap = PStr txt -> float_text txt = Some (PFloat t) ->
        Lap.distance lap = PInt z ->
        let km := z / 1000 in
        let quotient := fl (t / Qc_of_Z (60 * km)) in
        let pace := if ((km =? 0) || exceeds limit quotient)%bool then 0%Qc
                    else quotient in
        exists s' speed, lap_step false limit lap s = Ok s'
          /\ lap_avg_speed (PFloat t) (PInt km) = speed
          /\ lg_lap_time s' = addBars (PFloat t) (PInt 10) (lg_lap_time s)
          /\ lg_lap_distance s' = addBars (PInt km) (PInt 10) (lg_lap_distance s)
          /\ lg_distance_data s' !! "pace_lap"
             = addBars (PInt km) (PFloat pace) <$> lg_distance_data s !! "pace_lap"
          /\ lg_time_data s' !! "pace_lap"
             = addBars (PFloat t) (PFloat pace) <$> lg_time_data s !! "pace_lap"
          /\ lg_distance_data s' !! "speed_lap"
             = addBars (PInt km) speed <$> lg_distance_data s !! "speed_lap"
          /\ lg_time_data s' !! "speed_lap"
             = addBars (PFloat t) speed <$> lg_time_data s !! "speed_lap").
Proof.
  split; [|split; [|split; [|split]]].
  - intros e He. unfold lap_step. rewrite He. reflexivity.
  - intros time e Ht He. unfold lap_step. rewrite Ht, He. reflexivity.
  - intros txt t m. apply lap_step_float.
  - intros txt t Hs Ht Hz.
    destruct (num_of_zero_cases _ Hz) as [Hd | Hd].
    + (* the integer zero *)
      assert (Hp : limit_lap_pace limit (PFloat 0%Qc) = PFloat 0%Qc).
      { rewrite limit_lap_pace_float. destruct (exceeds limit 0); reflexivity. }
      assert (Hv : lap_avg_speed (PFloat t) (PInt 0) = PFloat 0%Qc).
      { rewrite (lap_avg_speed_number t (PInt 0) 0%Qc)
          by (try reflexivity; right; reflexivity).
        rewrite fl_div_0. destruct (Qc_eqb t 0); reflexivity. }
      destruct (lap_step_returned us limit lap s (PFloat t) (PInt 0)
                  (PFloat 0%Qc)
                  (if us then PFloat 0%Qc else PInt 0) (PFloat 0%Qc) (PFloat 0%Qc))
        as (s' & Hstep & _ & _ & Hrest).
      * apply (lap_seconds_float lap txt); assumption.
      * unfold lap_km. rewrite Hd. reflexivity.
      * rewrite lap_pace_int. reflexivity.
      * destruct us; [|reflexivity].
        unfold km2miles. rewrite py_mul_int_float.
        change (Qc_of_Z 0) with 0%Qc. rewrite fl_mul_0. reflexivity.
      * rewrite Hp. destruct us; [|reflexivity].
        rewrite pacekm2miles_float, fl_div_0. reflexivity.
      * rewrite Hv. destruct us; [|reflexivity].
        rewrite km2miles_float, fl_mul_0. reflexivity.
      * exists s', (if us then PFloat 0%Qc else PInt 0).
        split; [exact Hstep|]. split; [destruct us; reflexivity | exact Hrest].
    + (* the float zero *)
      destruct (lap_step_float us limit lap s txt t 0%Qc Hs Ht Hd)
        as (s' & Hstep & _ & _ & Hrest).
      assert (Hkm : fl (0 / Qc_of_Z 1000) = 0%Qc) by apply fl_div_0.
      rewrite Hkm in Hrest.
      assert (Hl : forall b, plotted_length b 0 = 0%Qc).
      { intros []; [apply fl_mul_0 | reflexivity]. }
      assert (Hq : forall b, plotted_pace b 0 = 0%Qc).
      { intros []; [apply fl_div_0 | reflexivity]. }
      assert (Hv : (if Qc_eqb t 0 then 0%Qc
                    else fl (0 / fl (t / Qc_of_Z 3600))) = 0%Qc).
      { rewrite fl_div_0. destruct (Qc_eqb t 0); reflexivity. }
      rewrite Hv in Hrest.
      change (Qc_eqb 0 0) with true in Hrest. cbn [orb] in Hrest.
      rewrite !Hl, !Hq in Hrest.
      exists s', (PFloat 0%Qc). split; [exact Hstep|].
      split; [reflexivity | exact Hrest].
  - intros txt t z. apply lap_step_int.
Qed.

(** A lap of 300 s and 1000.0 m, no limit: the pace bar has height
    5.0 and the speed bar height 12.0; a lap without distance gives bars
    of height 0.0. *)
Lemma lap_pace_speed_correct_witness :
  (exists s',
     lap_step false PNone (sample_lap (PStr "300") (PFloat (Qc_of_Z 1000)))
       sample_lap_graphs = Ok s'
     /\ y_values <$> lg_distance_data s' !! "pace_lap" = Some [ PFloat (Qc_of_Z 5) ]
     /\ y_values <$> lg_time_data s' !! "speed_lap" = Some [ PFloat (Qc_of_Z 12) ])
  /\ (exists s',
     lap_step true (PInt 4) (sample_lap (PStr "300") (PInt 0))
       sample_lap_graphs = Ok s'
     /\ y_values <$> lg_distance_data s' !! "pace_lap" = Some [ PFloat 0%Qc ]
     /\ y_values <$> lg_time_data s' !! "speed_lap" = Some [ PFloat 0%Qc ]).
Proof.
  assert (Hs : float_text "300" = Some (PFloat (Qc_of_Z 300))) by qc_compute.
  split.
  - destruct (lap_pace_speed_correct false PNone
                (sample_lap (PStr "300") (PFloat (Qc_of_Z 1000)))
                sample_lap_graphs) as (_ & _ & Hfloat & _).
    destruct (Hfloat "300" (Qc_of_Z 300) (Qc_of_Z 1000) eq_refl Hs eq_refl)
      as (s' & Hstep & _ & _ & Hp & _ & _ & Hv).
    exists s'. split; [exact Hstep|]. rewrite Hp, Hv.
    assert (E1 : fl (Qc_of_Z 1000 / Qc_of_Z 1000) = Qc_of_Z 1) by qc_compute.
    rewrite E1.
    assert (E2 : fl (Qc_of_Z 300 / fl (Qc_of_Z 60 * Qc_of_Z 1)) = Qc_of_Z 5)
      by qc_compute.
    assert (E3 : fl (Qc_of_Z 1 / fl (Qc_of_Z 300 / Qc_of_Z 3600)) = Qc_of_Z 12)
      by qc_compute.
    rewrite E2, E3. split; reflexivity.
  - destruct (lap_pace_speed_correct true (PInt 4)
                (sample_lap (PStr "300") (PInt 0))
                sample_lap_graphs) as (_ & _ & _ & Hzero & _).
    destruct (Hzero "300" (Qc_of_Z 300) eq_refl Hs eq_refl)
      as (s' & x & Hstep & _ & Hp & _ & _ & Hv).
    exists s'. split; [exact Hstep|]. rewrite Hp, Hv. split; reflexivity.
Defined.

(** C6 as stated does not hold.  For a sport with a pace limit of 5.0
    and a lap of 600 s over 1000.0 m, the time divided by 60 times the
    kilometres is 10, and the pace bar of the lap has height 0.0.  For a
    lap of 600 s whose distance is the integer 1500, the time divided by
    60 times 1.5 km is 20/3, and the pace bar has height 10.0: the
    kilometres of an integer distance are the quotient of the floor
    division. *)
Lemma lap_pace_counterexample :
  (exists a log g,
     __init__ (H := sample_externals)
       (Some (sample_without_gpx
                [sample_row (PFloat (Qc_of_Z 10)) (PFloat (Qc_of_Z 6))
                   (PFloat (Qc_of_Z 5))]
                (Some [sample_lap (PStr "600") (PFloat (Qc_of_Z 1000))])))
       (PInt 7) = Ok (Populated a, log)
     /\ distance_data a !! "pace_lap" = Some g
     /\ y_values g = [ PFloat 0%Qc ])
  /\ (Qc_of_Z 600 / (Qc_of_Z 60 * (Qc_of_Z 1000 / Qc_of_Z 1000)))%Qc = Qc_of_Z 10
  /\ Qc_of_Z 10 <> 0%Qc
  /\ (exists a log g,
     __init__ (H := sample_externals)
       (Some (sample_without_gpx
                [sample_row (PFloat (Qc_of_Z 10)) (PFloat (Qc_of_Z 6)) (PInt 0)]
                (Some [sample_lap (PStr "600") (PInt 1500)])))
       (PInt 7) = Ok (Populated a, log)
     /\ distance_data a !! "pace_lap" = Some g
     /\ y_values g = [ PFloat (Qc_of_Z 10) ])
  /\ (Qc_of_Z 600 / (Qc_of_Z 60 * (Qc_of_Z 1500 / Qc_of_Z 1000)))%Qc = ratio 20 3
  /\ fl (ratio 20 3) <> Qc_of_Z 10.
Proof.
  split; [|split; [|split; [|split; [|split]]]].
  - eexists _, _, _. split; [vm_compute; reflexivity|].
    split; [vm_compute; reflexivity|]. reflexivity.
  - qc_compute.
  - apply Qc_of_Z_neq_0. lia.
  - eexists _, _, _. split; [vm_compute; reflexivity|].
    split; [vm_compute; reflexivity|].
    vm_compute. do 2 f_equal. apply Qc_is_canon. reflexivity.
  - qc_compute.
  - apply Qc_eqb_false. vm_compute. reflexivity.
Qed.

(** ** What each step of the constructor leaves untouched *)

(** Takes apart a hypothesis saying that a sequence of steps returned. *)
Ltac returned H :=
  repeat match type of H with
  | bind ?c _ = Ok _ =>
      let E := fresh "E" in
      destruct c eqn:E; [rewrite bind_Ok in H | discriminate H]
  | (if ?b then _ else _) = Ok _ =>
      let E := fresh "E" in destruct b eqn:E
  | match ?x with _ => _ end = Ok _ =>
      let E := fresh "E" in destruct x eqn:E; try discriminate H
  end;
  try (injection H as H).

Lemma _init_from_gpx_file_pause `{Externals} (g : Gpx) (a : Activity) :
  exists a', _init_from_gpx_file g a = Ok a'
    /\ time_pause a' =
         (if Qc_ltb (Qc_of_Z 4) (fl (total_time_trkpts g - total_time g))
          then PFloat (fl (total_time_trkpts g - total_time g))
          else time_pause a).
Proof.
  unfold _init_from_gpx_file. simpl.
  destruct (Qc_ltb (Qc_of_Z 4) (fl (total_time_trkpts g - total_time g)));
    eexists; split; reflexivity.
Qed.

Lemma populate_frame `{Externals} (row : DbRow.t) (a a' : Activity) :
  populate row a = Ok a' ->
  time_pause a' = time_pause a /\ id a' = id a
  /\ has_gpx_file a' = has_gpx_file a /\ tracklist a' = tracklist a
  /\ distance_data a' = distance_data a /\ time_data a' = time_data a
  /\ us_system a' = us_system a /\ has_data a' = true.
Proof.
  unfold populate. intros Hp. returned Hp; subst a'; simpl; auto 10.
Qed.

Lemma _init_from_db_frame `{Externals} (main : pytrainer_main) (a : Activity)
    (r : Activity * list Lap.t) :
  _init_from_db main a = Ok r ->
  time_pause r.1 = time_pause a /\ id r.1 = id a
  /\ has_gpx_file r.1 = has_gpx_file a /\ tracklist r.1 = tracklist a
  /\ distance_data r.1 = distance_data a /\ time_data r.1 = time_data a
  /\ us_system r.1 = us_system a /\ has_data r.1 = true
  /\ exists row, select_result main = [row].
Proof.
  unfold _init_from_db. intros Hr.
  destruct (select_result main) as [|row [|row' rows]] eqn:Hsel;
    try discriminate Hr.
  destruct (populate row a) as [a1|] eqn:Hp; [|discriminate Hr].
  rewrite bind_Ok in Hr.
  destruct (populate_frame _ _ _ Hp) as (? & ? & ? & ? & ? & ? & ? & ?).
  returned Hr; subst r; simpl; (repeat split; try congruence); eauto.
Qed.

Lemma _init_graph_data_frame `{Externals} (main : pytrainer_main) (a a' : Activity) :
  _init_graph_data main a = Ok a' ->
  time_pause a' = time_pause a /\ has_data a' = has_data a
  /\ laps a' = laps a /\ us_system a' = us_system a
  /\ pace_limit a' = pace_limit a /\ fields a' = fields a.
Proof.
  unfold _init_graph_data. intros Hg. returned Hg; subst a'; simpl; auto 10.
Qed.

Lemma _generate_per_lap_graphs_frame `{Externals} (a a' : Activity) :
  _generate_per_lap_graphs a = Ok a' ->
  time_pause a' = time_pause a /\ has_data a' = has_data a
  /\ fields a' = fields a /\ us_system a' = us_system a.
Proof.
  unfold _generate_per_lap_graphs. intros Hg. returned Hg; subst a'; simpl; auto.
Qed.

(** The distance, pace and maximum pace that [populate] stores. *)
Lemma populate_fields `{Externals} (row : DbRow.t) (a a' : Activity) :
  populate row a = Ok a' ->
  exists f, fields a' = Some f
    /\ pace f = _float (DbRow.pace row)
    /\ maxpace f = _float (DbRow.maxpace row)
    /\ distance f =
         (if py_not (_float (DbRow.distance row)) then gpx_distance a
          else _float (DbRow.distance row)).
Proof.
  unfold populate. intros Hp.
  returned Hp; subst a'; simpl; eexists; repeat split; reflexivity.
Qed.

Lemma _init_from_db_fields `{Externals} (main : pytrainer_main) (a : Activity)
    (r : Activity * list Lap.t) :
  _init_from_db main a = Ok r ->
  exists row a1, select_result main = [row] /\ populate row a = Ok a1
    /\ fields r.1 = fields a1 /\ pace_limit r.1 = pace_limit a1.
Proof.
  unfold _init_from_db. intros Hr.
  destruct (select_result main) as [|row [|row' rows]] eqn:Hsel;
    try discriminate Hr.
  destruct (populate row a) as [a1|] eqn:Hp; [|discriminate Hr].
  rewrite bind_Ok in Hr. exists row, a1.
  returned Hr; subst r; simpl; auto.
Qed.

(** The steps of a construction that returned a populated instance. *)
Lemma __init___steps `{Externals} (main : pytrainer_main) (self_id : pyval)
    (a : Activity) (log : list Lap.t) :
  __init__ (Some main) self_id = Ok (Populated a, log) ->
  exists a0 r a2,
    match gpx main with
    | Some g => _init_from_gpx_file g (fresh main self_id)
    | None => Ok (fresh main self_id)
    end = Ok a0
    /\ _init_from_db main a0 = Ok r
    /\ _init_graph_data main r.1 = Ok a2
    /\ _generate_per_lap_graphs a2 = Ok a
    /\ log = r.2.
Proof.
  unfold __init__. intros Hi.
  destruct (decide (self_id = PNone)); [discriminate Hi|].
  returned Hi.
  all: eexists _, _, _; repeat split; eauto; congruence.
Qed.

(** ** C5: pause time *)

(** C5.  For an activity with a track log, the pause time after
    construction is the total time of the track points minus the total
    time of the laps when that difference is above 4 seconds, and 0
    otherwise; the step that computes it always returns.  The
    difference is the float nearest to it: the difference itself when
    the two totals are whole seconds. *)
Theorem pause_time_correct `{Externals} (main : pytrainer_main) (self_id : pyval)
    (g : Gpx) :
  gpx main = Some g ->
  let diff := fl (total_time_trkpts g - total_time g) in
  (exists a0, _init_from_gpx_file g (fresh main self_id) = Ok a0)
  /\ (forall a log,
       __init__ (Some main) self_id = Ok (Populated a, log) ->
       ((Qc_of_Z 4 < diff)%Qc -> time_pause a = PFloat diff)
       /\ ((diff <= Qc_of_Z 4)%Qc -> time_pause a = PInt 0))
  /\ (forall z1 z2,
        total_time_trkpts g = Qc_of_Z z1 -> total_time g = Qc_of_Z z2 ->
        Z.abs (z1 - z2) < 2 ^ 53 -> diff = Qc_of_Z (z1 - z2)).
Proof.
  intros Hg diff. split; [|split].
  - destruct (_init_from_gpx_file_pause g (fresh main self_id)) as (a0 & Ha0 & _).
    exists a0. exact Ha0.
  - intros a log Hi.
    destruct (__init___steps _ _ _ _ Hi) as (a0 & r & a2 & H0 & Hdb & Hgd & Hlap & _).
    rewrite Hg in H0.
    destruct (_init_from_gpx_file_pause g (fresh main self_id)) as (a0' & Ha0 & Hp).
    rewrite Ha0 in H0. injection H0 as ->.
    destruct (_init_from_db_frame _ _ _ Hdb) as (Hp1 & _).
    destruct (_init_graph_data_frame _ _ _ Hgd) as (Hp2 & _).
    destruct (_generate_per_lap_graphs_frame _ _ Hlap) as (Hp3 & _).
    rewrite Hp3, Hp2, Hp1, Hp. fold diff. split; intros Hd.
    + apply Qc_ltb_true in Hd. rewrite Hd. reflexivity.
    + apply Qc_ltb_false in Hd. rewrite Hd. reflexivity.
  - intros z1 z2 H1 H2 Hz. unfold diff.
    rewrite H1, H2, <- Qc_of_Z_sub. apply fl_of_Z, Hz.
Qed.

Lemma pause_time_correct_witness :
  (exists a log,
     __init__ (H := sample_externals) (Some (sample_with_gpx "False" 3590 3600)) (PInt 7)
       = Ok (Populated a, log)
     /\ time_pause a = PFloat (Qc_of_Z 10))
  /\ (exists a log,
     __init__ (H := sample_externals) (Some (sample_with_gpx "False" 3598 3600)) (PInt 7)
       = Ok (Populated a, log)
     /\ time_pause a = PInt 0).
Proof.
  split.
  - assert (E : exists a log,
        __init__ (H := sample_externals)
          (Some (sample_with_gpx "False" 3590 3600)) (PInt 7) = Ok (Populated a, log))
      by (vm_compute; eauto).
    destruct E as (a & log & E). exists a, log. split; [exact E|].
    destruct (pause_time_correct (H := sample_externals)
                (sample_with_gpx "False" 3590 3600) (PInt 7) _ eq_refl) as (_ & Hf & _).
    destruct (Hf a log E) as [Hgt _]. rewrite Hgt.
    + qc_compute.
    + apply Qc_ltb_true. reflexivity.
  - assert (E : exists a log,
        __init__ (H := sample_externals)
          (Some (sample_with_gpx "False" 3598 3600)) (PInt 7) = Ok (Populated a, log))
      by (vm_compute; eauto).
    destruct E as (a & log & E). exists a, log. split; [exact E|].
    destruct (pause_time_correct (H := sample_externals)
                (sample_with_gpx "False" 3598 3600) (PInt 7) _ eq_refl) as (_ & Hf & _).
    destruct (Hf a log E) as [_ Hle]. apply Hle.
    apply Qc_ltb_false. reflexivity.
Defined.

(** ** C4: construction without an identifier *)

(** C4 (as amended).  Constructing an instance without an identifier
    raises nothing: the constructor returns at its first guard and leaves
    an object that has the attribute [id] and no other; no source is
    read and nothing is written. *)
Theorem no_id_returns_unpopulated `{Externals} (main : option pytrainer_main) :
  __init__ main PNone = Ok (Unpopulated PNone, []).
Proof. reflexivity. Qed.

(** C4 as stated (construction fails with an error) does not hold. *)
Lemma no_id_raises_counterexample :
  ~ exists e, __init__ (H := sample_externals)
                (Some (sample_with_gpx "False" 3590 3600)) PNone = Raise e.
Proof. intros [e He]. discriminate He. Qed.

(** ** C10: a pace of zero reads as the empty string *)

Lemma pace_from_float_falsy `{Externals} (v : pyval) :
  truthy v = false -> pace_from_float v = Ok (PStr "").
Proof. intros Hv. unfold pace_from_float, py_not. rewrite Hv. reflexivity. Qed.

Lemma pacekm2miles_zero (v : pyval) :
  num_of v = Some 0%Qc -> pacekm2miles v = Ok (PFloat 0%Qc).
Proof.
  intros Hv.
  destruct (num_of_zero_cases v Hv) as [-> | ->]; unfold pacekm2miles;
    rewrite (py_div_float _ 0%Qc) by (try reflexivity; apply miles_per_km_neq_0);
    rewrite fl_div_0; reflexivity.
Qed.

Lemma truthy_zero (v : pyval) : num_of v = Some 0%Qc -> truthy v = false.
Proof. intros Hv. destruct (num_of_zero_cases v Hv) as [-> | ->]; reflexivity. Qed.

(** A pace of zero is read as the empty string, in both systems. *)
Lemma pace_reading_zero `{Externals} (a : Activity) (f : db_fields)
    (proj : db_fields -> pyval) :
  fields a = Some f ->
  num_of (proj f) = Some 0%Qc ->
  (let* v := converted a pacekm2miles proj in pace_from_float v) = Ok (PStr "").
Proof.
  intros Hf Hz. unfold converted, attribute. rewrite Hf, bind_Ok.
  destruct (us_system a).
  - rewrite (pacekm2miles_zero _ Hz), bind_Ok. reflexivity.
  - rewrite bind_Ok. apply pace_from_float_falsy, truthy_zero, Hz.
Qed.

(** C10.  When the stored average pace (respectively maximum pace) of an
    activity is exactly 0, [get_value("pace")] (respectively
    [get_value("maxpace")]) is the empty string, in the metric and in the
    imperial system: [pace_from_float] maps every false value to [""]. *)
Theorem zero_pace_reads_empty `{Externals} (a : Activity) (f : db_fields) :
  fields a = Some f ->
  (num_of (pace f) = Some 0%Qc -> get_value a "pace" = Ok (PStr ""))
  /\ (num_of (maxpace f) = Some 0%Qc -> get_value a "maxpace" = Ok (PStr ""))
  /\ (forall v, truthy v = false -> pace_from_float v = Ok (PStr "")).
Proof.
  intros Hf. split; [|split].
  - intros Hz. exact (pace_reading_zero a f pace Hf Hz).
  - intros Hz. exact (pace_reading_zero a f maxpace Hf Hz).
  - apply pace_from_float_falsy.
Qed.

(** The stored pace of a constructed activity is the lenient reading of
    the column [pace] of its row; likewise the maximum pace. *)
Lemma __init___pace `{Externals} (main : pytrainer_main) (self_id : pyval)
    (a : Activity) (log : list Lap.t) :
  __init__ (Some main) self_id = Ok (Populated a, log) ->
  exists row f, select_result main = [row] /\ fields a = Some f
    /\ pace f = _float (DbRow.pace row)
    /\ maxpace f = _float (DbRow.maxpace row)
    /\ us_system a = py_eq (prf_us_system main) (PStr "True")
    /\ (truthy (_float (DbRow.distance row)) = true ->
        distance f = _float (DbRow.distance row)).
Proof.
  intros Hi.
  destruct (__init___steps _ _ _ _ Hi) as (a0 & r & a2 & H0 & Hdb & Hgd & Hlap & _).
  destruct (_init_from_db_fields _ _ _ Hdb) as (row & a1 & Hsel & Hp & Hf1 & _).
  destruct (populate_fields _ _ _ Hp) as (f & Hf & Hpace & Hmax & Hdist).
  destruct (_init_graph_data_frame _ _ _ Hgd) as (_ & _ & _ & Hus2 & _ & Hf2).
  destruct (_generate_per_lap_graphs_frame _ _ Hlap) as (_ & _ & Hf3 & Hus3).
  destruct (_init_from_db_frame _ _ _ Hdb) as (_ & _ & _ & _ & _ & _ & Hus1 & _).
  exists row, f. repeat split; try assumption.
  - congruence.
  - rewrite Hus3, Hus2, Hus1.
    destruct (gpx main) as [g|].
    + unfold _init_from_gpx_file in H0. returned H0; subst a0; reflexivity.
    + injection H0 as <-. reflexivity.
  - intros Ht. rewrite Hdist. unfold py_not. rewrite Ht. reflexivity.
Qed.

Lemma zero_pace_reads_empty_witness :
  (exists a log,
     __init__ (H := sample_externals)
       (Some (sample_main "False" None
                [sample_row (PFloat (Qc_of_Z 10)) (PFloat 0%Qc) (PInt 0)]
                (Some sample_laps))) (PInt 7) = Ok (Populated a, log)
     /\ get_value (H := sample_externals) a "pace" = Ok (PStr ""))
  /\ (exists a log,
     __init__ (H := sample_externals)
       (Some (sample_main "True" None
                [sample_row (PFloat (Qc_of_Z 10)) (PNone) (PInt 0)]
                (Some sample_laps))) (PInt 7) = Ok (Populated a, log)
     /\ get_value (H := sample_externals) a "maxpace" = Ok (PStr "")).
Proof.
  split.
  - assert (E : exists a log,
        __init__ (H := sample_externals)
          (Some (sample_main "False" None
                   [sample_row (PFloat (Qc_of_Z 10)) (PFloat 0%Qc) (PInt 0)]
                   (Some sample_laps))) (PInt 7) = Ok (Populated a, log))
      by (vm_compute; eauto).
    destruct E as (a & log & E). exists a, log. split; [exact E|].
    destruct (__init___pace _ _ _ _ E) as (row & f & Hrow & Hf & Hp & _).
    injection Hrow as <-.
    destruct (zero_pace_reads_empty (H := sample_externals) a f Hf) as (Hpace & _).
    apply Hpace. rewrite Hp. reflexivity.
  - assert (E : exists a log,
        __init__ (H := sample_externals)
          (Some (sample_main "True" None
                   [sample_row (PFloat (Qc_of_Z 10)) (PNone) (PInt 0)]
                   (Some sample_laps))) (PInt 7) = Ok (Populated a, log))
      by (vm_compute; eauto).
    destruct E as (a & log & E). exists a, log. split; [exact E|].
    destruct (__init___pace _ _ _ _ E) as (row & f & Hrow & Hf & _ & Hm & _).
    injection Hrow as <-.
    destruct (zero_pace_reads_empty (H := sample_externals) a f Hf) as (_ & Hmax & _).
    apply Hmax. rewrite Hm. reflexivity.
Defined.

(** ** C8: formatted values *)

Lemma km2miles_number (v : pyval) (x : Qc) :
  num_of v = Some x -> km2miles v = Ok (PFloat (fl (x * miles_per_km))).
Proof.
  intros Hv. unfold km2miles, py_mul.
  destruct v; simpl in *; try discriminate; injection Hv as <-; reflexivity.
Qed.

Lemma get_value_distance `{Externals} (a : Activity) (f : db_fields) :
  fields a = Some f ->
  get_value a "distance"
    = if us_system a then km2miles (distance f) else Ok (distance f).
Proof.
  intros Hf. unfold get_value. simpl. unfold converted, attribute.
  rewrite Hf, bind_Ok. reflexivity.
Qed.

Lemma units_distance (a : Activity) : units a !! "distance" = Some (distance_unit a).
Proof. reflexivity. Qed.

(** C8.  [get_value_f] returns the empty string whenever the value it
    reads ([get_value]) is a false value: zero, [None] or the empty
    string; so it does for a distance of zero and for an absent
    distance, in both systems.  For a distance that is not zero it
    returns the text of the converted number (the kilometres, or the
    float nearest to the kilometres times 0.621371 in the imperial
    system), followed by the unit of distance of the system ("km",
    "miles") when units are asked for. *)
Theorem get_value_f_correct `{Externals} (a : Activity) :
  (forall param fmt wu v,
      get_value a param = Ok v -> truthy v = false ->
      get_value_f a param fmt wu = Ok "")
  /\ (forall f fmt wu,
        fields a = Some f -> num_of (distance f) = Some 0%Qc ->
        get_value_f a "distance" fmt wu = Ok "")
  /\ (forall f fmt wu,
        fields a = Some f -> distance f = PNone ->
        get_value_f a "distance" fmt wu = Ok "")
  /\ (forall f d fmt wu,
        fields a = Some f -> distance f = PFloat d -> d <> 0%Qc ->
        let shown := if us_system a then fl (d * miles_per_km) else d in
        get_value_f a "distance" fmt wu =
          (let* text :=
             match fmt with
             | Some fm => py_format fm (PFloat shown)
             | None => Ok (str_float shown)
             end in
           Ok (if wu then text ++ (if us_system a then "miles" else "km")
               else text))).
Proof.
  assert (Hfalsy : forall param fmt wu v,
            get_value a param = Ok v -> truthy v = false ->
            get_value_f a param fmt wu = Ok "").
  { intros param fmt wu v Hv Ht. unfold get_value_f.
    rewrite Hv, bind_Ok. unfold py_not. rewrite Ht. reflexivity. }
  split; [exact Hfalsy|]. split; [|split].
  - intros f fmt wu Hf Hz.
    destruct (us_system a) eqn:Hus.
    + apply (Hfalsy _ _ _ (PFloat 0%Qc)); [|reflexivity].
      rewrite (get_value_distance a f Hf), Hus, (km2miles_number _ _ Hz).
      rewrite fl_mul_0. reflexivity.
    + apply (Hfalsy _ _ _ (distance f)); [|apply truthy_zero, Hz].
      rewrite (get_value_distance a f Hf), Hus. reflexivity.
  - intros f fmt wu Hf Hn.
    apply (Hfalsy _ _ _ PNone); [|reflexivity].
    rewrite (get_value_distance a f Hf), Hn.
    destruct (us_system a); reflexivity.
  - intros f d fmt wu Hf Hd Hne shown. unfold get_value_f.
    assert (Hv : get_value a "distance" = Ok (PFloat shown)).
    { rewrite (get_value_distance a f Hf), Hd. unfold shown.
      destruct (us_system a); [|reflexivity].
      apply km2miles_number. reflexivity. }
    assert (Hshown : shown <> 0%Qc).
    { unfold shown. destruct (us_system a); [|exact Hne].
      apply fl_neq_0, Qcmult_neq_0; [exact Hne | apply miles_per_km_neq_0]. }
    rewrite Hv, bind_Ok. unfold py_not. simpl.
    apply Qc_eqb_false in Hshown. rewrite Hshown. simpl.
    rewrite units_distance. unfold distance_unit.
    destruct fmt as [fm|]; simpl.
    + destruct (py_format fm (PFloat shown)); simpl; [|reflexivity].
      destruct wu; reflexivity.
    + destruct wu; reflexivity.
Qed.

Lemma get_value_f_correct_witness :
  (exists a log,
     __init__ (H := sample_externals)
       (Some (sample_main "False" None
                [sample_row (PFloat (Qc_of_Z 10)) (PFloat 0%Qc) (PInt 0)]
                (Some sample_laps))) (PInt 7) = Ok (Populated a, log)
     /\ get_value_f (H := sample_externals) a "distance" (Some "%0.2f") true
          = Ok "10.00km"
     /\ get_value_f (H := sample_externals) a "pace" None true = Ok "")
  /\ (exists a log,
     __init__ (H := sample_externals)
       (Some (sample_main "True" None
                [sample_row (PFloat (Qc_of_Z 10)) (PFloat 0%Qc) (PInt 0)]
                (Some sample_laps))) (PInt 7) = Ok (Populated a, log)
     /\ get_value_f (H := sample_externals) a "distance" (Some "%0.2f") true
          = Ok "6.21miles").
Proof.
  split.
  - assert (E : exists a log,
        __init__ (H := sample_externals)
          (Some (sample_main "False" None
                   [sample_row (PFloat (Qc_of_Z 10)) (PFloat 0%Qc) (PInt 0)]
                   (Some sample_laps))) (PInt 7) = Ok (Populated a, log))
      by (vm_compute; eauto).
    destruct E as (a & log & E). exists a, log. split; [exact E|].
    destruct (__init___pace _ _ _ _ E) as (row & f & Hrow & Hf & Hp & _ & Hus & Hd).
    injection Hrow as <-.
    destruct (get_value_f_correct (H := sample_externals) a)
      as (Hfalsy & _ & _ & Hshown).
    split.
    + rewrite (Hshown f (Qc_of_Z 10) (Some "%0.2f") true Hf).
      * rewrite Hus. reflexivity.
      * apply Hd. reflexivity.
      * apply Qc_of_Z_neq_0. lia.
    + apply (Hfalsy "pace" None true (PStr "")); [|reflexivity].
      apply (pace_reading_zero (H := sample_externals) a f pace Hf).
      rewrite Hp. reflexivity.
  - assert (E : exists a log,
        __init__ (H := sample_externals)
          (Some (sample_main "True" None
                   [sample_row (PFloat (Qc_of_Z 10)) (PFloat 0%Qc) (PInt 0)]
                   (Some sample_laps))) (PInt 7) = Ok (Populated a, log))
      by (vm_compute; eauto).
    destruct E as (a & log & E). exists a, log. split; [exact E|].
    destruct (__init___pace _ _ _ _ E) as (row & f & Hrow & Hf & _ & _ & Hus & Hd).
    injection Hrow as <-.
    destruct (get_value_f_correct (H := sample_externals) a)
      as (_ & _ & _ & Hshown).
    rewrite (Hshown f (Qc_of_Z 10) (Some "%0.2f") true Hf).
    + rewrite Hus. reflexivity.
    + apply Hd. reflexivity.
    + apply Qc_of_Z_neq_0. lia.
Defined.

(** ** C7: pace as text and as a number *)

Lemma lstrip_Forall (P : ascii -> Prop) (l : list ascii) :
  (forall c, is_space c = true -> P c) ->
  Forall P (lstrip l) -> Forall P l.
Proof.
  intros Hsp. induction l as [|c l IH]; simpl; [auto|].
  destruct (is_space c) eqn:Hc; [|auto].
  intros Hl. constructor; [apply Hsp, Hc | apply IH, Hl].
Qed.

Lemma strip_Forall (P : ascii -> Prop) (l : list ascii) :
  (forall c, is_space c = true -> P c) ->
  Forall P (strip l) -> Forall P l.
Proof.
  intros Hsp Hl. unfold strip in Hl.
  apply (lstrip_Forall P l Hsp).
  apply Forall_rev in Hl. rewrite rev_involutive in Hl.
  apply (lstrip_Forall P _ Hsp) in Hl.
  apply Forall_rev in Hl. rewrite rev_involutive in Hl. exact Hl.
Qed.

Lemma take_digits_split (l : list ascii) :
  forall acc cnt v n rest,
    take_digits l acc cnt = (v, n, rest) ->
    exists ds, l = (ds ++ rest)%list /\ Forall (fun c => is_Some (digit_of c)) ds.
Proof.
  induction l as [|c l IH]; simpl; intros acc cnt v n rest Ht.
  - injection Ht as _ _ <-. exists []. split; [reflexivity | constructor].
  - destruct (digit_of c) as [d|] eqn:Hc.
    + destruct (IH _ _ _ _ _ Ht) as (ds & -> & Hds).
      exists (c :: ds). split; [reflexivity|].
      constructor; [rewrite Hc; eauto | exact Hds].
    + injection Ht as _ _ <-. exists []. split; [reflexivity | constructor].
Qed.

Lemma digit_float_char (c : ascii) : is_Some (digit_of c) -> float_char c = true.
Proof.
  intros Hc. unfold float_char. rewrite (bool_decide_eq_true_2 _ Hc).
  rewrite orb_true_r. reflexivity.
Qed.

Lemma take_digits_chars (l : list ascii) acc cnt v n rest :
  take_digits l acc cnt = (v, n, rest) ->
  Forall (fun c => float_char c = true) rest ->
  Forall (fun c => float_char c = true) l.
Proof.
  intros Ht Hrest. destruct (take_digits_split _ _ _ _ _ _ Ht) as (ds & -> & Hds).
  apply Forall_app. split; [|exact Hrest].
  eapply Forall_impl; [exact Hds|]. intros c. apply digit_float_char.
Qed.

Lemma take_sign_chars (l l1 : list ascii) (neg : bool) :
  take_sign l = (neg, l1) ->
  Forall (fun c => float_char c = true) l1 ->
  Forall (fun c => float_char c = true) l.
Proof.
  destruct l as [|c l]; simpl.
  - intros [= _ <-]. auto.
  - destruct (Ascii.eqb c "-") eqn:Hm; [|destruct (Ascii.eqb c "+") eqn:Hp].
    + intros [= _ <-] Hl. constructor; [|exact Hl].
      unfold float_char. rewrite Hm. rewrite !orb_true_r. reflexivity.
    + intros [= _ <-] Hl. constructor; [|exact Hl].
      unfold float_char. rewrite Hp. rewrite !orb_true_r. reflexivity.
    + intros [= _ <-] Hl. exact Hl.
Qed.

Lemma take_exponent_chars (l : list ascii) (e : Z) :
  take_exponent l = Some (e, []) ->
  Forall (fun c => float_char c = true) l.
Proof.
  destruct l as [|c l]; simpl; [constructor|].
  destruct (Ascii.eqb c "e" || Ascii.eqb c "E")%bool eqn:Hc; [|discriminate].
  destruct (take_sign l) as [neg l1] eqn:Hs.
  destruct (take_digits l1 0 0%nat) as [[v ne] l2] eqn:Hd.
  destruct ne; [discriminate|]. intros [= _ ->].
  constructor.
  - apply orb_true_iff in Hc as [Hc | Hc]; apply Ascii.eqb_eq in Hc;
      subst c; reflexivity.
  - eapply take_sign_chars; [exact Hs|].
    eapply take_digits_chars; [exact Hd | constructor].
Qed.

Lemma float_of_string_chars (s : string) (q : Qc) :
  float_of_string s = Some q ->
  Forall (fun c => float_char c = true) (list_ascii_of_string s).
Proof.
  unfold float_of_string. intros Hq.
  apply strip_Forall.
  { intros c Hc. unfold float_char. rewrite Hc. reflexivity. }
  destruct (take_sign (strip (list_ascii_of_string s))) as [neg l1] eqn:Hs.
  destruct (take_digits l1 0 0%nat) as [[i ni] l2] eqn:Hi.
  eapply take_sign_chars; [exact Hs|].
  eapply take_digits_chars; [exact Hi|].
  destruct l2 as [|c l2'].
  - constructor.
  - destruct (Ascii.eqb c ".") eqn:Hdot.
    + destruct (take_digits l2' 0 0%nat) as [[f nf] l3] eqn:Hf.
      destruct (ni + nf)%nat; [discriminate|].
      destruct (take_exponent l3) as [[e [|? ?]]|] eqn:He; try discriminate.
      constructor.
      * unfold float_char. rewrite Hdot. rewrite !orb_true_r. reflexivity.
      * eapply take_digits_chars; [exact Hf|].
        eapply take_exponent_chars; exact He.
    + destruct (ni + 0)%nat; [discriminate|].
      destruct (take_exponent (c :: l2')) as [[e [|? ?]]|] eqn:He; try discriminate.
      eapply take_exponent_chars; exact He.
Qed.

Lemma nonfinite_letter_float_char (c : ascii) :
  (Ascii.eqb (lower c) "i" || Ascii.eqb (lower c) "n"
   || Ascii.eqb (lower c) "f" || Ascii.eqb (lower c) "t"
   || Ascii.eqb (lower c) "y" || Ascii.eqb (lower c) "a")%bool = true ->
  float_char c = true.
Proof.
  intros Hc. unfold float_char.
  repeat (apply orb_true_iff in Hc as [Hc | Hc];
          [|rewrite Hc, ?orb_true_r; reflexivity]).
  rewrite Hc, ?orb_true_r. reflexivity.
Qed.

Lemma lowered_literal_chars (l : list ascii) (lit : string) :
  Forall (fun x => (Ascii.eqb x "i" || Ascii.eqb x "n" || Ascii.eqb x "f"
                    || Ascii.eqb x "t" || Ascii.eqb x "y" || Ascii.eqb x "a")%bool
                   = true) (list_ascii_of_string lit) ->
  String.eqb (string_of_list_ascii (map lower l)) lit = true ->
  Forall (fun c => float_char c = true) l.
Proof.
  intros Hlit Heq. apply String.eqb_eq in Heq.
  apply (f_equal list_ascii_of_string) in Heq.
  rewrite list_ascii_of_string_of_list_ascii in Heq. rewrite <- Heq in Hlit.
  apply Forall_map in Hlit.
  eapply Forall_impl; [exact Hlit|].
  intros c Hc. apply nonfinite_letter_float_char, Hc.
Qed.

Lemma nonfinite_of_string_chars (s : string) (v : pyval) :
  nonfinite_of_string s = Some v ->
  Forall (fun c => float_char c = true) (list_ascii_of_string s).
Proof.
  unfold nonfinite_of_string. intros Hv.
  apply strip_Forall.
  { intros c Hc. unfold float_char. rewrite Hc. reflexivity. }
  destruct (take_sign (strip (list_ascii_of_string s))) as [neg l1] eqn:Hs.
  eapply take_sign_chars; [exact Hs|].
  destruct (String.eqb (string_of_list_ascii (map lower l1)) "inf") eqn:E1.
  { apply (lowered_literal_chars l1 "inf"); [repeat constructor | exact E1]. }
  destruct (String.eqb (string_of_list_ascii (map lower l1)) "infinity") eqn:E2.
  { apply (lowered_literal_chars l1 "infinity"); [repeat constructor | exact E2]. }
  destruct (String.eqb (string_of_list_ascii (map lower l1)) "nan") eqn:E3.
  { apply (lowered_literal_chars l1 "nan"); [repeat constructor | exact E3]. }
  discriminate Hv.
Qed.

(** Whatever [float] accepts is made of the characters of a float
    literal. *)
Lemma float_text_chars (s : string) (v : pyval) :
  float_text s = Some v ->
  Forall (fun c => float_char c = true) (list_ascii_of_string s).
Proof.
  unfold float_text. destruct (float_of_string s) as [q|] eqn:Hq.
  - intros _. exact (float_of_string_chars s q Hq).
  - apply nonfinite_of_string_chars.
Qed.

Lemma list_ascii_of_replace (a b : ascii) (s : string) :
  list_ascii_of_string (replace a b s)
    = map (fun c => if Ascii.eqb c a then b else c) (list_ascii_of_string s).
Proof. induction s as [|c s IH]; simpl; [reflexivity | rewrite IH; reflexivity]. Qed.

(** C7.  The two encodings of a pace agree on "5:30": from the text to
    the number and back gives "5:30" again; the text "5.30" reads as the
    number 5.30 (the float nearest to it); and [pace_to_float] returns [None] for every text that
    [float] does not accept once the colon is replaced, in particular for
    every text holding a character that no number is written with. *)
Theorem pace_encoding_round_trip `{Externals} :
  (let* f := pace_to_float (PStr "5:30") in pace_from_float f) = Ok (PStr "5:30")
  /\ pace_to_float (PStr "5.30") = Ok (PFloat (fl (ratio 530 100)))
  /\ pace_to_float (PStr "5:30") = Ok (PFloat (fl (ratio 530 100)))
  /\ (forall s, float_text (replace ":" "." s) = None ->
        pace_to_float (PStr s) = Ok PNone)
  /\ (forall s c, In c (list_ascii_of_string s) ->
        float_char c = false -> c <> ":"%char ->
        pace_to_float (PStr s) = Ok PNone)
  /\ pace_to_float (PStr "5:30:10") = Ok PNone
  /\ pace_to_float (PStr "") = Ok PNone.
Proof.
  assert (Hfail : forall s, float_text (replace ":" "." s) = None ->
            pace_to_float (PStr s) = Ok PNone).
  { intros s Hs. unfold pace_to_float, py_float. rewrite Hs. reflexivity. }
  split; [|split; [|split; [|split; [exact Hfail|split; [|split]]]]].
  - vm_compute. reflexivity.
  - qc_compute.
  - qc_compute.
  - intros s c Hin Hc Hcolon. apply Hfail.
    destruct (float_text (replace ":" "." s)) as [q|] eqn:Hq; [|reflexivity].
    exfalso. apply float_text_chars in Hq.
    rewrite list_ascii_of_replace in Hq.
    rewrite Forall_forall in Hq.
    specialize (Hq (if Ascii.eqb c ":" then "."%char else c)).
    assert (Hneq : Ascii.eqb c ":" = false) by (apply Ascii.eqb_neq; exact Hcolon).
    rewrite Hneq in Hq. rewrite Hq in Hc; [discriminate|].
    apply list_elem_of_In. apply in_map_iff. exists c. rewrite Hneq. auto.
  - reflexivity.
  - reflexivity.
Qed.

Lemma pace_encoding_round_trip_witness :
  pace_to_float (PStr "5m30") = Ok PNone
  /\ pace_to_float (PStr "abc") = Ok PNone.
Proof.
  destruct (pace_encoding_round_trip (H := sample_externals))
    as (_ & _ & _ & Hfail & Hchar & _).
  split.
  - apply (Hchar "5m30" "m"%char); [simpl; auto | reflexivity | discriminate].
  - apply Hfail. reflexivity.
Defined.

(** ** C3: series without values *)

Lemma drop_if_empty_lookup (d : gmap string GraphData) (item k : string) :
  drop_if_empty d item !! k
    = if decide (item = k) then keep_nonempty len (d !! k) else d !! k.
Proof.
  unfold drop_if_empty. destruct (decide (item = k)) as [-> | Hne].
  - destruct (d !! k) as [g|] eqn:Hg; simpl; [|exact Hg].
    destruct (Nat.eqb (len g) 0); [apply lookup_delete_eq | exact Hg].
  - destruct (d !! item) as [g|]; [|reflexivity].
    destruct (Nat.eqb (len g) 0); [|reflexivity].
    apply lookup_delete_ne, Hne.
Qed.

Lemma keep_nonempty_idem {A : Type} (size : A -> nat) (o : option A) :
  keep_nonempty size (keep_nonempty size o) = keep_nonempty size o.
Proof.
  destruct o as [g|]; simpl; [|reflexivity].
  destruct (Nat.eqb (size g) 0) eqn:E; simpl; [reflexivity|].
  rewrite E. reflexivity.
Qed.

Lemma foldl_drop_if_empty_lookup (l : list string) :
  forall (d : gmap string GraphData) (k : string),
    foldl drop_if_empty d l !! k
      = if decide (k ∈ l) then keep_nonempty len (d !! k) else d !! k.
Proof.
  induction l as [|x l IH]; intros d k; simpl.
  - destruct (decide (k ∈ [])) as [Hin|]; [|reflexivity].
    apply elem_of_nil in Hin. contradiction.
  - rewrite IH, drop_if_empty_lookup.
    destruct (decide (x = k)) as [-> | Hne].
    + rewrite keep_nonempty_idem.
      destruct (decide (k ∈ k :: l)) as [_ | Hn]; [|exfalso; apply Hn; left].
      destruct (decide (k ∈ l)); reflexivity.
    + destruct (decide (k ∈ l)) as [Hin | Hnin];
        destruct (decide (k ∈ x :: l)) as [Hin' | Hnin']; try reflexivity.
      * exfalso. apply Hnin'. right. exact Hin.
      * apply elem_of_cons in Hin' as [-> | Hin']; contradiction.
Qed.

Lemma elem_of_keys (d : gmap string GraphData) (k : string) :
  k ∈ keys d <-> is_Some (d !! k).
Proof.
  unfold keys. rewrite list_elem_of_fmap. split.
  - intros ([k' g] & -> & Hin). apply elem_of_map_to_list in Hin. eauto.
  - intros [g Hg]. exists (k, g). split; [reflexivity|].
    apply elem_of_map_to_list, Hg.
Qed.

(** The removal loop keeps exactly the series that hold a point. *)
Lemma remove_empty_lookup (d : gmap string GraphData) (k : string) :
  remove_empty d !! k = keep_nonempty len (d !! k).
Proof.
  unfold remove_empty. rewrite foldl_drop_if_empty_lookup.
  destruct (decide (k ∈ keys d)) as [_ | Hn]; [reflexivity|].
  destruct (d !! k) as [g|] eqn:Hg; [|reflexivity].
  exfalso. apply Hn, elem_of_keys. eauto.
Qed.

Lemma keep_nonempty_Some (o : option GraphData) (g : GraphData) :
  keep_nonempty len o = Some g -> o = Some g /\ (0 < len g)%nat.
Proof.
  destruct o as [g'|]; simpl; [|discriminate].
  destruct (Nat.eqb (len g') 0) eqn:E; [discriminate|].
  intros [= ->]. apply Nat.eqb_neq in E. split; [reflexivity | lia].
Qed.

Lemma foldl_zone_step_lookup (zs : list zone) :
  forall (s : series) (k : string), k <> "hr_z" ->
    by_distance (foldl (fun s z => zone_step z s) s zs) !! k = by_distance s !! k
    /\ by_time (foldl (fun s z => zone_step z s) s zs) !! k = by_time s !! k.
Proof.
  induction zs as [|z zs IH]; intros s k Hk; simpl; [auto|].
  destruct (IH (zone_step z s) k Hk) as [-> ->]. unfold zone_step. simpl.
  rewrite !lookup_alter_ne by congruence. auto.
Qed.

Lemma add_hr_zones_lookup (a : Activity) (zs : list zone) (s : series) (k : string) :
  k <> "hr_z" ->
  by_distance (add_hr_zones a zs s) !! k = by_distance s !! k
  /\ by_time (add_hr_zones a zs s) !! k = by_time s !! k.
Proof.
  intros Hk. unfold add_hr_zones.
  destruct (by_distance s !! "hr"); [|auto].
  match goal with
  | |- context [foldl _ ?s0 zs] =>
      destruct (foldl_zone_step_lookup zs s0 k Hk) as [-> ->]
  end.
  simpl. rewrite !lookup_insert_ne by congruence. auto.
Qed.

(** After the generation for the track points, a series other than the
    zones is in a mapping only if it holds a point. *)
Lemma point_series_nonempty `{Externals} (main : pytrainer_main) (a : Activity)
    (tl : list trkpoint) (s : series) (k : string) (g : GraphData) :
  point_series main a tl = Ok s ->
  k <> "hr_z" ->
  by_distance s !! k = Some g \/ by_time s !! k = Some g ->
  (0 < len g)%nat.
Proof.
  unfold point_series. intros Hs Hk Hg.
  destruct (for_each _ tl _) as [s0|] eqn:Hloop; [|discriminate Hs].
  rewrite bind_Ok in Hs. injection Hs as <-.
  destruct (add_hr_zones_lookup a (getZones main)
              {| by_distance := remove_empty (by_distance s0);
                 by_time := remove_empty (by_time s0) |} k Hk) as [Hd Ht].
  simpl in Hd, Ht. rewrite Hd, Ht, !remove_empty_lookup in Hg.
  destruct Hg as [Hg | Hg]; apply keep_nonempty_Some in Hg; tauto.
Qed.

Lemma lap_step_lookup (us : bool) (limit : pyval) (lap : Lap.t)
    (s s' : lap_graphs) (k : string) :
  lap_step us limit lap s = Ok s' ->
  k <> "pace_lap" -> k <> "speed_lap" ->
  lg_distance_data s' !! k = lg_distance_data s !! k
  /\ lg_time_data s' !! k = lg_time_data s !! k.
Proof.
  unfold lap_step, bar_to. intros Hs Hp Hv.
  returned Hs; subst s'; simpl; rewrite !lookup_alter_ne by congruence; auto.
Qed.

Lemma for_each_lap_step_lookup (us : bool) (limit : pyval) (ls : list Lap.t) :
  forall (s s' : lap_graphs) (k : string),
    for_each (lap_step us limit) ls s = Ok s' ->
    k <> "pace_lap" -> k <> "speed_lap" ->
    lg_distance_data s' !! k = lg_distance_data s !! k
    /\ lg_time_data s' !! k = lg_time_data s !! k.
Proof.
  induction ls as [|lap ls IH]; simpl; intros s s' k Hs Hp Hv.
  - injection Hs as <-. auto.
  - destruct (lap_step us limit lap s) as [s1|] eqn:H1; [|discriminate Hs].
    rewrite bind_Ok in Hs.
    destruct (IH _ _ k Hs Hp Hv) as [-> ->].
    exact (lap_step_lookup _ _ _ _ _ k H1 Hp Hv).
Qed.

Lemma _generate_per_lap_graphs_lookup (a a' : Activity) (k : string) :
  _generate_per_lap_graphs a = Ok a' ->
  k <> "pace_lap" -> k <> "speed_lap" ->
  distance_data a' !! k = distance_data a !! k
  /\ time_data a' !! k = time_data a !! k.
Proof.
  unfold _generate_per_lap_graphs. intros Ha Hp Hv.
  destruct (laps a) as [ls|]; [|injection Ha as <-; auto].
  destruct (for_each _ ls _) as [s|] eqn:Hloop; [|discriminate Ha].
  rewrite bind_Ok in Ha. injection Ha as <-. simpl.
  destruct (for_each_lap_step_lookup _ _ _ _ _ k Hloop Hp Hv) as [-> ->].
  unfold new_lap_graphs. simpl.
  rewrite !lookup_insert_ne by congruence. auto.
Qed.

Lemma before_db_no_series `{Externals} (main : pytrainer_main) (self_id : pyval)
    (a0 : Activity) :
  match gpx main with
  | Some g => _init_from_gpx_file g (fresh main self_id)
  | None => Ok (fresh main self_id)
  end = Ok a0 ->
  distance_data a0 = ∅ /\ time_data a0 = ∅
  /\ (tracklist a0 = None <-> gpx main = None).
Proof.
  destruct (gpx main) as [g|]; intros H0.
  - unfold _init_from_gpx_file in H0.
    returned H0; subst a0; simpl; repeat split; discriminate.
  - injection H0 as <-. simpl. tauto.
Qed.

(** C3 (as amended).  After construction, every series for the track
    points (elevation, corrected elevation, speed, pace, heart rate,
    heart rate in percent, cadence) that is present in the mapping by
    distance or in the mapping by time holds at least one point: a
    series of these that ended with no point has been removed.  The
    zone series and the two series per lap are created after the removal
    and are not subject to it. *)
Theorem point_series_hold_points `{Externals} (main : pytrainer_main)
    (self_id : pyval) (a : Activity) (log : list Lap.t) :
  __init__ (Some main) self_id = Ok (Populated a, log) ->
  forall (k : string) (g : GraphData),
    k <> "hr_z" -> k <> "pace_lap" -> k <> "speed_lap" ->
    distance_data a !! k = Some g \/ time_data a !! k = Some g ->
    (0 < len g)%nat.
Proof.
  intros Hi k g Hz Hp Hv Hg.
  destruct (__init___steps _ _ _ _ Hi) as (a0 & r & a2 & H0 & Hdb & Hgd & Hlap & _).
  destruct (_generate_per_lap_graphs_lookup _ _ k Hlap Hp Hv) as [Hd Ht].
  rewrite Hd, Ht in Hg. clear Hd Ht.
  destruct (before_db_no_series _ _ _ H0) as (Hd0 & Ht0 & _).
  destruct (_init_from_db_frame _ _ _ Hdb) as (_ & _ & _ & _ & Hd1 & Ht1 & _).
  unfold _init_graph_data in Hgd.
  destruct (tracklist r.1) as [tl|].
  - destruct (point_series main r.1 tl) as [s|] eqn:Hs; [|discriminate Hgd].
    rewrite bind_Ok in Hgd. injection Hgd as <-. simpl in Hg.
    exact (point_series_nonempty _ _ _ _ k g Hs Hz Hg).
  - injection Hgd as <-. rewrite Hd1, Ht1, Hd0, Ht0 in Hg.
    rewrite !lookup_empty in Hg. destruct Hg; discriminate.
Qed.

Lemma point_series_hold_points_witness :
  exists a log g,
    __init__ (H := sample_externals) (Some (sample_with_gpx "False" 3598 3600)) (PInt 7)
      = Ok (Populated a, log)
    /\ time_data a !! "hr" = Some g
    /\ (0 < len g)%nat
    /\ time_data a !! "cadence" = None.
Proof.
  eexists _, _, _. split; [vm_compute; reflexivity|].
  split; [vm_compute; reflexivity|]. split; [|vm_compute; reflexivity].
  eapply (point_series_hold_points (H := sample_externals)
            (sample_with_gpx "False" 3598 3600) (PInt 7)) with (k := "hr").
  - vm_compute. reflexivity.
  - discriminate.
  - discriminate.
  - discriminate.
  - right. vm_compute. reflexivity.
Defined.

(** C3 as stated does not hold for the series per lap nor for the zone
    series: an activity whose lap list is empty has an empty "pace_lap"
    series in its mapping by distance, and a profile without zones gives
    an empty "hr_z" series. *)
Lemma empty_series_counterexample :
  (exists a log g,
     __init__ (H := sample_externals)
       (Some (sample_without_gpx
                [sample_row (PFloat (Qc_of_Z 10)) (PFloat (Qc_of_Z 6)) (PInt 0)]
                (Some []))) (PInt 7) = Ok (Populated a, log)
     /\ distance_data a !! "pace_lap" = Some g /\ len g = 0%nat)
  /\ (exists a log g,
     __init__ (H := sample_externals) (Some sample_without_zones) (PInt 7)
       = Ok (Populated a, log)
     /\ time_data a !! "hr_z" = Some g /\ len g = 0%nat).
Proof.
  split; eexists _, _, _; (split; [vm_compute; reflexivity|]);
    (split; [vm_compute; reflexivity|]); reflexivity.
Qed.

(** ** C9: the time axis does not depend on the measurement system *)

Lemma addPoints_kept (x y l c : pyval) (g : GraphData) :
  addPoints x y l c g
    = if kept x y
      then append_point {| dp_x := x; dp_y := y; dp_label := l; dp_color := c |} g
      else g.
Proof.
  unfold addPoints, kept, py_not. destruct (truthy x), (truthy y); reflexivity.
Qed.

Lemma len_addPoints (x y l c : pyval) (g : GraphData) :
  len (addPoints x y l c g) = bump (kept x y) (len g).
Proof.
  rewrite addPoints_kept. unfold bump, len.
  destruct (kept x y); simpl; [|reflexivity].
  rewrite length_app. simpl. lia.
Qed.

Lemma x_values_addPoints (x y l c : pyval) (g : GraphData) :
  x_values (addPoints x y l c g) = push (kept x y) x (x_values g).
Proof.
  rewrite addPoints_kept. unfold push, x_values.
  destruct (kept x y); simpl; [|reflexivity].
  rewrite map_app. reflexivity.
Qed.

Lemma sizes_alter_addPoints (k : string) (x y l c : pyval) (d : gmap string GraphData) :
  sizes (alter (addPoints x y l c) k d) = alter (bump (kept x y)) k (sizes d).
Proof. unfold sizes. apply fmap_alter. intros g _. apply len_addPoints. Qed.

Lemma x_sequences_alter_addPoints (k : string) (x y l c : pyval)
    (d : gmap string GraphData) :
  x_sequences (alter (addPoints x y l c) k d)
    = alter (push (kept x y) x) k (x_sequences d).
Proof. unfold x_sequences. apply fmap_alter. intros g _. apply x_values_addPoints. Qed.

Lemma truthy_number (v : pyval) (x : Qc) :
  num_of v = Some x -> truthy v = negb (Qc_eqb x 0).
Proof.
  destruct v as [|z|q| | |s]; simpl; intros E; try discriminate.
  - injection E as <-. f_equal.
    destruct (Z.eqb_spec z 0) as [-> | Hz]; [reflexivity|].
    symmetry. apply Qc_eqb_false, Qc_of_Z_neq_0, Hz.
  - injection E as <-. reflexivity.
Qed.

Lemma truthy_scaled (v r : pyval) (c : Qc) :
  c <> 0%Qc -> py_mul v (PFloat c) = Ok r -> truthy r = truthy v.
Proof.
  intros Hc Hr. apply Qc_eqb_false in Hc as Hc'.
  assert (Hfin : forall x, num_of v = Some x -> r = PFloat (fl (x * c)) ->
            truthy r = truthy v).
  { intros x Hx ->. rewrite (truthy_number v x Hx). simpl. f_equal.
    destruct (decide (x = 0%Qc)) as [-> | Hx0].
    - rewrite fl_mul_0. reflexivity.
    - apply Qc_eqb_false in Hx0 as Hx0'. rewrite Hx0'.
      apply Qc_eqb_false, fl_neq_0, Qcmult_neq_0; assumption. }
  unfold py_mul in Hr. destruct v as [|z|q|neg| |s]; simpl in Hr;
    try discriminate; injection Hr as <-.
  - apply (Hfin (Qc_of_Z z)); reflexivity.
  - apply (Hfin q); reflexivity.
  - rewrite Hc'. reflexivity.
  - reflexivity.
Qed.

Lemma truthy_km2miles (v r : pyval) : km2miles v = Ok r -> truthy r = truthy v.
Proof.
  unfold km2miles.
  destruct v; [intros [= <-]; reflexivity | ..];
    apply truthy_scaled, miles_per_km_neq_0.
Qed.

Lemma truthy_m2feet (v r : pyval) : m2feet v = Ok r -> truthy r = truthy v.
Proof.
  unfold m2feet.
  destruct v; [intros [= <-]; reflexivity | ..];
    apply truthy_scaled, feet_per_metre_neq_0.
Qed.

Lemma truthy_pacekm2miles (v r : pyval) :
  pacekm2miles v = Ok r -> truthy r = truthy v.
Proof.
  unfold pacekm2miles. intros Hr0.
  destruct (decide (v = PNone)) as [-> | Hn].
  { injection Hr0 as <-. reflexivity. }
  assert (Hr : py_div v (PFloat miles_per_km) = Ok r)
    by (destruct v; [contradiction | ..]; exact Hr0).
  clear Hr0.
  pose proof miles_per_km_neq_0 as Hc. apply Qc_eqb_false in Hc as Hc'.
  destruct (num_of v) as [x|] eqn:Hx.
  - rewrite (py_div_float v x) in Hr by assumption.
    injection Hr as <-. rewrite (truthy_number v x Hx). simpl. f_equal.
    destruct (decide (x = 0%Qc)) as [-> | Hx0].
    + rewrite fl_div_0. reflexivity.
    + apply Qc_eqb_false in Hx0 as Hx0'. rewrite Hx0'.
      apply Qc_eqb_false, fl_neq_0, Qcdiv_neq_0; assumption.
  - unfold py_div in Hr. destruct v as [|z|q|neg| |s]; simpl in Hx, Hr;
      try discriminate; try rewrite Hc' in Hr; injection Hr as <-; reflexivity.
Qed.

(** One point, processed in the two systems, leaves the two runs in the
    same shape. *)
Lemma point_step_same_shape (limit maxhr : pyval) (track : trkpoint)
    (s1 s2 s1' s2' : series) :
  same_shape s1 s2 ->
  point_step false limit maxhr track s1 = Ok s1' ->
  point_step true limit maxhr track s2 = Ok s2' ->
  same_shape s1' s2'.
Proof.
  intros [Hd Ht] H1 H2. unfold point_step in H1, H2.
  rewrite bind_Ok in H1. injection H1 as <-.
  destruct (km2miles (elapsed_distance track)) as [xd|] eqn:Exd; [|discriminate H2].
  rewrite bind_Ok in H2.
  destruct (m2feet (ele track)) as [e|] eqn:Ee; [|discriminate H2].
  rewrite bind_Ok in H2.
  destruct (m2feet (correctedElevation track)) as [ce|] eqn:Ece; [|discriminate H2].
  rewrite bind_Ok in H2.
  destruct (km2miles (velocity track)) as [v|] eqn:Ev; [|discriminate H2].
  rewrite bind_Ok in H2.
  destruct (pacekm2miles (point_pace limit track)) as [p|] eqn:Ep; [|discriminate H2].
  rewrite !bind_Ok in H2. injection H2 as <-.
  apply truthy_km2miles in Exd, Ev. apply truthy_m2feet in Ee, Ece.
  apply truthy_pacekm2miles in Ep.
  unfold same_shape, add_to. simpl.
  rewrite !sizes_alter_addPoints, !x_sequences_alter_addPoints.
  unfold kept. rewrite Exd, Ee, Ece, Ev, Ep, Hd, Ht. split; reflexivity.
Qed.

Lemma for_each_point_step_same_shape (limit maxhr : pyval) (tl : list trkpoint) :
  forall s1 s2 s1' s2',
    same_shape s1 s2 ->
    for_each (point_step false limit maxhr) tl s1 = Ok s1' ->
    for_each (point_step true limit maxhr) tl s2 = Ok s2' ->
    same_shape s1' s2'.
Proof.
  induction tl as [|track tl IH]; cbn [for_each]; intros s1 s2 s1' s2' Hs H1 H2.
  - injection H1 as <-. injection H2 as <-. exact Hs.
  - destruct (point_step false limit maxhr track s1) as [t1|] eqn:E1;
      [|discriminate H1].
    destruct (point_step true limit maxhr track s2) as [t2|] eqn:E2;
      [|discriminate H2].
    rewrite bind_Ok in H1, H2.
    exact (IH _ _ _ _ (point_step_same_shape _ _ _ _ _ _ _ Hs E1 E2) H1 H2).
Qed.

Lemma sizes_remove_empty (d : gmap string GraphData) (k : string) :
  sizes (remove_empty d) !! k = keep_nonempty (fun n => n) (sizes d !! k).
Proof.
  unfold sizes. rewrite !lookup_fmap, remove_empty_lookup.
  destruct (d !! k) as [g|]; simpl; [|reflexivity].
  destruct (Nat.eqb (len g) 0); reflexivity.
Qed.

Lemma x_sequences_remove_empty (d : gmap string GraphData) (k : string) :
  x_sequences (remove_empty d) !! k
    = keep_nonempty (@length pyval) (x_sequences d !! k).
Proof.
  unfold x_sequences. rewrite !lookup_fmap, remove_empty_lookup.
  destruct (d !! k) as [g|]; simpl; [|reflexivity].
  unfold x_values at 2. rewrite length_map. fold (len g).
  destruct (Nat.eqb (len g) 0); reflexivity.
Qed.

Lemma remove_empty_same_shape (s1 s2 : series) :
  same_shape s1 s2 ->
  same_shape
    {| by_distance := remove_empty (by_distance s1);
       by_time := remove_empty (by_time s1) |}
    {| by_distance := remove_empty (by_distance s2);
       by_time := remove_empty (by_time s2) |}.
Proof.
  intros [Hd Ht]. split; simpl; apply map_eq; intros k.
  - rewrite !sizes_remove_empty, Hd. reflexivity.
  - rewrite !x_sequences_remove_empty, Ht. reflexivity.
Qed.

Lemma foldl_zone_step_same_shape (zs : list zone) :
  forall s1 s2, same_shape s1 s2 ->
    same_shape (foldl (fun s z => zone_step z s) s1 zs)
               (foldl (fun s z => zone_step z s) s2 zs).
Proof.
  induction zs as [|z zs IH]; simpl; intros s1 s2 Hs; [exact Hs|].
  apply IH. destruct Hs as [Hd Ht]. unfold same_shape, zone_step. simpl.
  rewrite !sizes_alter_addPoints, !x_sequences_alter_addPoints, Hd, Ht.
  split; reflexivity.
Qed.

Lemma add_hr_zones_same_shape (a1 a2 : Activity) (zs : list zone) (s1 s2 : series) :
  same_shape s1 s2 ->
  same_shape (add_hr_zones a1 zs s1) (add_hr_zones a2 zs s2).
Proof.
  intros Hs. unfold add_hr_zones.
  assert (Hhr : is_Some (by_distance s1 !! "hr") <-> is_Some (by_distance s2 !! "hr")).
  { destruct Hs as [Hd _]. unfold sizes in Hd.
    rewrite <- !(fmap_is_Some len), <- !lookup_fmap, Hd. reflexivity. }
  destruct (by_distance s1 !! "hr") as [g1|], (by_distance s2 !! "hr") as [g2|].
  - apply foldl_zone_step_same_shape. destruct Hs as [Hd Ht].
    unfold same_shape, sizes, x_sequences in *. simpl.
    rewrite !fmap_insert, Hd, Ht. split; reflexivity.
  - exfalso. destruct Hhr as [Hhr _]. destruct Hhr as [? ?]; [eauto|discriminate].
  - exfalso. destruct Hhr as [_ Hhr]. destruct Hhr as [? ?]; [eauto|discriminate].
  - exact Hs.
Qed.

Lemma new_point_series_shape (a1 a2 : Activity) (xl1 xl2 : pyval)
    (d1 d2 : gmap string GraphData) :
  (sizes d1 = sizes d2 ->
   sizes (new_point_series a1 xl1 d1) = sizes (new_point_series a2 xl2 d2))
  /\ (x_sequences d1 = x_sequences d2 ->
      x_sequences (new_point_series a1 xl1 d1)
        = x_sequences (new_point_series a2 xl2 d2)).
Proof.
  unfold new_point_series, sizes, x_sequences.
  split; intros Hd; rewrite !fmap_insert, Hd; reflexivity.
Qed.

(** Series generation for the same track list in the two systems. *)
Lemma point_series_same_shape `{Externals} (main : pytrainer_main) (a : Activity)
    (tl : list trkpoint) (s1 s2 : series) :
  point_series main (with_us_system false a) tl = Ok s1 ->
  point_series main (with_us_system true a) tl = Ok s2 ->
  same_shape s1 s2.
Proof.
  unfold point_series. simpl. intros H1 H2.
  destruct (for_each (point_step false _ _) tl _) as [t1|] eqn:E1; [|discriminate H1].
  destruct (for_each (point_step true _ _) tl _) as [t2|] eqn:E2; [|discriminate H2].
  rewrite bind_Ok in H1, H2. injection H1 as <-. injection H2 as <-.
  apply add_hr_zones_same_shape, remove_empty_same_shape.
  eapply for_each_point_step_same_shape; [|exact E1|exact E2].
  split; simpl; apply new_point_series_shape; reflexivity.
Qed.

Lemma point_step_metric_returns (limit maxhr : pyval) (track : trkpoint) (s : series) :
  exists s', point_step false limit maxhr track s = Ok s'.
Proof. unfold point_step. rewrite !bind_Ok. eauto. Qed.

Lemma for_each_point_step_metric_returns (limit maxhr : pyval) (tl : list trkpoint) :
  forall s, exists s', for_each (point_step false limit maxhr) tl s = Ok s'.
Proof.
  induction tl as [|track tl IH]; intros s; cbn [for_each]; [eauto|].
  destruct (point_step_metric_returns limit maxhr track s) as [s1 ->].
  rewrite bind_Ok. apply IH.
Qed.

(** In the metric system series generation raises nothing. *)
Lemma _init_graph_data_metric_returns `{Externals} (main : pytrainer_main)
    (a : Activity) :
  us_system a = false -> exists a', _init_graph_data main a = Ok a'.
Proof.
  intros Hus. unfold _init_graph_data, point_series.
  destruct (tracklist a) as [tl|]; [|eauto]. rewrite Hus.
  match goal with
  | |- context [for_each ?f tl ?s] =>
      destruct (for_each_point_step_metric_returns (pace_limit a) (getMaxHR main) tl s)
        as [s' ->]
  end.
  rewrite !bind_Ok. eauto.
Qed.

Lemma to_x_of_x (x : xfloat) : to_x (of_x x) = Some x.
Proof. destruct x; reflexivity. Qed.

Lemma number_py_div (a b r : pyval) : py_div a b = Ok r -> is_Some (to_x r).
Proof.
  unfold py_div. intros Hr.
  assert (Hgen : forall c, on_result of_x c = Ok r -> is_Some (to_x r)).
  { intros [x|e] Hc; [|discriminate Hc]. injection Hc as <-.
    rewrite to_x_of_x. eauto. }
  destruct a as [|za|qa|na| |sa], b as [|zb|qb|nb| |sb]; cbn [to_x] in Hr;
    try discriminate Hr; try exact (Hgen _ Hr).
  destruct (zb =? 0); [discriminate Hr|]. injection Hr as <-. simpl. eauto.
Qed.

Lemma number_point_pace (limit : pyval) (track : trkpoint) :
  is_Some (to_x (point_pace limit track)).
Proof.
  unfold point_pace.
  destruct (py_div (PInt 60) (velocity track)) as [p|] eqn:Hp; simpl; [|eauto].
  destruct (negb (bool_decide (limit = PNone)) && py_gt p limit)%bool; simpl; [eauto|].
  exact (number_py_div _ _ _ Hp).
Qed.

Lemma km2miles_returns (v : pyval) : is_Some (num_of v) -> exists r, km2miles v = Ok r.
Proof. intros [x Hx]. rewrite (km2miles_number v x Hx). eauto. Qed.

Lemma m2feet_returns (v : pyval) : is_Some (num_of v) -> exists r, m2feet v = Ok r.
Proof.
  intros [x Hx]. unfold m2feet, py_mul.
  destruct v; simpl in *; try discriminate; eauto.
Qed.

Lemma pacekm2miles_returns (v : pyval) :
  is_Some (to_x v) -> exists r, pacekm2miles v = Ok r.
Proof.
  intros [x Hx]. unfold pacekm2miles, py_div.
  pose proof miles_per_km_neq_0 as Hc. apply Qc_eqb_false in Hc.
  destruct v as [|z|q|neg| |s]; cbn [to_x] in *; try discriminate;
    unfold xdiv; rewrite Hc; simpl; eauto.
Qed.

Lemma number_of_finite (v : pyval) : is_Some (num_of v) -> is_Some (to_x v).
Proof. intros [x Hx]. destruct v; simpl in *; try discriminate; eauto. Qed.

Lemma point_step_imperial_returns (limit maxhr : pyval) (track : trkpoint) (s : series) :
  numeric_point track ->
  exists s', point_step true limit maxhr track s = Ok s'.
Proof.
  intros (Hd & He & Hc & Hv). unfold point_step.
  destruct (km2miles_returns _ Hd) as [xd ->]. rewrite bind_Ok.
  destruct (m2feet_returns _ He) as [e ->]. rewrite bind_Ok.
  destruct (m2feet_returns _ Hc) as [ce ->]. rewrite bind_Ok.
  destruct (km2miles_returns _ Hv) as [v ->]. rewrite bind_Ok.
  destruct (pacekm2miles_returns _ (number_point_pace limit track)) as [p ->].
  rewrite !bind_Ok. eauto.
Qed.

Lemma for_each_point_step_returns (us : bool) (limit maxhr : pyval)
    (tl : list trkpoint) :
  (us = true -> Forall numeric_point tl) ->
  forall s, exists s', for_each (point_step us limit maxhr) tl s = Ok s'.
Proof.
  induction tl as [|track tl IH]; intros Hn s; cbn [for_each]; [eauto|].
  assert (H1 : exists s1, point_step us limit maxhr track s = Ok s1).
  { destruct us.
    - apply point_step_imperial_returns.
      specialize (Hn eq_refl). apply Forall_cons in Hn as [Hn _]. exact Hn.
    - apply point_step_metric_returns. }
  destruct H1 as [s1 ->]. rewrite bind_Ok. apply IH.
  intros Hus. specialize (Hn Hus). apply Forall_cons in Hn as [_ Hn]. exact Hn.
Qed.

(** Series generation returns whenever, in the imperial system, the
    converted entries of the points are numbers. *)
Lemma _init_graph_data_returns `{Externals} (main : pytrainer_main) (a : Activity) :
  (us_system a = true ->
   forall tl, tracklist a = Some tl -> Forall numeric_point tl) ->
  exists a', _init_graph_data main a = Ok a'.
Proof.
  intros Hn. unfold _init_graph_data, point_series.
  destruct (tracklist a) as [tl|] eqn:Htl; [|eauto].
  match goal with
  | |- context [for_each ?f tl ?s] =>
      destruct (for_each_point_step_returns (us_system a) (pace_limit a)
                  (getMaxHR main) tl (fun Hus => Hn Hus tl eq_refl) s) as [s' ->]
  end.
  rewrite !bind_Ok. eauto.
Qed.

Lemma times_of_add_to (tl : list trkpoint) (d : gmap string GraphData)
    (key : string) (t : trkpoint) (y : pyval) :
  times_of tl d -> t ∈ tl -> times_of tl (add_to key (time_elapsed t) y d).
Proof.
  intros Hd Ht k g x Hg Hx. unfold add_to in Hg.
  rewrite lookup_alter in Hg. destruct (decide (key = k)) as [-> | Hne].
  - destruct (d !! k) as [g0|] eqn:Hg0; simpl in Hg; [|discriminate].
    injection Hg as <-. rewrite x_values_addPoints in Hx. unfold push in Hx.
    destruct (kept (time_elapsed t) y); [|exact (Hd _ _ _ Hg0 Hx)].
    apply elem_of_app in Hx as [Hx | Hx]; [exact (Hd _ _ _ Hg0 Hx)|].
    apply list_elem_of_singleton in Hx. eauto.
  - exact (Hd _ _ _ Hg Hx).
Qed.

Lemma point_step_times (tl : list trkpoint) (us : bool) (limit maxhr : pyval)
    (t : trkpoint) (s s' : series) :
  times_of tl (by_time s) -> t ∈ tl ->
  point_step us limit maxhr t s = Ok s' ->
  times_of tl (by_time s').
Proof.
  intros Hs Ht Hstep. unfold point_step in Hstep. destruct us.
  - destruct (km2miles (elapsed_distance t)) as [xd|]; [|discriminate Hstep].
    rewrite bind_Ok in Hstep.
    destruct (m2feet (ele t)) as [e|]; [|discriminate Hstep].
    rewrite bind_Ok in Hstep.
    destruct (m2feet (correctedElevation t)) as [ce|]; [|discriminate Hstep].
    rewrite bind_Ok in Hstep.
    destruct (km2miles (velocity t)) as [v|]; [|discriminate Hstep].
    rewrite bind_Ok in Hstep.
    destruct (pacekm2miles (point_pace limit t)) as [p|]; [|discriminate Hstep].
    rewrite !bind_Ok in Hstep. injection Hstep as <-. simpl.
    repeat apply times_of_add_to; assumption.
  - rewrite bind_Ok in Hstep. injection Hstep as <-. simpl.
    repeat apply times_of_add_to; assumption.
Qed.

Lemma for_each_point_step_times (tl : list trkpoint) (us : bool)
    (limit maxhr : pyval) (l : list trkpoint) :
  (forall t, t ∈ l -> t ∈ tl) ->
  forall s s', times_of tl (by_time s) ->
    for_each (point_step us limit maxhr) l s = Ok s' ->
    times_of tl (by_time s').
Proof.
  induction l as [|t l IH]; cbn [for_each]; intros Hl s s' Hs Hloop.
  - injection Hloop as <-. exact Hs.
  - destruct (point_step us limit maxhr t s) as [s1|] eqn:E1; [|discriminate Hloop].
    rewrite bind_Ok in Hloop.
    apply (IH (fun t' Ht' => Hl t' (list_elem_of_further _ _ _ Ht')) s1 s');
      [|exact Hloop].
    apply (point_step_times tl us limit maxhr t s s1 Hs); [|exact E1].
    apply Hl. left.
Qed.

Lemma times_of_insert_new (tl : list trkpoint) (d : gmap string GraphData)
    (key : string) (g : GraphData) :
  points g = [] -> times_of tl d -> times_of tl (<[key := g]> d).
Proof.
  intros Hg Hd k g' x Hl Hx. rewrite lookup_insert in Hl.
  destruct (decide (key = k)) as [-> | Hne].
  - injection Hl as <-. unfold x_values in Hx. rewrite Hg in Hx.
    apply elem_of_nil in Hx. contradiction.
  - exact (Hd _ _ _ Hl Hx).
Qed.

Lemma times_of_new_point_series (tl : list trkpoint) (a : Activity) (xl : pyval)
    (d : gmap string GraphData) :
  times_of tl d -> times_of tl (new_point_series a xl d).
Proof.
  intros Hd. unfold new_point_series.
  repeat (apply times_of_insert_new; [reflexivity|]). exact Hd.
Qed.

Lemma times_of_remove_empty (tl : list trkpoint) (d : gmap string GraphData) :
  times_of tl d -> times_of tl (remove_empty d).
Proof.
  intros Hd k g x Hg Hx. rewrite remove_empty_lookup in Hg.
  apply keep_nonempty_Some in Hg as [Hg _]. exact (Hd _ _ _ Hg Hx).
Qed.

(** The x-values of the series by time, other than the zones, are
    [time_elapsed] entries of the track list, in both systems. *)
Lemma point_series_times `{Externals} (main : pytrainer_main) (a : Activity)
    (tl : list trkpoint) (s : series) :
  times_of tl (time_data a) ->
  point_series main a tl = Ok s ->
  forall k g x, k <> "hr_z" -> by_time s !! k = Some g -> x ∈ x_values g ->
    exists t, t ∈ tl /\ x = time_elapsed t.
Proof.
  unfold point_series. intros Ha Hs k g x Hk Hg Hx.
  destruct (for_each _ tl _) as [s0|] eqn:Hloop; [|discriminate Hs].
  rewrite bind_Ok in Hs. injection Hs as <-.
  destruct (add_hr_zones_lookup a (getZones main)
              {| by_distance := remove_empty (by_distance s0);
                 by_time := remove_empty (by_time s0) |} k Hk) as [_ Ht].
  rewrite Ht in Hg. simpl in Hg.
  apply (times_of_remove_empty tl (by_time s0)) with (k := k) (g := g);
    [|exact Hg|exact Hx].
  eapply for_each_point_step_times; [|
    |exact Hloop]; [auto|].
  simpl. apply times_of_new_point_series, Ha.
Qed.

(** *** The steps before series generation do not read the system *)

Lemma fresh_in_system (u : pyval) (main : pytrainer_main) (self_id : pyval) :
  fresh (in_system u main) self_id
    = with_us_system (py_eq u (PStr "True")) (fresh main self_id).
Proof. reflexivity. Qed.

Lemma _init_from_gpx_file_with_us `{Externals} (g : Gpx) (b : bool) (a : Activity) :
  _init_from_gpx_file g (with_us_system b a)
    = on_result (with_us_system b) (_init_from_gpx_file g a).
Proof.
  unfold _init_from_gpx_file. simpl.
  destruct (Qc_ltb (Qc_of_Z 4) (fl (total_time_trkpts g - total_time g))); reflexivity.
Qed.

Lemma populate_with_us `{Externals} (row : DbRow.t) (b : bool) (a : Activity) :
  populate row (with_us_system b a) = on_result (with_us_system b) (populate row a).
Proof.
  unfold populate. simpl.
  destruct (decide (DbRow.date_time_local row = PNone)).
  - destruct (dateutil_parse (DbRow.date_time_utc row)) as [d|]; [|reflexivity].
    cbn [bind]. destruct (astimezone_tzlocal d) as [d'|]; [|reflexivity].
    cbn [bind]. destruct (strftime_X d'); reflexivity.
  - destruct (dateutil_parse (DbRow.date_time_local row)) as [d|]; [|reflexivity].
    cbn [bind]. destruct (strftime_X d); reflexivity.
Qed.

Lemma _init_from_db_with_us `{Externals} (u : pyval) (main : pytrainer_main)
    (b : bool) (a : Activity) :
  _init_from_db (in_system u main) (with_us_system b a)
    = on_result (fun r => (with_us_system b r.1, r.2)) (_init_from_db main a).
Proof.
  unfold _init_from_db. simpl.
  destruct (select_result main) as [|row [|row' rows]]; try reflexivity.
  rewrite populate_with_us.
  destruct (populate row a) as [a1|]; [|reflexivity]. simpl.
  destruct (no_laps (select_dict_result main)); [|reflexivity].
  destruct (percent_d (id a1)); [|reflexivity]. simpl.
  destruct (has_gpx_file a1); [|reflexivity].
  destruct (gpx main); reflexivity.
Qed.

Lemma _init_graph_data_in_system `{Externals} (u : pyval) (main : pytrainer_main)
    (a : Activity) :
  _init_graph_data (in_system u main) a = _init_graph_data main a.
Proof. reflexivity. Qed.

(** *** The series per lap *)

Lemma x_sequences_alter_addBars (k : string) (x y : pyval) (d : gmap string GraphData) :
  x_sequences (alter (addBars x y) k d)
    = alter (fun l => (l ++ [x])%list) k (x_sequences d).
Proof.
  unfold x_sequences. apply fmap_alter. intros g _.
  unfold x_values, addBars. simpl. apply map_app.
Qed.

Lemma lap_step_time_axis (us1 us2 : bool) (limit : pyval) (lap : Lap.t)
    (s1 s2 s1' s2' : lap_graphs) :
  x_sequences (lg_time_data s1) = x_sequences (lg_time_data s2) ->
  lap_step us1 limit lap s1 = Ok s1' ->
  lap_step us2 limit lap s2 = Ok s2' ->
  x_sequences (lg_time_data s1') = x_sequences (lg_time_data s2').
Proof.
  intros Ht H1 H2. unfold lap_step in H1, H2.
  destruct (lap_seconds lap) as [time|]; [|discriminate H1].
  rewrite bind_Ok in H1, H2.
  destruct (lap_km lap) as [dist|]; [|discriminate H1].
  rewrite bind_Ok in H1, H2.
  destruct (lap_pace time dist) as [pace|]; [|discriminate H1].
  rewrite bind_Ok in H1, H2.
  destruct us1, us2; returned H1; returned H2; subst s1' s2'; simpl;
    unfold bar_to; rewrite !x_sequences_alter_addBars, Ht; reflexivity.
Qed.

Lemma for_each_lap_step_time_axis (us1 us2 : bool) (limit : pyval) (ls : list Lap.t) :
  forall s1 s2 s1' s2',
    x_sequences (lg_time_data s1) = x_sequences (lg_time_data s2) ->
    for_each (lap_step us1 limit) ls s1 = Ok s1' ->
    for_each (lap_step us2 limit) ls s2 = Ok s2' ->
    x_sequences (lg_time_data s1') = x_sequences (lg_time_data s2').
Proof.
  induction ls as [|lap ls IH]; cbn [for_each]; intros s1 s2 s1' s2' Ht H1 H2.
  - injection H1 as <-. injection H2 as <-. exact Ht.
  - destruct (lap_step us1 limit lap s1) as [t1|] eqn:E1; [|discriminate H1].
    destruct (lap_step us2 limit lap s2) as [t2|] eqn:E2; [|discriminate H2].
    rewrite bind_Ok in H1, H2.
    exact (IH _ _ _ _ (lap_step_time_axis _ _ _ _ _ _ _ _ Ht E1 E2) H1 H2).
Qed.

Lemma _generate_per_lap_graphs_time_axis (a1 a2 a1' a2' : Activity) :
  laps a1 = laps a2 -> pace_limit a1 = pace_limit a2 ->
  x_sequences (time_data a1) = x_sequences (time_data a2) ->
  _generate_per_lap_graphs a1 = Ok a1' ->
  _generate_per_lap_graphs a2 = Ok a2' ->
  x_sequences (time_data a1') = x_sequences (time_data a2').
Proof.
  unfold _generate_per_lap_graphs. intros Hl Hp Ht H1 H2.
  rewrite <- Hl, <- Hp in H2.
  destruct (laps a1) as [ls|].
  - destruct (for_each (lap_step (us_system a1) _) ls _) as [t1|] eqn:E1;
      [|discriminate H1].
    destruct (for_each (lap_step (us_system a2) _) ls _) as [t2|] eqn:E2;
      [|discriminate H2].
    rewrite bind_Ok in H1, H2. injection H1 as <-. injection H2 as <-. simpl.
    eapply for_each_lap_step_time_axis; [|exact E1|exact E2].
    unfold new_lap_graphs, x_sequences in *. simpl.
    rewrite !fmap_insert, Ht. reflexivity.
  - injection H1 as <-. injection H2 as <-. exact Ht.
Qed.

(** *** The two runs *)

Lemma _init_graph_data_time_axis `{Externals} (main : pytrainer_main)
    (a a1 a2 : Activity) :
  _init_graph_data main (with_us_system false a) = Ok a1 ->
  _init_graph_data main (with_us_system true a) = Ok a2 ->
  x_sequences (time_data a1) = x_sequences (time_data a2).
Proof.
  unfold _init_graph_data. simpl. intros H1 H2.
  destruct (tracklist a) as [tl|].
  - destruct (point_series main (with_us_system false a) tl) as [s1|] eqn:E1;
      [|discriminate H1].
    destruct (point_series main (with_us_system true a) tl) as [s2|] eqn:E2;
      [|discriminate H2].
    rewrite bind_Ok in H1, H2. injection H1 as <-. injection H2 as <-. simpl.
    exact (proj2 (point_series_same_shape main a tl s1 s2 E1 E2)).
  - injection H1 as <-. injection H2 as <-. reflexivity.
Qed.

Lemma __init___time_axis `{Externals} (main : pytrainer_main) (self_id : pyval)
    (a1 a2 : Activity) (log1 log2 : list Lap.t) :
  __init__ (Some (in_system (PStr "False") main)) self_id = Ok (Populated a1, log1) ->
  __init__ (Some (in_system (PStr "True") main)) self_id = Ok (Populated a2, log2) ->
  x_sequences (time_data a1) = x_sequences (time_data a2).
Proof.
  intros H1 H2.
  destruct (__init___steps _ _ _ _ H1) as (b1 & r1 & c1 & G1 & D1 & S1 & L1 & _).
  destruct (__init___steps _ _ _ _ H2) as (b2 & r2 & c2 & G2 & D2 & S2 & L2 & _).
  clear H1 H2. simpl gpx in G1, G2. rewrite fresh_in_system in G1, G2.
  change (py_eq (PStr "False") (PStr "True")) with false in G1.
  change (py_eq (PStr "True") (PStr "True")) with true in G2.
  assert (Hb : exists b, b1 = with_us_system false b /\ b2 = with_us_system true b).
  { destruct (gpx main) as [g|].
    - rewrite _init_from_gpx_file_with_us in G1, G2.
      destruct (_init_from_gpx_file g (fresh main self_id)) as [b|];
        [|discriminate G1].
      simpl in G1, G2. exists b. split; congruence.
    - exists (fresh main self_id). split; congruence. }
  destruct Hb as (b & -> & ->).
  rewrite _init_from_db_with_us in D1, D2.
  destruct (_init_from_db main b) as [[c l]|]; [|discriminate D1].
  simpl in D1, D2. injection D1 as <-. injection D2 as <-.
  simpl in S1, S2. rewrite _init_graph_data_in_system in S1, S2.
  destruct (_init_graph_data_frame _ _ _ S1) as (_ & _ & Hl1 & _ & Hp1 & _).
  destruct (_init_graph_data_frame _ _ _ S2) as (_ & _ & Hl2 & _ & Hp2 & _).
  eapply _generate_per_lap_graphs_time_axis; [| |
    exact (_init_graph_data_time_axis main c c1 c2 S1 S2) | exact L1 | exact L2].
  - rewrite Hl1, Hl2. reflexivity.
  - rewrite Hp1, Hp2. reflexivity.
Qed.

(** C9.  The x-value appended to a series by time is the [time_elapsed]
    of the point, unconverted, in both systems; and two runs on the same
    input, one metric and one imperial, give the same sequence of
    x-values in every series by time: for series generation alone and
    for the whole construction (the series per lap and the zones
    included).  The metric run always returns; the imperial one returns
    when the converted entries of the points are numbers. *)
Theorem time_axis_independent_of_units `{Externals} (main : pytrainer_main)
    (self_id : pyval) :
  (forall a a1 a2,
      _init_graph_data main (with_us_system false a) = Ok a1 ->
      _init_graph_data main (with_us_system true a) = Ok a2 ->
      x_sequences (time_data a1) = x_sequences (time_data a2))
  /\ (forall a1 a2 log1 log2,
        __init__ (Some (in_system (PStr "False") main)) self_id
          = Ok (Populated a1, log1) ->
        __init__ (Some (in_system (PStr "True") main)) self_id
          = Ok (Populated a2, log2) ->
        x_sequences (time_data a1) = x_sequences (time_data a2))
  /\ (forall a a' tl,
        tracklist a = Some tl -> time_data a = ∅ ->
        _init_graph_data main a = Ok a' ->
        forall k g x,
          k <> "hr_z" -> time_data a' !! k = Some g -> x ∈ x_values g ->
          exists t, t ∈ tl /\ x = time_elapsed t)
  /\ (forall a,
        (us_system a = true ->
         forall tl, tracklist a = Some tl -> Forall numeric_point tl) ->
        exists a', _init_graph_data main a = Ok a').
Proof.
  split; [|split; [|split]].
  - intros a a1 a2. apply _init_graph_data_time_axis.
  - intros a1 a2 log1 log2. apply __init___time_axis.
  - intros a a' tl Htl Hempty Hg k g x Hk Hl Hx.
    unfold _init_graph_data in Hg. rewrite Htl in Hg.
    destruct (point_series main a tl) as [s|] eqn:Hs; [|discriminate Hg].
    rewrite bind_Ok in Hg. injection Hg as <-. simpl in Hl.
    apply (point_series_times main a tl s) with (k := k) (g := g); try assumption.
    rewrite Hempty. intros k' g' x' Hl'. rewrite lookup_empty in Hl'. discriminate.
  - intros a. apply _init_graph_data_returns.
Qed.

Lemma time_axis_independent_of_units_witness :
  exists a1 a2 log1 log2,
    __init__ (H := sample_externals) (Some (sample_with_gpx "False" 3598 3600)) (PInt 7)
      = Ok (Populated a1, log1)
    /\ __init__ (H := sample_externals) (Some (sample_with_gpx "True" 3598 3600)) (PInt 7)
      = Ok (Populated a2, log2)
    /\ x_sequences (time_data a1) = x_sequences (time_data a2)
    /\ x_sequences (time_data a1) !! "elevation" = Some [PInt 1800; PInt 3600].
Proof.
  eexists _, _, _, _.
  split; [vm_compute; reflexivity|]. split; [vm_compute; reflexivity|].
  split; [|vm_compute; reflexivity].
  destruct (time_axis_independent_of_units (H := sample_externals)
              (sample_with_gpx "False" 3598 3600) (PInt 7)) as (_ & Hruns & _).
  eapply Hruns; vm_compute; reflexivity.
Defined.

(** ** C1: the row of the activity *)

Lemma py_div_numbers (a b : pyval) :
  is_Some (num_of a) -> is_Some (num_of b) ->
  py_div a b = Raise ZeroDivisionError
  \/ exists r, py_div a b = Ok r /\ is_Some (num_of r).
Proof.
  intros [x Hx] [y Hy]. unfold py_div.
  destruct a as [|za|qa| | |], b as [|zb|qb| | |]; simpl in *; try discriminate.
  - destruct (zb =? 0); [left; reflexivity | right; simpl; eauto].
  - destruct (Qc_eqb qb 0); [left; reflexivity | right; simpl; eauto].
  - destruct (Qc_eqb (Qc_of_Z zb) 0); [left; reflexivity | right; simpl; eauto].
  - destruct (Qc_eqb qb 0); [left; reflexivity | right; simpl; eauto].
Qed.

Lemma py_mul_numbers (a b : pyval) :
  is_Some (num_of a) -> is_Some (num_of b) ->
  exists r, py_mul a b = Ok r /\ is_Some (num_of r).
Proof.
  intros [x Hx] [y Hy]. unfold py_mul.
  destruct a as [|za|qa| | |], b as [|zb|qb| | |]; simpl in *; try discriminate;
    eexists; split; try reflexivity; simpl; eauto.
Qed.

Lemma lap_pace_returns (time dist : pyval) :
  is_Some (num_of time) -> is_Some (num_of dist) ->
  exists pace, lap_pace time dist = Ok pace /\ is_Some (num_of pace).
Proof.
  intros Ht Hd. unfold lap_pace.
  destruct (py_mul_numbers (PInt 60) dist) as (d60 & -> & Hd60); [simpl; eauto|exact Hd|].
  rewrite bind_Ok.
  destruct (py_div_numbers time d60 Ht Hd60) as [-> | (r & -> & Hr)].
  - exists (PFloat 0%Qc). split; [reflexivity | simpl; eauto].
  - exists r. split; [reflexivity | exact Hr].
Qed.

Lemma num_of_lap_avg_speed (time dist : pyval) :
  is_Some (num_of time) -> is_Some (num_of dist) ->
  is_Some (num_of (lap_avg_speed time dist)).
Proof.
  intros Ht Hd. unfold lap_avg_speed.
  destruct (py_div_numbers time (PInt 3600) Ht) as [-> | (h & -> & Hh)];
    [simpl; eauto | simpl; eauto |].
  rewrite bind_Ok.
  destruct (py_div_numbers dist h Hd Hh) as [-> | (r & -> & Hr)]; simpl; eauto.
Qed.

Lemma num_of_limit_lap_pace (limit pace : pyval) :
  is_Some (num_of pace) -> is_Some (num_of (limit_lap_pace limit pace)).
Proof.
  intros Hp. unfold limit_lap_pace.
  destruct (negb (bool_decide (limit = PNone)) && py_gt pace limit)%bool;
    simpl; eauto.
Qed.

(** A readable lap is graphed without an error, in either system. *)
Lemma lap_step_returns (us : bool) (limit : pyval) (lap : Lap.t) (s : lap_graphs) :
  readable_lap lap -> exists s', lap_step us limit lap s = Ok s'.
Proof.
  intros [(txt & spelled & Htxt & Ht) Hdist]. unfold lap_step.
  set (t := fl spelled).
  assert (Hsec : lap_seconds lap = Ok (PFloat t)).
  { unfold lap_seconds. rewrite Htxt. simpl. unfold float_text.
    rewrite Ht. reflexivity. }
  rewrite Hsec, bind_Ok.
  assert (Hkm : exists dist, lap_km lap = Ok dist /\ is_Some (num_of dist)).
  { unfold lap_km. destruct Hdist as [m Hm].
    destruct (Lap.distance lap) as [|z|q| | |]; simpl in Hm; try discriminate.
    - exists (PInt (z / 1000)). split; [reflexivity | simpl; eauto].
    - exists (PFloat (fl (q / Qc_of_Z 1000))). split; [|simpl; eauto].
      apply (py_div_of_float q (PInt 1000)); [reflexivity|].
      apply Qc_of_Z_neq_0. lia. }
  destruct Hkm as (dist & -> & Hd). rewrite bind_Ok.
  assert (Htime : is_Some (num_of (PFloat t))) by (simpl; eauto).
  destruct (lap_pace_returns (PFloat t) dist Htime Hd) as (pace & -> & Hp).
  rewrite bind_Ok.
  pose proof (num_of_limit_lap_pace limit pace Hp) as Hp'.
  pose proof (num_of_lap_avg_speed (PFloat t) dist Htime Hd) as Hv.
  destruct us; [|eauto].
  destruct (km2miles_returns _ Hd) as [d ->]. rewrite bind_Ok.
  destruct (pacekm2miles_returns _ (number_of_finite _ Hp')) as [p ->].
  rewrite bind_Ok.
  destruct (km2miles_returns _ Hv) as [v ->]. rewrite bind_Ok. eauto.
Qed.

Lemma for_each_lap_step_returns (us : bool) (limit : pyval) (ls : list Lap.t) :
  Forall readable_lap ls ->
  forall s, exists s', for_each (lap_step us limit) ls s = Ok s'.
Proof.
  induction ls as [|lap ls IH]; intros Hls s; cbn [for_each]; [eauto|].
  apply Forall_cons in Hls as [Hlap Hls].
  destruct (lap_step_returns us limit lap s Hlap) as [s1 ->].
  rewrite bind_Ok. apply IH, Hls.
Qed.

Lemma _generate_per_lap_graphs_returns (a : Activity) :
  (forall ls, laps a = Some ls -> Forall readable_lap ls) ->
  exists a', _generate_per_lap_graphs a = Ok a'.
Proof.
  intros Hls. unfold _generate_per_lap_graphs.
  destruct (laps a) as [ls|]; [|eauto].
  destruct (for_each_lap_step_returns (us_system a) (pace_limit a) ls
              (Hls ls eq_refl) (new_lap_graphs a)) as [s ->].
  rewrite bind_Ok. eauto.
Qed.

Lemma before_db_returns `{Externals} (main : pytrainer_main) (self_id : pyval) :
  exists a0,
    match gpx main with
    | Some g => _init_from_gpx_file g (fresh main self_id)
    | None => Ok (fresh main self_id)
    end = Ok a0
    /\ id a0 = self_id
    /\ has_gpx_file a0 = bool_decide (is_Some (gpx main))
    /\ us_system a0 = py_eq (prf_us_system main) (PStr "True")
    /\ tracklist a0 = trkpoints <$> gpx main.
Proof.
  destruct (gpx main) as [g|] eqn:Hg.
  - unfold _init_from_gpx_file. simpl.
    destruct (Qc_ltb (Qc_of_Z 4) (fl (total_time_trkpts g - total_time g)));
      eexists; (repeat split; try reflexivity); simpl; rewrite Hg; reflexivity.
  - eexists. (repeat split; try reflexivity); simpl; rewrite Hg; reflexivity.
Qed.

Lemma populate_returns `{Externals} (row : DbRow.t) (a : Activity) :
  timestamp_parses row -> exists a1, populate row a = Ok a1.
Proof.
  intros (d & start & Hd & Hstart). unfold populate. cbv zeta.
  rewrite Hd, bind_Ok, Hstart, bind_Ok. eauto.
Qed.

Lemma populate_laps `{Externals} (row : DbRow.t) (a a1 : Activity) :
  populate row a = Ok a1 -> laps a1 = laps a.
Proof. unfold populate. intros Hp. returned Hp; subst a1; reflexivity. Qed.

Lemma percent_d_number (v : pyval) : is_Some (num_of v) -> percent_d v = Ok tt.
Proof. intros [x Hx]. destruct v; simpl in *; try discriminate; reflexivity. Qed.

(** The load step returns for a single row whose timestamp can be read,
    and stores the laps to graph. *)
Lemma _init_from_db_returns `{Externals} (main : pytrainer_main) (a : Activity)
    (row : DbRow.t) :
  select_result main = [row] ->
  timestamp_parses row ->
  (no_laps (select_dict_result main) = true -> is_Some (num_of (id a))) ->
  has_gpx_file a = bool_decide (is_Some (gpx main)) ->
  exists r, _init_from_db main a = Ok r
    /\ laps r.1 = laps_to_graph main (id a).
Proof.
  intros Hsel Hts Hid Hgpx. unfold _init_from_db, laps_to_graph. rewrite Hsel.
  destruct (populate_returns row a Hts) as [a1 Ha1]. rewrite Ha1, bind_Ok.
  destruct (populate_frame _ _ _ Ha1) as (_ & Hid1 & Hg1 & _).
  rewrite Hid1, Hg1, Hgpx.
  destruct (no_laps (select_dict_result main)) eqn:Hno.
  - rewrite (percent_d_number _ (Hid eq_refl)), bind_Ok.
    destruct (gpx main) as [g|]; simpl.
    + eexists. split; [reflexivity|]. simpl. unfold _get_laps_from_gpx.
      rewrite Hid1. reflexivity.
    + eexists. split; reflexivity.
  - eexists. split; reflexivity.
Qed.

(** C1 (as amended).  For an identifier that is given:
    - when the query returns no row, or two or more, construction fails
      with the load error;
    - a construction that returns has found exactly one row and has set
      the has-data flag;
    - when the query returns exactly one row, construction returns, with
      the has-data flag set, provided that the timestamp of the row can
      be read (parsed, moved to the local time zone when it is the one
      in UTC, and formatted), that the identifier is a number if no lap
      is stored, that
      every lap to graph has the text of a number as elapsed time and a
      number as distance and that, in the imperial system, the converted
      entries of the track points are numbers. *)
Theorem load_by_row_count `{Externals} (main : pytrainer_main) (self_id : pyval) :
  self_id <> PNone ->
  (length (select_result main) <> 1%nat ->
     __init__ (Some main) self_id = Raise (InconsistentData self_id))
  /\ (forall a log,
        __init__ (Some main) self_id = Ok (Populated a, log) ->
        has_data a = true /\ length (select_result main) = 1%nat)
  /\ (forall row,
        select_result main = [row] ->
        timestamp_parses row ->
        (no_laps (select_dict_result main) = true -> is_Some (num_of self_id)) ->
        (forall ls, laps_to_graph main self_id = Some ls -> Forall readable_lap ls) ->
        (py_eq (prf_us_system main) (PStr "True") = true ->
         forall g, gpx main = Some g -> Forall numeric_point (trkpoints g)) ->
        exists a log,
          __init__ (Some main) self_id = Ok (Populated a, log)
          /\ has_data a = true).
Proof.
  intros Hid.
  destruct (before_db_returns main self_id) as (a0 & H0 & Hid0 & Hgpx0 & Hus0 & Htl0).
  split; [|split].
  - intros Hlen. unfold __init__.
    destruct (decide (self_id = PNone)); [contradiction|].
    rewrite H0, bind_Ok. unfold _init_from_db. rewrite Hid0.
    destruct (select_result main) as [|row [|row' rows]];
      [reflexivity | contradiction Hlen; reflexivity | reflexivity].
  - intros a log Hi.
    destruct (__init___steps _ _ _ _ Hi) as (b0 & r & a2 & _ & Hdb & Hgd & Hlap & _).
    destruct (_init_from_db_frame _ _ _ Hdb)
      as (_ & _ & _ & _ & _ & _ & _ & Hhas & row & Hrow).
    destruct (_init_graph_data_frame _ _ _ Hgd) as (_ & Hhas2 & _).
    destruct (_generate_per_lap_graphs_frame _ _ Hlap) as (_ & Hhas3 & _).
    split; [congruence|]. rewrite Hrow. reflexivity.
  - intros row Hsel Hts Hnum Hlaps Hpoints.
    destruct (_init_from_db_returns main a0 row Hsel Hts) as (r & Hdb & Hl).
    { rewrite Hid0. exact Hnum. }
    { exact Hgpx0. }
    rewrite Hid0 in Hl.
    destruct (_init_from_db_frame _ _ _ Hdb)
      as (_ & _ & _ & Htl1 & _ & _ & Hus1 & Hhas & _).
    destruct (_init_graph_data_returns main r.1) as [a2 Hgd].
    { intros Hus tl Htl. rewrite Hus1, Hus0 in Hus. rewrite Htl1, Htl0 in Htl.
      destruct (gpx main) as [g|]; [|discriminate Htl].
      injection Htl as <-. exact (Hpoints Hus g eq_refl). }
    destruct (_init_graph_data_frame _ _ _ Hgd) as (_ & Hhas2 & Hl2 & _).
    destruct (_generate_per_lap_graphs_returns a2) as [a Hlap].
    { intros ls Hls. apply Hlaps. rewrite <- Hl, <- Hl2. exact Hls. }
    destruct (_generate_per_lap_graphs_frame _ _ Hlap) as (_ & Hhas3 & _).
    exists a, r.2. split; [|congruence].
    unfold __init__. destruct (decide (self_id = PNone)); [contradiction|].
    rewrite H0, bind_Ok, Hdb, bind_Ok, Hgd, bind_Ok, Hlap, bind_Ok. reflexivity.
Qed.

Lemma load_by_row_count_witness :
  (exists a log,
     __init__ (H := sample_externals) (Some (sample_with_gpx "True" 3598 3600)) (PInt 7)
       = Ok (Populated a, log) /\ has_data a = true)
  /\ __init__ (H := sample_externals) (Some (sample_without_gpx [] None)) (PInt 7)
       = Raise (InconsistentData (H := sample_externals) (PInt 7)).
Proof.
  split.
  - destruct (load_by_row_count (H := sample_externals)
                (sample_with_gpx "True" 3598 3600) (PInt 7)) as (_ & _ & Hone).
    { discriminate. }
    apply (Hone (sample_row (PFloat (Qc_of_Z 10)) (PFloat (Qc_of_Z 6)) (PInt 0))).
    + reflexivity.
    + eexists _, _. split; reflexivity.
    + simpl. eauto.
    + intros ls [= <-]. repeat constructor.
      * exists "3600", (Qc_of_Z 3600). split; [reflexivity | qc_compute].
      * simpl. eauto.
    + intros _ g [= <-]. repeat constructor; simpl; eauto.
  - destruct (load_by_row_count (H := sample_externals)
                (sample_without_gpx [] None) (PInt 7)) as (Hnone & _).
    { discriminate. }
    apply Hnone. simpl. lia.
Defined.

(** C1 as stated does not hold: with exactly one row and a lap whose
    elapsed time is no number ("1:23") construction fails. *)
Lemma one_row_counterexample :
  length (select_result
            (sample_without_gpx
               [sample_row (PFloat (Qc_of_Z 10)) (PFloat (Qc_of_Z 6)) (PInt 0)]
               (Some [sample_lap (PStr "1:23") (PFloat (Qc_of_Z 400))]))) = 1%nat
  /\ __init__ (H := sample_externals)
       (Some (sample_without_gpx
                [sample_row (PFloat (Qc_of_Z 10)) (PFloat (Qc_of_Z 6)) (PInt 0)]
                (Some [sample_lap (PStr "1:23") (PFloat (Qc_of_Z 400))]))) (PInt 7)
     = Raise ValueError.
Proof. split; reflexivity. Qed.

(** * Properties of the rest of the module *)

(** ** The lenient casts [_float] and [_int] *)

Lemma float_text_is_float (s : string) (v : pyval) :
  float_text s = Some v -> is_float v = true.
Proof.
  unfold float_text, nonfinite_of_string.
  destruct (float_of_string s); [intros [= <-]; reflexivity|].
  destruct (take_sign _) as [neg l1].
  destruct (_ || _)%bool; [intros [= <-]; reflexivity|].
  destruct (String.eqb _ "nan"); [intros [= <-]; reflexivity | discriminate].
Qed.

Lemma _float_is_float (v : pyval) : is_float (_float v) = true.
Proof.
  unfold _float, py_float. destruct v as [|z|q|neg| |s]; try reflexivity.
  destruct (float_text s) as [w|] eqn:Hw; [|reflexivity].
  exact (float_text_is_float s w Hw).
Qed.

Lemma _int_is_int (v : pyval) : is_int (_int v) = true.
Proof.
  unfold _int, py_int. destruct v as [|z|q|neg| |s]; try reflexivity.
  destruct (int_of_string s); reflexivity.
Qed.

Lemma _float_of_float (v : pyval) : is_float v = true -> _float v = v.
Proof. destruct v; simpl; intros Hv; try discriminate; reflexivity. Qed.

Lemma _int_of_int (v : pyval) : is_int v = true -> _int v = v.
Proof. destruct v; simpl; intros Hv; try discriminate; reflexivity. Qed.

(** X1.  The two casts never raise and always give a value of their
    type: [_float] a float and [_int] an integer, 0 for whatever the
    builtin rejects ([None], a text that is no number; for [_int] also a
    text with a decimal point, an infinity or not-a-number).  A value of
    the type is returned as it is, so that a cast applied twice is the
    cast applied once; [_int] cuts a float towards zero. *)
Theorem lenient_casts (v : pyval) :
  is_float (_float v) = true
  /\ is_int (_int v) = true
  /\ _float (_float v) = _float v
  /\ _int (_int v) = _int v
  /\ (is_float v = true -> _float v = v)
  /\ (is_int v = true -> _int v = v)
  /\ (forall e, py_float v = Raise e -> _float v = PFloat 0%Qc)
  /\ (forall e, py_int v = Raise e -> _int v = PInt 0)
  /\ (forall q, v = PFloat q -> _int v = PInt (Qc_trunc q))
  /\ (forall s, v = PStr s -> int_of_string s = None -> _int v = PInt 0).
Proof.
  repeat split.
  - apply _float_is_float.
  - apply _int_is_int.
  - apply _float_of_float, _float_is_float.
  - apply _int_of_int, _int_is_int.
  - apply _float_of_float.
  - apply _int_of_int.
  - intros e He. unfold _float. rewrite He. reflexivity.
  - intros e He. unfold _int. rewrite He. reflexivity.
  - intros q ->. reflexivity.
  - intros s -> Hs. unfold _int, py_int. rewrite Hs. reflexivity.
Qed.

Lemma lenient_casts_witness :
  _int (PStr "3.7") = PInt 0
  /\ _int (PFloat (ratio (-37) 10)) = PInt (-3)
  /\ _float PNone = PFloat 0%Qc
  /\ _float (PInf true) = PInf true.
Proof.
  split; [|split; [|split]].
  - destruct (lenient_casts (PStr "3.7")) as (_ & _ & _ & _ & _ & _ & _ & _ & _ & Hs).
    apply (Hs "3.7"); reflexivity.
  - destruct (lenient_casts (PFloat (ratio (-37) 10)))
      as (_ & _ & _ & _ & _ & _ & _ & _ & Hq & _).
    rewrite (Hq _ eq_refl). reflexivity.
  - destruct (lenient_casts PNone) as (_ & _ & _ & _ & _ & _ & Hf & _).
    apply (Hf TypeError). reflexivity.
  - destruct (lenient_casts (PInf true)) as (_ & _ & _ & _ & Hid & _).
    exact (Hid eq_refl).
Defined.

(** ** What the load stores *)

Lemma populate_stores `{Externals} (row : DbRow.t) (a a' : Activity) :
  populate row a = Ok a' ->
  exists f, fields a' = Some f
    /\ stored_from row (gpx_distance a) f
    /\ pace_limit a' = normalised_limit (DbRow.sports_max_pace row).
Proof.
  unfold populate. intros Hp.
  returned Hp; subst a'; simpl; eexists; (split; [reflexivity|]);
    (split; [|reflexivity]); unfold stored_from; simpl; repeat split.
Qed.

Lemma before_db_distance `{Externals} (main : pytrainer_main) (self_id : pyval)
    (a0 : Activity) :
  match gpx main with
  | Some g => _init_from_gpx_file g (fresh main self_id)
  | None => Ok (fresh main self_id)
  end = Ok a0 ->
  gpx_distance a0 = track_log_distance main /\ id a0 = self_id
  /\ has_gpx_file a0 = bool_decide (is_Some (gpx main)).
Proof.
  unfold track_log_distance. destruct (gpx main) as [g|] eqn:Hg; intros H0.
  - unfold _init_from_gpx_file in H0.
    returned H0; subst a0; simpl; rewrite Hg; auto.
  - injection H0 as <-. simpl. rewrite Hg. auto.
Qed.

Lemma _generate_per_lap_graphs_keeps (a a' : Activity) :
  _generate_per_lap_graphs a = Ok a' ->
  pace_limit a' = pace_limit a /\ laps a' = laps a
  /\ tracklist a' = tracklist a /\ id a' = id a.
Proof.
  unfold _generate_per_lap_graphs. intros Hg. returned Hg; subst a'; simpl; auto.
Qed.

Lemma _init_from_db_stores `{Externals} (main : pytrainer_main) (a : Activity)
    (r : Activity * list Lap.t) :
  _init_from_db main a = Ok r ->
  exists row f, select_result main = [row] /\ fields r.1 = Some f
    /\ stored_from row (gpx_distance a) f
    /\ pace_limit r.1 = normalised_limit (DbRow.sports_max_pace row).
Proof.
  intros Hr.
  destruct (_init_from_db_fields _ _ _ Hr) as (row & a1 & Hsel & Hp & Hf & Hl).
  destruct (populate_stores _ _ _ Hp) as (f & Hf1 & Hst & Hl1).
  exists row, f. split; [exact Hsel|]. split; [congruence|].
  split; [exact Hst | congruence].
Qed.

(** The attributes of a constructed instance in terms of its row. *)
Lemma __init___loaded `{Externals} (main : pytrainer_main) (self_id : pyval)
    (a : Activity) (log : list Lap.t) :
  __init__ (Some main) self_id = Ok (Populated a, log) ->
  exists row f, select_result main = [row] /\ fields a = Some f
    /\ stored_from row (track_log_distance main) f
    /\ pace_limit a = normalised_limit (DbRow.sports_max_pace row)
    /\ us_system a = py_eq (prf_us_system main) (PStr "True").
Proof.
  intros Hi.
  destruct (__init___pace _ _ _ _ Hi) as (_ & _ & _ & _ & _ & _ & Hus & _).
  destruct (__init___steps _ _ _ _ Hi) as (a0 & r & a2 & H0 & Hdb & Hgd & Hlap & _).
  destruct (before_db_distance _ _ _ H0) as (Hd0 & _).
  destruct (_init_from_db_stores _ _ _ Hdb) as (row & f & Hsel & Hf & Hst & Hl).
  destruct (_init_graph_data_frame _ _ _ Hgd) as (_ & _ & _ & _ & Hl2 & Hf2).
  destruct (_generate_per_lap_graphs_frame _ _ Hlap) as (_ & _ & Hf3 & _).
  destruct (_generate_per_lap_graphs_keeps _ _ Hlap) as (Hl3 & _).
  exists row, f. rewrite Hd0 in Hst.
  split; [exact Hsel|]. split; [congruence|]. split; [exact Hst|].
  split; [congruence | exact Hus].
Qed.

Lemma or_empty_not_None (v : pyval) : or_empty v <> PNone.
Proof. unfold or_empty. destruct (decide (v = PNone)); [discriminate | assumption]. Qed.

Lemma py_eq_None (v : pyval) : py_eq v PNone = true -> v = PNone.
Proof. destruct v; simpl; intros Hv; try discriminate; reflexivity. Qed.

Lemma normalised_limit_set (v : pyval) :
  py_eq (normalised_limit v) (PInt 0) = false
  /\ py_eq (normalised_limit v) (PStr "") = false.
Proof.
  unfold normalised_limit.
  destruct (py_eq v (PInt 0)) eqn:E0; [split; reflexivity|].
  destruct (py_eq v (PStr "")) eqn:E1; [split; reflexivity|]. auto.
Qed.

Lemma stored_from_clean `{Externals} (row : DbRow.t) (d : pyval) (f : db_fields) :
  stored_from row d f ->
  sport_name f <> PNone /\ title f <> PNone /\ comments f <> PNone
  /\ is_int (time f) = true /\ is_int (beats f) = true
  /\ is_int (calories f) = true /\ is_int (maxbeats f) = true
  /\ is_float (average f) = true /\ is_float (upositive f) = true
  /\ is_float (unegative f) = true /\ is_float (maxspeed f) = true
  /\ is_float (maxpace f) = true /\ is_float (pace f) = true.
Proof.
  intros Hst.
  destruct Hst as (Hsn & Hti & Hco & Htime & _ & Hb & Hcal & Hmb & Hav & Hup
                   & Hun & Hms & Hmp & Hp & _).
  rewrite Hsn, Hti, Hco, Htime, Hb, Hcal, Hmb, Hav, Hup, Hun, Hms, Hmp, Hp.
  repeat split; try apply _int_is_int; try apply _float_is_float;
    try apply or_empty_not_None.
  destruct (py_eq (DbRow.sports_name row) PNone) eqn:E; [discriminate|].
  intros Hn. rewrite Hn in E. discriminate E.
Qed.

(** X2.  After a construction that returned, the texts of the activity
    are never [None] (a missing sport name, title or comment is the
    empty string), every numeric attribute is a number of its type
    (integers for duration, heart rates and calories, floats for the
    others, 0 for what could not be read), and the pace limit is never 0
    nor the empty string: those mean no limit and are stored as
    [None]. *)
Theorem loaded_attributes_are_clean `{Externals} (main : pytrainer_main)
    (self_id : pyval) (a : Activity) (log : list Lap.t) :
  __init__ (Some main) self_id = Ok (Populated a, log) ->
  exists f, fields a = Some f
    /\ sport_name f <> PNone /\ title f <> PNone /\ comments f <> PNone
    /\ is_int (time f) = true /\ is_int (beats f) = true
    /\ is_int (calories f) = true /\ is_int (maxbeats f) = true
    /\ is_float (average f) = true /\ is_float (upositive f) = true
    /\ is_float (unegative f) = true /\ is_float (maxspeed f) = true
    /\ is_float (maxpace f) = true /\ is_float (pace f) = true
    /\ py_eq (pace_limit a) (PInt 0) = false
    /\ py_eq (pace_limit a) (PStr "") = false.
Proof.
  intros Hi.
  destruct (__init___loaded _ _ _ _ Hi) as (row & f & _ & Hf & Hst & Hl & _).
  pose proof (stored_from_clean _ _ _ Hst) as Hc.
  exists f. split; [exact Hf|].
  rewrite Hl. destruct (normalised_limit_set (DbRow.sports_max_pace row)).
  intuition.
Qed.

Lemma loaded_attributes_are_clean_witness :
  exists a log f,
    __init__ (H := sample_externals)
      (Some (sample_main "False" None
               [sample_row (PStr "n/a") PNone (PStr "")] (Some sample_laps)))
      (PInt 7) = Ok (Populated a, log)
    /\ fields a = Some f
    /\ comments f <> PNone /\ is_float (pace f) = true
    /\ py_eq (pace_limit a) (PStr "") = false.
Proof.
  assert (E : exists a log,
      __init__ (H := sample_externals)
        (Some (sample_main "False" None
                 [sample_row (PStr "n/a") PNone (PStr "")] (Some sample_laps)))
        (PInt 7) = Ok (Populated a, log))
    by (vm_compute; eauto).
  destruct E as (a & log & E).
  destruct (loaded_attributes_are_clean (H := sample_externals) _ _ _ _ E)
    as (f & Hf & _ & _ & Hc & _ & _ & _ & _ & _ & _ & _ & _ & _ & Hp & _ & Hl).
  exists a, log, f. auto.
Defined.

(** X3.  The distance of a constructed activity is the distance of its
    row when that is a number other than zero; when the row has no
    distance (zero, [None], a text that is no number) it is the total
    distance of the track log, and [None] when there is no track log
    either. *)
Theorem distance_falls_back `{Externals} (main : pytrainer_main)
    (self_id : pyval) (a : Activity) (log : list Lap.t) :
  __init__ (Some main) self_id = Ok (Populated a, log) ->
  exists row f, select_result main = [row] /\ fields a = Some f
    /\ (truthy (_float (DbRow.distance row)) = true ->
        distance f = _float (DbRow.distance row))
    /\ (truthy (_float (DbRow.distance row)) = false ->
        forall g, gpx main = Some g -> distance f = PFloat (total_dist g))
    /\ (truthy (_float (DbRow.distance row)) = false ->
        gpx main = None -> distance f = PNone).
Proof.
  intros Hi.
  destruct (__init___loaded _ _ _ _ Hi) as (row & f & Hsel & Hf & Hst & _).
  destruct Hst as (_ & _ & _ & _ & _ & _ & _ & _ & _ & _ & _ & _ & _ & _ & Hd & _).
  exists row, f. split; [exact Hsel|]. split; [exact Hf|].
  unfold py_not, track_log_distance in Hd. repeat split.
  - intros Ht. rewrite Hd, Ht. reflexivity.
  - intros Ht g Hg. rewrite Hd, Ht, Hg. reflexivity.
  - intros Ht Hg. rewrite Hd, Ht, Hg. reflexivity.
Qed.

Lemma distance_falls_back_witness :
  exists a log f,
    __init__ (H := sample_externals)
      (Some (sample_main "False" (Some (sample_gpx sample_points 3598 3600))
               [sample_row (PStr "") PNone PNone] (Some sample_laps)))
      (PInt 7) = Ok (Populated a, log)
    /\ fields a = Some f /\ distance f = PFloat (Qc_of_Z 10).
Proof.
  assert (E : exists a log,
      __init__ (H := sample_externals)
        (Some (sample_main "False" (Some (sample_gpx sample_points 3598 3600))
                 [sample_row (PStr "") PNone PNone] (Some sample_laps)))
        (PInt 7) = Ok (Populated a, log))
    by (vm_compute; eauto).
  destruct E as (a & log & E).
  destruct (distance_falls_back (H := sample_externals) _ _ _ _ E)
    as (row & f & Hsel & Hf & _ & Hgpx & _).
  injection Hsel as <-.
  exists a, log, f. split; [exact E|]. split; [exact Hf|].
  apply (Hgpx eq_refl (sample_gpx sample_points 3598 3600)). reflexivity.
Defined.

(** ** Reading the attributes *)

Lemma pace_from_float_returns `{Externals} (v : pyval) :
  exists s, pace_from_float v = Ok (PStr s).
Proof.
  unfold pace_from_float. destruct (py_not v) eqn:Hn; [eauto|].
  destruct v as [|z|q|neg| |s]; try discriminate Hn; simpl; eauto.
  destruct (float_text s) as [w|]; simpl; [|eauto].
  destruct w; simpl; eauto.
Qed.

Lemma km2miles_float_returns (v : pyval) :
  is_float v = true -> exists r, km2miles v = Ok r.
Proof. destruct v; simpl; intros Hv; try discriminate; unfold km2miles, py_mul; simpl; eauto. Qed.

Lemma m2feet_float_returns (v : pyval) :
  is_float v = true -> exists r, m2feet v = Ok r.
Proof. destruct v; simpl; intros Hv; try discriminate; unfold m2feet, py_mul; simpl; eauto. Qed.

Lemma pacekm2miles_float_returns (v : pyval) :
  is_float v = true -> exists r, pacekm2miles v = Ok r.
Proof.
  intros Hv. apply pacekm2miles_returns.
  destruct v; simpl in *; try discriminate; eauto.
Qed.

Lemma converted_float_returns `{Externals} (a : Activity) (f : db_fields)
    (proj : db_fields -> pyval) (conv : pyval -> result pyval) :
  fields a = Some f -> is_float (proj f) = true ->
  (forall v, is_float v = true -> exists r, conv v = Ok r) ->
  exists r, converted a conv proj = Ok r.
Proof.
  intros Hf Hv Hconv. unfold converted, attribute. rewrite Hf, bind_Ok.
  destruct (us_system a); [apply Hconv, Hv | eauto].
Qed.

Lemma get_value_unknown `{Externals} (a : Activity) (param : string) :
  param ∉ known_params -> get_value a param = Ok PNone.
Proof.
  intros Hp. unfold get_value.
  repeat match goal with
  | |- context [String.eqb param ?k] =>
      destruct (String.eqb_spec param k) as [-> | _];
        [exfalso; apply Hp; unfold known_params; repeat constructor |]
  end.
  reflexivity.
Qed.

(** X4.  Reading an attribute of a constructed activity never raises,
    in either system: for every field name other than "distance"
    [get_value] returns, and so it does for "distance", whether or not
    the activity has a distance.  A name that is no field gives [None],
    which [get_value_f] shows as the empty string. *)
Theorem get_value_returns `{Externals} (main : pytrainer_main) (self_id : pyval)
    (a : Activity) (log : list Lap.t) :
  __init__ (Some main) self_id = Ok (Populated a, log) ->
  (forall param, param <> "distance" -> exists v, get_value a param = Ok v)
  /\ (forall f, fields a = Some f -> distance f <> PNone ->
        exists v, get_value a "distance" = Ok v)
  /\ (us_system a = false -> exists v, get_value a "distance" = Ok v)
  /\ (forall param fmt wu, param ∉ known_params ->
        get_value a param = Ok PNone /\ get_value_f a param fmt wu = Ok "")
  /\ (exists v, get_value a "distance" = Ok v).
Proof.
  intros Hi.
  destruct (__init___loaded _ _ _ _ Hi) as (row & f & _ & Hf & Hst & _).
  destruct (stored_from_clean _ _ _ Hst)
    as (_ & _ & _ & _ & _ & _ & _ & Hav & Hup & Hun & Hms & Hmp & Hp).
  split; [|split; [|split; [|split]]].
  - intros param Hparam. unfold get_value.
    destruct (String.eqb_spec param "distance") as [-> | _]; [contradiction|].
    destruct (String.eqb param "average");
      [exact (converted_float_returns a f average _ Hf Hav km2miles_float_returns)|].
    destruct (String.eqb param "upositive");
      [exact (converted_float_returns a f upositive _ Hf Hup m2feet_float_returns)|].
    destruct (String.eqb param "unegative");
      [exact (converted_float_returns a f unegative _ Hf Hun m2feet_float_returns)|].
    destruct (String.eqb param "maxspeed");
      [exact (converted_float_returns a f maxspeed _ Hf Hms km2miles_float_returns)|].
    assert (Hpace : forall proj, is_float (proj f) = true ->
              exists v, (let* v := converted a pacekm2miles proj in
                         pace_from_float v) = Ok v).
    { intros proj Hv. unfold converted, attribute. rewrite Hf, bind_Ok.
      destruct (us_system a).
      - destruct (pacekm2miles_float_returns _ Hv) as [r ->]. rewrite bind_Ok.
        destruct (pace_from_float_returns r) as [s ->]. eauto.
      - rewrite bind_Ok. destruct (pace_from_float_returns (proj f)) as [s ->].
        eauto. }
    destruct (String.eqb param "maxpace"); [exact (Hpace maxpace Hmp)|].
    destruct (String.eqb param "pace"); [exact (Hpace pace Hp)|].
    destruct (String.eqb param "calories").
    { unfold attribute. rewrite Hf. eauto. }
    destruct (String.eqb param "time"); [|eauto].
    unfold attribute. rewrite Hf, bind_Ok.
    destruct (py_not (time f)); [eauto|].
    destruct (second2time (time f)) as [[h m] s].
    destruct (h =? 0); eauto.
  - intros f' Hf'' Hd. assert (f' = f) by congruence. subst f'.
    rewrite (get_value_distance a f Hf).
    destruct (us_system a); [|eauto].
    apply km2miles_float_returns.
    destruct Hst as (_ & _ & _ & _ & _ & _ & _ & _ & _ & _ & _ & _ & _ & _ & Hdist & _).
    rewrite Hdist in *. unfold track_log_distance in *.
    destruct (py_not (_float (DbRow.distance row))); [|apply _float_is_float].
    destruct (gpx main); [reflexivity | contradiction].
  - intros Hus. rewrite (get_value_distance a f Hf), Hus. eauto.
  - intros param fmt wu Hparam.
    pose proof (get_value_unknown a param Hparam) as Hv. split; [exact Hv|].
    unfold get_value_f. rewrite Hv. reflexivity.
  - rewrite (get_value_distance a f Hf).
    destruct (us_system a); [|eauto].
    destruct Hst as (_ & _ & _ & _ & _ & _ & _ & _ & _ & _ & _ & _ & _ & _ & Hdist & _).
    rewrite Hdist. unfold track_log_distance.
    destruct (py_not (_float (DbRow.distance row)));
      [|apply km2miles_float_returns, _float_is_float].
    destruct (gpx main); [apply km2miles_float_returns; reflexivity|].
    exists PNone. reflexivity.
Qed.

Lemma get_value_returns_witness :
  exists a log v,
    __init__ (H := sample_externals) (Some (sample_with_gpx "True" 3598 3600)) (PInt 7)
      = Ok (Populated a, log)
    /\ get_value (H := sample_externals) a "upositive" = Ok v
    /\ get_value_f (H := sample_externals) a "speed" None true = Ok "".
Proof.
  assert (E : exists a log,
      __init__ (H := sample_externals) (Some (sample_with_gpx "True" 3598 3600))
        (PInt 7) = Ok (Populated a, log))
    by (vm_compute; eauto).
  destruct E as (a & log & E).
  destruct (get_value_returns (H := sample_externals) _ _ _ _ E)
    as (Hall & _ & _ & Hunknown & _).
  destruct (Hall "upositive") as [v Hv]; [discriminate|].
  exists a, log, v. split; [exact E|]. split; [exact Hv|].
  apply Hunknown. unfold known_params. intros Hin.
  repeat (apply elem_of_cons in Hin as [Hin | Hin]; [discriminate Hin|]).
  inversion Hin.
Defined.

(** ** The laps *)

Lemma _init_from_db_laps `{Externals} (main : pytrainer_main) (a : Activity)
    (r : Activity * list Lap.t) :
  _init_from_db main a = Ok r ->
  has_gpx_file a = bool_decide (is_Some (gpx main)) ->
  laps r.1 = laps_to_graph main (id a) /\ r.2 = written_back main (id a)
  /\ (no_laps (select_dict_result main) = true -> percent_d (id a) = Ok tt).
Proof.
  unfold _init_from_db, laps_to_graph, written_back. intros Hr Hgpx.
  destruct (select_result main) as [|row [|row' rows]] eqn:Hsel;
    try discriminate Hr.
  destruct (populate row a) as [a1|] eqn:Hp; [|discriminate Hr].
  rewrite bind_Ok in Hr.
  destruct (populate_frame _ _ _ Hp) as (_ & Hid1 & Hg1 & _).
  rewrite Hid1, Hg1, Hgpx in Hr.
  destruct (no_laps (select_dict_result main)) eqn:Hno.
  - destruct (percent_d (id a)) as [[]|] eqn:Hd; [|discriminate Hr].
    rewrite bind_Ok in Hr.
    destruct (gpx main) as [g|]; simpl in Hr; injection Hr as <-; simpl;
      unfold _get_laps_from_gpx; rewrite ?Hid1; auto.
  - injection Hr as <-. simpl. split; [reflexivity|]. split; [reflexivity|].
    discriminate.
Qed.

Lemma __init___laps `{Externals} (main : pytrainer_main) (self_id : pyval)
    (a : Activity) (log : list Lap.t) :
  __init__ (Some main) self_id = Ok (Populated a, log) ->
  laps a = laps_to_graph main self_id /\ log = written_back main self_id
  /\ (no_laps (select_dict_result main) = true -> percent_d self_id = Ok tt).
Proof.
  intros Hi.
  destruct (__init___steps _ _ _ _ Hi) as (a0 & r & a2 & H0 & Hdb & Hgd & Hlap & Hlog).
  destruct (before_db_distance _ _ _ H0) as (_ & Hid0 & Hg0).
  destruct (_init_from_db_laps _ _ _ Hdb Hg0) as (Hl & Hw & Hd).
  destruct (_init_graph_data_frame _ _ _ Hgd) as (_ & _ & Hl2 & _).
  destruct (_generate_per_lap_graphs_keeps _ _ Hlap) as (_ & Hl3 & _).
  rewrite Hid0 in *. split; [congruence|]. split; [congruence | exact Hd].
Qed.

Lemma list_index_spec (l : list gpxlap) (i : nat) (x : gpxlap) :
  (i < length l)%nat ->
  0 <= list_index i x l <= Z.of_nat i
  /\ (list_index i x l < Z.of_nat i ->
      exists y, l !! Z.to_nat (list_index i x l) = Some y /\ tuple_eq y x = true)
  /\ (forall j y, (j < Z.to_nat (list_index i x l))%nat -> l !! j = Some y ->
        tuple_eq y x = false)
  /\ ((forall j y, (j < i)%nat -> l !! j = Some y -> tuple_eq y x = false) ->
      list_index i x l = Z.of_nat i).
Proof.
  revert i. induction l as [|y l IH]; intros i Hi; [simpl in Hi; lia|].
  destruct i as [|i]; cbn [list_index].
  - split; [lia|]. split; [intros Hlt; lia|].
    split; [intros j z Hj; simpl in Hj; lia|].
    reflexivity.
  - simpl in Hi. destruct (tuple_eq y x) eqn:Hyx.
    + split; [lia|]. split; [intros _; exists y; auto|].
      split; [intros j z Hj; simpl in Hj; lia|].
      intros Hnone. rewrite (Hnone 0%nat y) in Hyx; [discriminate | lia | reflexivity].
    + destruct (IH i) as (Hr & Hat & Hfirst & Hown); [lia|].
      replace (Z.to_nat (1 + list_index i x l))
        with (S (Z.to_nat (list_index i x l))) by lia.
      split; [lia|]. split; [|split].
      * intros Hlt. apply Hat. lia.
      * intros [|j] z Hj Hz; simpl in Hz; [congruence|].
        apply (Hfirst j); [lia | exact Hz].
      * intros Hnone. rewrite Hown; [lia|].
        intros j z Hj Hz. apply (Hnone (S j)); [lia | exact Hz].
Qed.

(** X5.  The laps of a constructed activity are those stored in the
    database when there are any, and nothing is written back.  When
    the database has none and there is a track log, they are derived
    from the laps of the track log, one for one and in order, each
    carrying the identifier of the activity, and exactly these laps are
    handed to [insertLaps]; with neither, the (empty) answer of the
    database is kept.  When the database has no laps the identifier was
    a number, or the construction would not have returned. *)
Theorem laps_fall_back_to_track_log `{Externals} (main : pytrainer_main)
    (self_id : pyval) (a : Activity) (log : list Lap.t) :
  __init__ (Some main) self_id = Ok (Populated a, log) ->
  (no_laps (select_dict_result main) = false ->
     laps a = select_dict_result main /\ log = [])
  /\ (no_laps (select_dict_result main) = true ->
      (is_int self_id || is_float self_id)%bool = true
      /\ (gpx main = None -> laps a = select_dict_result main /\ log = [])
      /\ (forall g, gpx main = Some g ->
            laps a = Some log
            /\ length log = length (getLaps g)
            /\ Forall (fun l => Lap.record l = self_id) log
            /\ forall i gl, getLaps g !! i = Some gl ->
                 exists l, log !! i = Some l
                   /\ Lap.elapsed_time l = lap0 gl /\ Lap.distance l = lap4 gl
                   /\ Lap.start_lat l = lap5 gl /\ Lap.start_lon l = lap6 gl
                   /\ Lap.end_lat l = lap1 gl /\ Lap.end_lon l = lap2 gl
                   /\ Lap.calories l = lap3 gl)).
Proof.
  intros Hi. destruct (__init___laps _ _ _ _ Hi) as (Hl & Hw & Hd).
  unfold laps_to_graph in Hl. unfold written_back in Hw. split.
  - intros Hno. rewrite Hno in Hl, Hw. auto.
  - intros Hno. rewrite Hno in Hl, Hw. split; [|split].
    + specialize (Hd Hno). destruct self_id; simpl in *; congruence.
    + intros Hg. rewrite Hg in Hl, Hw. auto.
    + intros g Hg. rewrite Hg in Hl, Hw. subst log.
      split; [exact Hl|]. split; [apply length_imap|]. split.
      * apply Forall_forall. intros l Hin.
        apply list_elem_of_lookup in Hin as [j Hj].
        rewrite list_lookup_imap in Hj.
        destruct (getLaps g !! j); [injection Hj as <-; reflexivity | discriminate Hj].
      * intros i gl Hgl. eexists. split.
        { rewrite list_lookup_imap, Hgl. reflexivity. }
        simpl. auto 10.
Qed.

Lemma laps_fall_back_to_track_log_witness :
  exists a log,
    __init__ (H := sample_externals)
      (Some (sample_main "False" (Some sample_gpx_with_laps)
               [sample_row (PFloat (Qc_of_Z 10)) (PFloat (Qc_of_Z 6)) PNone] None))
      (PInt 7) = Ok (Populated a, log)
    /\ laps a = Some log /\ length log = 3%nat.
Proof.
  assert (E : exists a log,
      __init__ (H := sample_externals)
        (Some (sample_main "False" (Some sample_gpx_with_laps)
                 [sample_row (PFloat (Qc_of_Z 10)) (PFloat (Qc_of_Z 6)) PNone] None))
        (PInt 7) = Ok (Populated a, log))
    by (vm_compute; eauto).
  destruct E as (a & log & E).
  destruct (laps_fall_back_to_track_log (H := sample_externals) _ _ _ _ E)
    as (_ & Hno).
  destruct (Hno eq_refl) as (_ & _ & Hg).
  destruct (Hg _ eq_refl) as (Hl & Hlen & _).
  exists a, log. auto.
Defined.

(** X6.  The number of a lap derived from the track log is the first
    position of the list of laps of the track log whose lap is the lap
    itself or compares equal to it ([gpxLaps.index(lap)]): never a
    later position than its own, the position of an earlier lap that
    compares equal when it is smaller than its own, and its own
    position when no earlier lap compares equal.  Laps are compared as
    Python compares tuples, entry by entry with [==]: 100 and 100.0 are
    equal. *)
Theorem lap_number_is_first_occurrence (g : Gpx) (a : Activity) (i : nat)
    (lap : Lap.t) :
  _get_laps_from_gpx g a !! i = Some lap ->
  exists (n : Z) (gl : gpxlap),
    Lap.lap_number lap = PInt n /\ 0 <= n <= Z.of_nat i
    /\ getLaps g !! i = Some gl
    /\ (n < Z.of_nat i ->
        exists earlier, getLaps g !! Z.to_nat n = Some earlier
          /\ tuple_eq earlier gl = true)
    /\ (forall j y, (j < Z.to_nat n)%nat -> getLaps g !! j = Some y ->
          tuple_eq y gl = false)
    /\ ((forall j y, (j < i)%nat -> getLaps g !! j = Some y ->
           tuple_eq y gl = false) -> n = Z.of_nat i).
Proof.
  unfold _get_laps_from_gpx. rewrite list_lookup_imap. intros Hl.
  destruct (getLaps g !! i) as [gl|] eqn:Hgl; [|discriminate Hl].
  injection Hl as <-.
  destruct (list_index_spec (getLaps g) i gl) as (Hr & Hat & Hfirst & Hown).
  { apply lookup_lt_Some in Hgl. exact Hgl. }
  exists (list_index i gl (getLaps g)), gl. simpl. auto 10.
Qed.

Lemma lap_number_is_first_occurrence_witness :
  exists lap n,
    _get_laps_from_gpx sample_gpx_with_laps (fresh (sample_with_gpx "False" 3598 3600) (PInt 7)) !! 2%nat = Some lap
    /\ Lap.lap_number lap = PInt n /\ 0 <= n <= 2.
Proof.
  destruct (lap_number_is_first_occurrence sample_gpx_with_laps (fresh (sample_with_gpx "False" 3598 3600) (PInt 7)) 2
              (lap_from_gpx (id (fresh (sample_with_gpx "False" 3598 3600) (PInt 7))) (getLaps sample_gpx_with_laps)
                 2 (sample_gpxlap "1200" 3000)) eq_refl)
    as (n & gl & Hn & Hr & _).
  eexists _, n. split; [reflexivity|]. split; [exact Hn | exact Hr].
Defined.

(** The third lap of the sample repeats the first one and gets its
    number; a lap that differs from an earlier one only in the type of
    a number (calories 100.0 for 100) compares equal to it. *)
Example lap_number_of_equal_laps :
  Lap.lap_number <$>
    _get_laps_from_gpx sample_gpx_with_laps
      (fresh (sample_with_gpx "False" 3598 3600) (PInt 7))
    = [ PInt 0; PInt 1; PInt 0 ]
  /\ Lap.lap_number <$>
       imap (lap_from_gpx (PInt 7)
               [ sample_gpxlap "1200" 3000; sample_gpxlap_float "1200" 3000 ])
         [ sample_gpxlap "1200" 3000; sample_gpxlap_float "1200" 3000 ]
     = [ PInt 0; PInt 0 ].
Proof. split; vm_compute; reflexivity. Qed.

(** ** The series of the track points, in closed form *)

Lemma points_addPoints (x y : pyval) (g : GraphData) :
  points (addPoints x y PNone PNone g) = (points g ++ point_of x y)%list.
Proof.
  rewrite addPoints_kept. unfold point_of.
  destruct (kept x y); simpl; [reflexivity | rewrite app_nil_r; reflexivity].
Qed.

Lemma points_add_to (key k : string) (x y : pyval) (d : gmap string GraphData) :
  points <$> add_to key x y d !! k
    = if decide (key = k)
      then (fun l => (l ++ point_of x y)%list) <$> (points <$> d !! k)
      else points <$> d !! k.
Proof.
  unfold add_to. rewrite lookup_alter.
  destruct (decide (key = k)) as [-> | _]; [|reflexivity].
  destruct (d !! k) as [g|]; simpl; [|reflexivity].
  rewrite points_addPoints. reflexivity.
Qed.

Ltac pick_series :=
  repeat (rewrite points_add_to;
          match goal with
          | |- context [decide (?a = ?b)] =>
              destruct (decide (a = b)) as [? | ?];
                [try discriminate | try (exfalso; auto; fail)]
          end).

(** One track point, in the metric system. *)
Lemma point_step_points (limit maxhr : pyval) (t : trkpoint) (s : series) :
  exists s', point_step false limit maxhr t s = Ok s'
    /\ forall k y, plotted limit maxhr k = Some y ->
         points <$> by_distance s' !! k
           = (fun l => (l ++ point_of (elapsed_distance t) (y t))%list)
               <$> (points <$> by_distance s !! k)
         /\ points <$> by_time s' !! k
           = (fun l => (l ++ point_of (time_elapsed t) (y t))%list)
               <$> (points <$> by_time s !! k).
Proof.
  eexists. split; [unfold point_step; rewrite bind_Ok; reflexivity|].
  intros k y Hk. unfold plotted in Hk. cbn [by_distance by_time].
  repeat match type of Hk with
  | context [String.eqb k ?c] =>
      destruct (String.eqb_spec k c) as [-> | ?];
        [injection Hk as <-; split; pick_series; reflexivity |]
  end.
  discriminate Hk.
Qed.

Lemma for_each_point_step_points (limit maxhr : pyval) (tl : list trkpoint) :
  forall s, exists s', for_each (point_step false limit maxhr) tl s = Ok s'
    /\ forall k y, plotted limit maxhr k = Some y ->
         points <$> by_distance s' !! k
           = (fun l => (l ++ points_from elapsed_distance y tl)%list)
               <$> (points <$> by_distance s !! k)
         /\ points <$> by_time s' !! k
           = (fun l => (l ++ points_from time_elapsed y tl)%list)
               <$> (points <$> by_time s !! k).
Proof.
  induction tl as [|t tl IH]; intros s; cbn [for_each].
  - exists s. split; [reflexivity|]. intros k y _. unfold points_from. simpl.
    split; [destruct (by_distance s !! k) | destruct (by_time s !! k)]; simpl;
      rewrite ?app_nil_r; reflexivity.
  - destruct (point_step_points limit maxhr t s) as (s1 & -> & H1).
    rewrite bind_Ok. destruct (IH s1) as (s' & Hs' & H').
    exists s'. split; [exact Hs'|]. intros k y Hk.
    destruct (H1 k y Hk) as [Hd1 Ht1]. destruct (H' k y Hk) as [Hd Ht].
    rewrite Hd, Ht, Hd1, Ht1. unfold points_from. cbn [flat_map].
    split; [destruct (by_distance s !! k) | destruct (by_time s !! k)]; simpl;
      rewrite <- ?app_assoc; reflexivity.
Qed.

Lemma plotted_not_zone (limit maxhr : pyval) (k : string) (y : trkpoint -> pyval) :
  plotted limit maxhr k = Some y ->
  k <> "hr_z" /\ k <> "pace_lap" /\ k <> "speed_lap".
Proof.
  intros Hk. repeat split; intros ->; discriminate Hk.
Qed.

Lemma new_point_series_points (a : Activity) (xl : pyval)
    (d : gmap string GraphData) (limit maxhr : pyval) (k : string)
    (y : trkpoint -> pyval) :
  plotted limit maxhr k = Some y ->
  points <$> new_point_series a xl d !! k = Some [].
Proof.
  intros Hk. unfold plotted in Hk. unfold new_point_series.
  repeat match type of Hk with
  | context [String.eqb k ?c] =>
      destruct (String.eqb_spec k c) as [-> | ?];
        [repeat (rewrite lookup_insert;
                 match goal with
                 | |- context [decide (?a = ?b)] =>
                     destruct (decide (a = b)) as [? | ?];
                       [try discriminate | try (exfalso; auto; fail)]
                 end); reflexivity |]
  end.
  discriminate Hk.
Qed.

Lemma points_keep_nonempty (o : option GraphData) :
  points <$> keep_nonempty len o = (points <$> o) ≫= nonempty.
Proof.
  destruct o as [g|]; [|reflexivity]. unfold keep_nonempty, len. simpl.
  destruct (points g) eqn:E; simpl; [reflexivity | rewrite E; reflexivity].
Qed.

(** The series of the track points in the metric system. *)
Lemma point_series_points `{Externals} (main : pytrainer_main) (a : Activity)
    (tl : list trkpoint) :
  us_system a = false ->
  exists s, point_series main a tl = Ok s
    /\ forall k y, plotted (pace_limit a) (getMaxHR main) k = Some y ->
         points <$> by_distance s !! k = nonempty (points_from elapsed_distance y tl)
         /\ points <$> by_time s !! k = nonempty (points_from time_elapsed y tl).
Proof.
  intros Hus. unfold point_series. rewrite Hus.
  destruct (for_each_point_step_points (pace_limit a) (getMaxHR main) tl
              {| by_distance :=
                   new_point_series a (axis_label "Distance" (distance_unit a))
                     (distance_data a);
                 by_time := new_point_series a (PStr "Time (seconds)") (time_data a) |})
    as (s0 & -> & H0).
  rewrite bind_Ok. eexists. split; [reflexivity|]. intros k y Hk.
  destruct (plotted_not_zone _ _ _ _ Hk) as (Hz & _).
  destruct (add_hr_zones_lookup a (getZones main)
              {| by_distance := remove_empty (by_distance s0);
                 by_time := remove_empty (by_time s0) |} k Hz) as [Hd Ht].
  rewrite Hd, Ht. cbn [by_distance by_time].
  rewrite !remove_empty_lookup, !points_keep_nonempty.
  destruct (H0 k y Hk) as [Hd0 Ht0]. rewrite Hd0, Ht0. cbn [by_distance by_time].
  rewrite !(new_point_series_points _ _ _ _ _ _ _ Hk). split; reflexivity.
Qed.

(** ** Where the points of a series come from, in either system *)

Lemma points_satisfy_add_to (P : datapoint -> Prop) (k key : string)
    (x y : pyval) (d : gmap string GraphData) :
  points_satisfy P k d ->
  (key = k -> kept x y = true ->
   P {| dp_x := x; dp_y := y; dp_label := PNone; dp_color := PNone |}) ->
  points_satisfy P k (add_to key x y d).
Proof.
  intros Hd Hnew g p Hg Hp. unfold add_to in Hg. rewrite lookup_alter in Hg.
  destruct (decide (key = k)) as [-> | Hne]; [|exact (Hd _ _ Hg Hp)].
  destruct (d !! k) as [g0|] eqn:Hg0; simpl in Hg; [|discriminate].
  injection Hg as <-. rewrite points_addPoints in Hp. unfold point_of in Hp.
  apply elem_of_app in Hp as [Hp | Hp]; [exact (Hd _ _ Hg0 Hp)|].
  destruct (kept x y) eqn:Hk; [|apply elem_of_nil in Hp; contradiction].
  apply list_elem_of_singleton in Hp. subst p. apply Hnew; reflexivity.
Qed.

Lemma points_satisfy_insert_new (P : datapoint -> Prop) (k key : string)
    (g : GraphData) (d : gmap string GraphData) :
  points g = [] -> points_satisfy P k d -> points_satisfy P k (<[key := g]> d).
Proof.
  intros Hg Hd g' p Hl Hp. rewrite lookup_insert in Hl.
  destruct (decide (key = k)) as [-> | Hne]; [|exact (Hd _ _ Hl Hp)].
  injection Hl as <-. rewrite Hg in Hp. apply elem_of_nil in Hp. contradiction.
Qed.

Lemma points_satisfy_remove_empty (P : datapoint -> Prop) (k : string)
    (d : gmap string GraphData) :
  points_satisfy P k d -> points_satisfy P k (remove_empty d).
Proof.
  intros Hd g p Hg Hp. rewrite remove_empty_lookup in Hg.
  apply keep_nonempty_Some in Hg as [Hg _]. exact (Hd _ _ Hg Hp).
Qed.

Ltac plot_point t :=
  exists t; split; [assumption|]; split; [first [assumption | reflexivity]|];
  split; [first [assumption | reflexivity] | assumption].

Ltac plot_all t :=
  repeat (apply points_satisfy_add_to;
          [| let E := fresh "E" in let Hkept := fresh "Hkept" in
             intros E Hkept; first [discriminate E | plot_point t]]);
  assumption.

Lemma point_step_plotted_for (tl : list trkpoint) (us : bool)
    (limit maxhr : pyval) (t : trkpoint) (s s' : series) (k : string)
    (y : trkpoint -> pyval) :
  plotted limit maxhr k = Some y -> t ∈ tl ->
  point_step us limit maxhr t s = Ok s' ->
  points_satisfy
    (plotted_for tl (fun t => distance_in_units us (elapsed_distance t))
       (fun t => in_units us k (y t))) k (by_distance s) ->
  points_satisfy
    (plotted_for tl (fun t => Ok (time_elapsed t))
       (fun t => in_units us k (y t))) k (by_time s) ->
  points_satisfy
    (plotted_for tl (fun t => distance_in_units us (elapsed_distance t))
       (fun t => in_units us k (y t))) k (by_distance s')
  /\ points_satisfy
    (plotted_for tl (fun t => Ok (time_elapsed t))
       (fun t => in_units us k (y t))) k (by_time s').
Proof.
  intros Hk Ht Hstep Hd Htm. unfold point_step in Hstep. destruct us.
  - destruct (km2miles (elapsed_distance t)) as [xd|] eqn:Hxd; [|discriminate Hstep].
    rewrite bind_Ok in Hstep.
    destruct (m2feet (ele t)) as [e|] eqn:He; [|discriminate Hstep].
    rewrite bind_Ok in Hstep.
    destruct (m2feet (correctedElevation t)) as [ce|] eqn:Hce; [|discriminate Hstep].
    rewrite bind_Ok in Hstep.
    destruct (km2miles (velocity t)) as [v|] eqn:Hv; [|discriminate Hstep].
    rewrite bind_Ok in Hstep.
    destruct (pacekm2miles (point_pace limit t)) as [p|] eqn:Hp; [|discriminate Hstep].
    rewrite !bind_Ok in Hstep. injection Hstep as <-. cbn [by_distance by_time].
    unfold plotted in Hk.
    repeat match type of Hk with
    | context [String.eqb k ?c] =>
        destruct (String.eqb_spec k c) as [-> | ?];
          [injection Hk as <-; split; plot_all t |]
    end.
    discriminate Hk.
  - rewrite bind_Ok in Hstep. injection Hstep as <-. cbn [by_distance by_time].
    unfold plotted in Hk.
    repeat match type of Hk with
    | context [String.eqb k ?c] =>
        destruct (String.eqb_spec k c) as [-> | ?];
          [injection Hk as <-; split; plot_all t |]
    end.
    discriminate Hk.
Qed.

Lemma for_each_point_step_plotted_for (tl : list trkpoint) (us : bool)
    (limit maxhr : pyval) (k : string) (y : trkpoint -> pyval)
    (l : list trkpoint) :
  plotted limit maxhr k = Some y ->
  (forall t, t ∈ l -> t ∈ tl) ->
  forall s s',
    for_each (point_step us limit maxhr) l s = Ok s' ->
    points_satisfy
      (plotted_for tl (fun t => distance_in_units us (elapsed_distance t))
         (fun t => in_units us k (y t))) k (by_distance s) ->
    points_satisfy
      (plotted_for tl (fun t => Ok (time_elapsed t))
         (fun t => in_units us k (y t))) k (by_time s) ->
    points_satisfy
      (plotted_for tl (fun t => distance_in_units us (elapsed_distance t))
         (fun t => in_units us k (y t))) k (by_distance s')
    /\ points_satisfy
      (plotted_for tl (fun t => Ok (time_elapsed t))
         (fun t => in_units us k (y t))) k (by_time s').
Proof.
  intros Hk. induction l as [|t l IH]; cbn [for_each]; intros Hl s s' Hloop Hd Ht.
  - injection Hloop as <-. auto.
  - destruct (point_step us limit maxhr t s) as [s1|] eqn:E1; [|discriminate Hloop].
    rewrite bind_Ok in Hloop.
    destruct (point_step_plotted_for tl us limit maxhr t s s1 k y Hk
                (Hl t (list_elem_of_here _ _)) E1 Hd Ht) as [Hd1 Ht1].
    exact (IH (fun t' Ht' => Hl t' (list_elem_of_further _ _ _ Ht')) s1 s'
             Hloop Hd1 Ht1).
Qed.

Lemma point_series_plotted_for `{Externals} (main : pytrainer_main) (a : Activity)
    (tl : list trkpoint) (s : series) (k : string) (y : trkpoint -> pyval) :
  point_series main a tl = Ok s ->
  plotted (pace_limit a) (getMaxHR main) k = Some y ->
  distance_data a !! k = None -> time_data a !! k = None ->
  points_satisfy
    (plotted_for tl (fun t => distance_in_units (us_system a) (elapsed_distance t))
       (fun t => in_units (us_system a) k (y t))) k (by_distance s)
  /\ points_satisfy
    (plotted_for tl (fun t => Ok (time_elapsed t))
       (fun t => in_units (us_system a) k (y t))) k (by_time s).
Proof.
  unfold point_series. intros Hs Hk Hd0 Ht0.
  destruct (for_each _ tl _) as [s0|] eqn:Hloop; [|discriminate Hs].
  rewrite bind_Ok in Hs. injection Hs as <-.
  destruct (plotted_not_zone _ _ _ _ Hk) as (Hz & _).
  destruct (add_hr_zones_lookup a (getZones main)
              {| by_distance := remove_empty (by_distance s0);
                 by_time := remove_empty (by_time s0) |} k Hz) as [Hd Ht].
  assert (Hinit : forall P xl d, d !! k = None ->
            points_satisfy P k (new_point_series a xl d)).
  { intros P xl d Hnone. unfold new_point_series.
    repeat (apply points_satisfy_insert_new; [reflexivity|]).
    intros g p Hg. rewrite Hnone in Hg. discriminate Hg. }
  destruct (for_each_point_step_plotted_for tl (us_system a) (pace_limit a)
              (getMaxHR main) k y tl Hk (fun _ Hin => Hin) _ _ Hloop
              (Hinit _ _ _ Hd0) (Hinit _ _ _ Ht0)) as [Hd1 Ht1].
  split; intros g p Hg; [rewrite Hd in Hg | rewrite Ht in Hg]; cbn in Hg;
    revert Hg; apply points_satisfy_remove_empty; assumption.
Qed.

(** ** The series of a constructed activity *)

(** Series generation as the constructor runs it: on an activity
    without series, for the points of the track log, and before the
    series per lap are added. *)
Lemma __init___series `{Externals} (main : pytrainer_main) (self_id : pyval)
    (a : Activity) (log : list Lap.t) :
  __init__ (Some main) self_id = Ok (Populated a, log) ->
  exists a1,
    pace_limit a1 = pace_limit a /\ us_system a1 = us_system a
    /\ distance_data a1 = ∅ /\ time_data a1 = ∅
    /\ match gpx main with
       | Some g =>
           exists s, point_series main a1 (trkpoints g) = Ok s
             /\ forall k, k <> "pace_lap" -> k <> "speed_lap" ->
                  distance_data a !! k = by_distance s !! k
                  /\ time_data a !! k = by_time s !! k
       | None =>
           forall k, k <> "pace_lap" -> k <> "speed_lap" ->
             distance_data a !! k = None /\ time_data a !! k = None
       end.
Proof.
  intros Hi.
  destruct (__init___steps _ _ _ _ Hi) as (a0 & r & a2 & H0 & Hdb & Hgd & Hlap & _).
  destruct (before_db_no_series _ _ _ H0) as (Hd0 & Ht0 & _).
  destruct (before_db_returns main self_id) as (a0' & H0' & _ & _ & _ & Htl).
  assert (a0' = a0) by congruence. subst a0'.
  destruct (_init_from_db_frame _ _ _ Hdb) as (_ & _ & _ & Htl1 & Hd1 & Ht1 & _).
  destruct (_init_graph_data_frame _ _ _ Hgd) as (_ & _ & _ & Hus2 & Hl2 & _).
  destruct (_generate_per_lap_graphs_frame _ _ Hlap) as (_ & _ & _ & Hus3).
  destruct (_generate_per_lap_graphs_keeps _ _ Hlap) as (Hl3 & _).
  exists r.1. split; [congruence|]. split; [congruence|].
  split; [congruence|]. split; [congruence|].
  unfold _init_graph_data in Hgd. rewrite Htl1, Htl in Hgd.
  destruct (gpx main) as [g|]; simpl in Hgd.
  - destruct (point_series main r.1 (trkpoints g)) as [s|]; [|discriminate Hgd].
    rewrite bind_Ok in Hgd. injection Hgd as <-.
    exists s. split; [reflexivity|]. intros k Hp Hv.
    exact (_generate_per_lap_graphs_lookup _ _ k Hlap Hp Hv).
  - injection Hgd as <-. intros k Hp Hv.
    destruct (_generate_per_lap_graphs_lookup _ _ k Hlap Hp Hv) as [-> ->].
    rewrite Hd1, Ht1, Hd0, Ht0, !lookup_empty. auto.
Qed.

(** X7.  In the metric system the series of the track points are the
    track log itself: the series [k] by distance holds, in the order of
    the track log, one point (elapsed distance, value) for every track
    point at which both are true values, and the series by time one
    point (elapsed time, value) likewise; a series that would hold no
    point is absent.  The value is the entry of the track point, the
    pace of the point for "pace" and its heart rate in percent for
    "hr_p". *)
Theorem metric_series_are_the_track_log `{Externals} (main : pytrainer_main)
    (self_id : pyval) (a : Activity) (log : list Lap.t) (g : Gpx) :
  __init__ (Some main) self_id = Ok (Populated a, log) ->
  us_system a = false ->
  gpx main = Some g ->
  forall k y, plotted (pace_limit a) (getMaxHR main) k = Some y ->
    points <$> distance_data a !! k
      = nonempty (points_from elapsed_distance y (trkpoints g))
    /\ points <$> time_data a !! k
      = nonempty (points_from time_elapsed y (trkpoints g)).
Proof.
  intros Hi Hus Hg k y Hk.
  destruct (__init___series _ _ _ _ Hi) as (a1 & Hl & Hus1 & _ & _ & Hs).
  rewrite Hg in Hs. destruct Hs as (s & Hs & Hsame).
  destruct (plotted_not_zone _ _ _ _ Hk) as (_ & Hp & Hv).
  destruct (Hsame k Hp Hv) as [-> ->].
  destruct (point_series_points main a1 (trkpoints g)) as (s' & Hs' & Hpts);
    [congruence|].
  assert (s' = s) by congruence. subst s'.
  apply Hpts. rewrite Hl. exact Hk.
Qed.

Lemma metric_series_are_the_track_log_witness :
  exists a log,
    __init__ (H := sample_externals) (Some (sample_with_gpx "False" 3598 3600)) (PInt 7)
      = Ok (Populated a, log)
    /\ points <$> distance_data a !! "speed"
         = nonempty (points_from elapsed_distance velocity sample_points)
    /\ points <$> time_data a !! "speed"
         = nonempty (points_from time_elapsed velocity sample_points).
Proof.
  assert (E : exists a log,
      __init__ (H := sample_externals) (Some (sample_with_gpx "False" 3598 3600))
        (PInt 7) = Ok (Populated a, log) /\ us_system a = false)
    by (vm_compute; eauto).
  destruct E as (a & log & E & Hus).
  exists a, log. split; [exact E|].
  exact (metric_series_are_the_track_log (H := sample_externals)
           _ _ _ _ (sample_gpx sample_points 3598 3600) E Hus eq_refl
           "speed" velocity eq_refl).
Defined.

(** The origin of the points of a series of a constructed activity. *)
Lemma __init___plotted_for `{Externals}
    (main : pytrainer_main) (self_id : pyval) (a : Activity)
    (log : list Lap.t) (k : string) (y : trkpoint -> pyval) (gd : GraphData)
    (p : datapoint) :
  __init__ (Some main) self_id = Ok (Populated a, log) ->
  plotted (pace_limit a) (getMaxHR main) k = Some y ->
  (distance_data a !! k = Some gd /\ p ∈ points gd ->
   exists g t, gpx main = Some g /\ t ∈ trkpoints g
     /\ distance_in_units (us_system a) (elapsed_distance t) = Ok (dp_x p)
     /\ in_units (us_system a) k (y t) = Ok (dp_y p)
     /\ kept (dp_x p) (dp_y p) = true)
  /\ (time_data a !! k = Some gd /\ p ∈ points gd ->
   exists g t, gpx main = Some g /\ t ∈ trkpoints g
     /\ dp_x p = time_elapsed t
     /\ in_units (us_system a) k (y t) = Ok (dp_y p)
     /\ kept (dp_x p) (dp_y p) = true).
Proof.
  intros Hi Hk.
  destruct (__init___series _ _ _ _ Hi) as (a1 & Hl & Hus1 & Hd1 & Ht1 & Hs).
  destruct (plotted_not_zone _ _ _ _ Hk) as (_ & Hp & Hv).
  destruct (gpx main) as [g|].
  - destruct Hs as (s & Hs & Hsame). destruct (Hsame k Hp Hv) as [-> ->].
    rewrite <- Hl in Hk.
    destruct (point_series_plotted_for main a1 (trkpoints g) s k y Hs Hk)
      as [Hd Ht]; [rewrite Hd1; apply lookup_empty | rewrite Ht1; apply lookup_empty|].
    rewrite Hus1 in Hd, Ht. split; intros [Hg Hin].
    + destruct (Hd _ _ Hg Hin) as (t & Hin' & Hx & Hy & Hkept).
      exists g, t. auto.
    + destruct (Ht _ _ Hg Hin) as (t & Hin' & Hx & Hy & Hkept).
      exists g, t. injection Hx as Hx. auto.
  - destruct (Hs k Hp Hv) as [-> ->]. split; intros [Hg _]; discriminate Hg.
Qed.

(** X8.  In either system every point of a series of the track points
    was plotted for a point of the track log: by distance, its x is the
    elapsed distance of that point (in miles in the imperial system),
    by time its elapsed time; its y is the value of that point for the
    series, converted in the imperial system (elevations to feet, speed
    to miles per hour, pace to minutes per mile; heart rate, its
    percentage and cadence as they are); and x and y are true values. *)
Theorem series_points_come_from_the_track_log `{Externals}
    (main : pytrainer_main) (self_id : pyval) (a : Activity)
    (log : list Lap.t) (k : string) (y : trkpoint -> pyval) (gd : GraphData)
    (p : datapoint) :
  __init__ (Some main) self_id = Ok (Populated a, log) ->
  plotted (pace_limit a) (getMaxHR main) k = Some y ->
  (distance_data a !! k = Some gd /\ p ∈ points gd ->
   exists g t, gpx main = Some g /\ t ∈ trkpoints g
     /\ distance_in_units (us_system a) (elapsed_distance t) = Ok (dp_x p)
     /\ in_units (us_system a) k (y t) = Ok (dp_y p)
     /\ kept (dp_x p) (dp_y p) = true)
  /\ (time_data a !! k = Some gd /\ p ∈ points gd ->
   exists g t, gpx main = Some g /\ t ∈ trkpoints g
     /\ dp_x p = time_elapsed t
     /\ in_units (us_system a) k (y t) = Ok (dp_y p)
     /\ kept (dp_x p) (dp_y p) = true).
Proof. apply __init___plotted_for. Qed.

Lemma series_points_come_from_the_track_log_witness :
  exists a log gd p t,
    __init__ (H := sample_externals) (Some (sample_with_gpx "True" 3598 3600)) (PInt 7)
      = Ok (Populated a, log)
    /\ distance_data a !! "elevation" = Some gd /\ p ∈ points gd
    /\ t ∈ sample_points
    /\ km2miles (elapsed_distance t) = Ok (dp_x p)
    /\ m2feet (ele t) = Ok (dp_y p).
Proof.
  assert (E : exists a log gd p rest,
      __init__ (H := sample_externals) (Some (sample_with_gpx "True" 3598 3600))
        (PInt 7) = Ok (Populated a, log)
      /\ distance_data a !! "elevation" = Some gd
      /\ points gd = p :: rest /\ us_system a = true).
  { eexists _, _, _, _, _. split; [vm_compute; reflexivity|].
    split; [vm_compute; reflexivity|]. split; [vm_compute; reflexivity|].
    reflexivity. }
  destruct E as (a & log & gd & p & rest & E & Hgd & Hpts & Hus).
  assert (Hin : p ∈ points gd) by (rewrite Hpts; left).
  destruct (series_points_come_from_the_track_log (H := sample_externals)
              _ _ _ _ "elevation" ele gd p E eq_refl) as [Hd _].
  destruct (Hd (conj Hgd Hin)) as (g & t & Hg & Ht & Hx & Hy & _).
  injection Hg as <-. rewrite Hus in Hx, Hy.
  exists a, log, gd, p, t. auto 10.
Defined.

(** ** Pace and heart rate of the track points *)

Lemma point_pace_kept (limit : pyval) (t : trkpoint) :
  truthy (point_pace limit t) = true ->
  py_div (PInt 60) (velocity t) = Ok (point_pace limit t)
  /\ (limit = PNone \/ py_gt (point_pace limit t) limit = false).
Proof.
  unfold point_pace, try_except.
  destruct (py_div (PInt 60) (velocity t)) as [pace|]; simpl;
    [|intros Hf; discriminate Hf].
  destruct (negb (bool_decide (limit = PNone)) && py_gt pace limit)%bool eqn:Hc;
    simpl; [intros Hf; discriminate Hf|].
  intros _. split; [reflexivity|].
  apply andb_false_iff in Hc as [Hc | Hc]; [left | right; exact Hc].
  apply negb_false_iff, bool_decide_eq_true in Hc. exact Hc.
Qed.

Lemma point_hr_p_kept (maxhr : pyval) (t : trkpoint) :
  truthy (point_hr_p maxhr t) = true ->
  exists h r, py_float (hr t) = Ok h /\ py_div h maxhr = Ok r
    /\ py_mul r (PInt 100) = Ok (point_hr_p maxhr t).
Proof.
  unfold point_hr_p, try_except.
  destruct (py_float (hr t)) as [h|]; cbn [bind]; [|intros Hf; discriminate Hf].
  destruct (py_div h maxhr) as [r|] eqn:Hr; cbn [bind]; [|intros Hf; discriminate Hf].
  destruct (py_mul r (PInt 100)) as [v|] eqn:Hv; cbn [bind];
    [|intros Hf; discriminate Hf].
  intros _. exists h, r. auto.
Qed.

(** X9.  A pace that exceeds the limit of the sport is never plotted,
    in either system: every point of the "pace" series, by distance or
    by time, carries the pace 60/velocity of a point of the track log,
    which is not zero and, when the sport has a limit, is not above it;
    in the imperial system the value plotted is that pace converted to
    minutes per mile, the limit having been applied to the pace in
    minutes per kilometre. *)
Theorem plotted_pace_respects_limit `{Externals} (main : pytrainer_main)
    (self_id : pyval) (a : Activity) (log : list Lap.t) (gd : GraphData)
    (p : datapoint) :
  __init__ (Some main) self_id = Ok (Populated a, log) ->
  distance_data a !! "pace" = Some gd \/ time_data a !! "pace" = Some gd ->
  p ∈ points gd ->
  exists g t pace, gpx main = Some g /\ t ∈ trkpoints g
    /\ py_div (PInt 60) (velocity t) = Ok pace
    /\ truthy pace = true
    /\ (pace_limit a = PNone \/ py_gt pace (pace_limit a) = false)
    /\ (if us_system a then pacekm2miles pace = Ok (dp_y p) else dp_y p = pace).
Proof.
  intros Hi Hgd Hin.
  destruct (__init___plotted_for main self_id a log "pace"
              (point_pace (pace_limit a)) gd p Hi eq_refl) as [Hd Ht].
  assert (Hfrom : exists g t, gpx main = Some g /\ t ∈ trkpoints g
            /\ in_units (us_system a) "pace" (point_pace (pace_limit a) t)
                 = Ok (dp_y p)
            /\ truthy (dp_y p) = true).
  { destruct Hgd as [Hgd | Hgd].
    - destruct (Hd (conj Hgd Hin)) as (g & t & Hg & Ht' & _ & Hy & Hk).
      apply andb_true_iff in Hk as [_ Hk]. eauto 10.
    - destruct (Ht (conj Hgd Hin)) as (g & t & Hg & Ht' & _ & Hy & Hk).
      apply andb_true_iff in Hk as [_ Hk]. eauto 10. }
  destruct Hfrom as (g & t & Hg & Ht' & Hy & Hk).
  exists g, t, (point_pace (pace_limit a) t).
  split; [exact Hg|]. split; [exact Ht'|].
  assert (Hp : truthy (point_pace (pace_limit a) t) = true).
  { unfold in_units in Hy. destruct (us_system a).
    - change (pacekm2miles (point_pace (pace_limit a) t) = Ok (dp_y p)) in Hy.
      rewrite <- (truthy_pacekm2miles _ _ Hy). exact Hk.
    - injection Hy as Hy. rewrite Hy. exact Hk. }
  destruct (point_pace_kept _ _ Hp) as [Hdiv Hlim].
  split; [exact Hdiv|]. split; [exact Hp|]. split; [exact Hlim|].
  unfold in_units in Hy. destruct (us_system a); [exact Hy|].
  injection Hy as Hy. symmetry. exact Hy.
Qed.

Lemma plotted_pace_respects_limit_witness :
  exists a log gd p pace,
    __init__ (H := sample_externals) (Some (sample_with_gpx "True" 3598 3600)) (PInt 7)
      = Ok (Populated a, log)
    /\ time_data a !! "pace" = Some gd /\ p ∈ points gd
    /\ truthy pace = true /\ pacekm2miles pace = Ok (dp_y p).
Proof.
  assert (E : exists a log gd p rest,
      __init__ (H := sample_externals) (Some (sample_with_gpx "True" 3598 3600))
        (PInt 7) = Ok (Populated a, log)
      /\ time_data a !! "pace" = Some gd
      /\ points gd = p :: rest /\ us_system a = true).
  { eexists _, _, _, _, _. split; [vm_compute; reflexivity|].
    split; [vm_compute; reflexivity|]. split; [vm_compute; reflexivity|].
    reflexivity. }
  destruct E as (a & log & gd & p & rest & E & Hgd & Hpts & Hus).
  assert (Hin : p ∈ points gd) by (rewrite Hpts; left).
  destruct (plotted_pace_respects_limit (H := sample_externals)
              _ _ _ _ gd p E (or_intror Hgd) Hin)
    as (g & t & pace & _ & _ & _ & Hp & _ & Hy).
  rewrite Hus in Hy. exists a, log, gd, p, pace. auto 10.
Defined.

(** X10.  Every point of the "hr_p" series, by distance or by time,
    carries float(hr)/maxhr*100 for a point of the track log, in either
    system: a point whose heart rate cannot be read as a number, or
    for which the division fails, or whose percentage is zero, is not
    plotted. *)
Theorem plotted_heart_rate_percentage `{Externals} (main : pytrainer_main)
    (self_id : pyval) (a : Activity) (log : list Lap.t) (gd : GraphData)
    (p : datapoint) :
  __init__ (Some main) self_id = Ok (Populated a, log) ->
  distance_data a !! "hr_p" = Some gd \/ time_data a !! "hr_p" = Some gd ->
  p ∈ points gd ->
  exists g t h r, gpx main = Some g /\ t ∈ trkpoints g
    /\ py_float (hr t) = Ok h /\ py_div h (getMaxHR main) = Ok r
    /\ py_mul r (PInt 100) = Ok (dp_y p)
    /\ truthy (dp_y p) = true.
Proof.
  intros Hi Hgd Hin.
  destruct (__init___plotted_for main self_id a log "hr_p"
              (point_hr_p (getMaxHR main)) gd p Hi eq_refl) as [Hd Ht].
  assert (Hfrom : exists g t, gpx main = Some g /\ t ∈ trkpoints g
            /\ point_hr_p (getMaxHR main) t = dp_y p
            /\ truthy (dp_y p) = true).
  { destruct Hgd as [Hgd | Hgd].
    - destruct (Hd (conj Hgd Hin)) as (g & t & Hg & Ht' & _ & Hy & Hk).
      apply andb_true_iff in Hk as [_ Hk].
      unfold in_units in Hy. destruct (us_system a);
        injection Hy as Hy; eauto 10.
    - destruct (Ht (conj Hgd Hin)) as (g & t & Hg & Ht' & _ & Hy & Hk).
      apply andb_true_iff in Hk as [_ Hk].
      unfold in_units in Hy. destruct (us_system a);
        injection Hy as Hy; eauto 10. }
  destruct Hfrom as (g & t & Hg & Ht' & Hy & Hk).
  rewrite <- Hy in Hk. destruct (point_hr_p_kept _ _ Hk) as (h & r & Hh & Hr & Hv).
  rewrite Hy in Hv, Hk. exists g, t, h, r. auto 10.
Qed.

Lemma plotted_heart_rate_percentage_witness :
  exists a log gd p,
    __init__ (H := sample_externals) (Some (sample_with_gpx "False" 3598 3600)) (PInt 7)
      = Ok (Populated a, log)
    /\ distance_data a !! "hr_p" = Some gd /\ p ∈ points gd
    /\ truthy (dp_y p) = true.
Proof.
  assert (E : exists a log gd p rest,
      __init__ (H := sample_externals) (Some (sample_with_gpx "False" 3598 3600))
        (PInt 7) = Ok (Populated a, log)
      /\ distance_data a !! "hr_p" = Some gd
      /\ points gd = p :: rest).
  { eexists _, _, _, _, _. split; [vm_compute; reflexivity|].
    split; vm_compute; reflexivity. }
  destruct E as (a & log & gd & p & rest & E & Hgd & Hpts).
  assert (Hin : p ∈ points gd) by (rewrite Hpts; left).
  destruct (plotted_heart_rate_percentage (H := sample_externals)
              _ _ _ _ gd p E (or_introl Hgd) Hin)
    as (g & t & h & r & _ & _ & _ & _ & _ & Hk).
  exists a, log, gd, p. auto.
Defined.

(** ** The names of the series, and the zones *)

Ltac not_plotted Hk :=
  unfold plotted in Hk;
  repeat match type of Hk with
  | context [String.eqb ?x ?c] =>
      destruct (String.eqb_spec x c) as [? | ?]; [cbn iota in Hk; discriminate Hk|]
  end.

Lemma point_step_lookup_other (us : bool) (limit maxhr : pyval) (t : trkpoint)
    (s s' : series) (k : string) :
  plotted limit maxhr k = None ->
  point_step us limit maxhr t s = Ok s' ->
  by_distance s' !! k = by_distance s !! k /\ by_time s' !! k = by_time s !! k.
Proof.
  intros Hk Hstep. not_plotted Hk. unfold point_step in Hstep. destruct us.
  - destruct (km2miles (elapsed_distance t)) as [xd|]; [|discriminate Hstep].
    rewrite bind_Ok in Hstep.
    destruct (m2feet (ele t)) as [e|]; [|discriminate Hstep].
    rewrite bind_Ok in Hstep.
    destruct (m2feet (correctedElevation t)) as [ce|]; [|discriminate Hstep].
    rewrite bind_Ok in Hstep.
    destruct (km2miles (velocity t)) as [v|]; [|discriminate Hstep].
    rewrite bind_Ok in Hstep.
    destruct (pacekm2miles (point_pace limit t)) as [p|]; [|discriminate Hstep].
    rewrite !bind_Ok in Hstep. injection Hstep as <-. cbn [by_distance by_time].
    unfold add_to. rewrite !lookup_alter_ne by congruence. auto.
  - rewrite bind_Ok in Hstep. injection Hstep as <-. cbn [by_distance by_time].
    unfold add_to. rewrite !lookup_alter_ne by congruence. auto.
Qed.

Lemma for_each_point_step_lookup_other (us : bool) (limit maxhr : pyval)
    (k : string) (tl : list trkpoint) :
  plotted limit maxhr k = None ->
  forall s s', for_each (point_step us limit maxhr) tl s = Ok s' ->
    by_distance s' !! k = by_distance s !! k /\ by_time s' !! k = by_time s !! k.
Proof.
  intros Hk. induction tl as [|t tl IH]; cbn [for_each]; intros s s' Hloop.
  - injection Hloop as <-. auto.
  - destruct (point_step us limit maxhr t s) as [s1|] eqn:E1; [|discriminate Hloop].
    rewrite bind_Ok in Hloop.
    destruct (point_step_lookup_other _ _ _ _ _ _ _ Hk E1) as [<- <-].
    exact (IH s1 s' Hloop).
Qed.

Lemma new_point_series_lookup_other (a : Activity) (xl : pyval)
    (d : gmap string GraphData) (limit maxhr : pyval) (k : string) :
  plotted limit maxhr k = None -> new_point_series a xl d !! k = d !! k.
Proof.
  intros Hk. not_plotted Hk. unfold new_point_series.
  rewrite !lookup_insert_ne by congruence. reflexivity.
Qed.

(** What the loop and the removal leave under a name that is no series
    of the track points. *)
Lemma point_series_before_zones `{Externals} (main : pytrainer_main)
    (a : Activity) (tl : list trkpoint) (s : series) :
  point_series main a tl = Ok s ->
  exists s0,
    s = add_hr_zones a (getZones main) s0
    /\ forall k, plotted (pace_limit a) (getMaxHR main) k = None ->
         by_distance s0 !! k = keep_nonempty len (distance_data a !! k)
         /\ by_time s0 !! k = keep_nonempty len (time_data a !! k).
Proof.
  unfold point_series. intros Hs.
  destruct (for_each _ tl _) as [s0|] eqn:Hloop; [|discriminate Hs].
  rewrite bind_Ok in Hs. injection Hs as <-.
  eexists. split; [reflexivity|]. intros k Hk. cbn [by_distance by_time].
  rewrite !remove_empty_lookup.
  destruct (for_each_point_step_lookup_other _ _ _ _ _ Hk _ _ Hloop) as [-> ->].
  cbn [by_distance by_time].
  rewrite !(new_point_series_lookup_other _ _ _ _ _ _ Hk). auto.
Qed.

Lemma points_zone_step (z : zone) (g : GraphData) :
  points (addPoints (zone0 z) (zone1 z) (zone3 z) (zone2 z) g)
    = (points g ++ zone_points [z])%list
  /\ graphType (addPoints (zone0 z) (zone1 z) (zone3 z) (zone2 z) g) = graphType g.
Proof.
  rewrite addPoints_kept. unfold zone_points. simpl.
  destruct (kept (zone0 z) (zone1 z)); simpl; rewrite ?app_nil_r; auto.
Qed.

Lemma foldl_zone_step_points (zs : list zone) :
  forall (s : series) (gd gt : GraphData),
    by_distance s !! "hr_z" = Some gd -> by_time s !! "hr_z" = Some gt ->
    exists gd' gt',
      by_distance (foldl (fun s z => zone_step z s) s zs) !! "hr_z" = Some gd'
      /\ by_time (foldl (fun s z => zone_step z s) s zs) !! "hr_z" = Some gt'
      /\ points gd' = (points gd ++ zone_points zs)%list
      /\ points gt' = (points gt ++ zone_points zs)%list
      /\ graphType gd' = graphType gd /\ graphType gt' = graphType gt.
Proof.
  induction zs as [|z zs IH]; intros s gd gt Hd Ht; cbn [foldl].
  - exists gd, gt. unfold zone_points. simpl. rewrite !app_nil_r. auto 10.
  - destruct (points_zone_step z gd) as [Hpd Hgd].
    destruct (points_zone_step z gt) as [Hpt Hgt].
    assert (Hd1 : by_distance (zone_step z s) !! "hr_z"
              = Some (addPoints (zone0 z) (zone1 z) (zone3 z) (zone2 z) gd)).
    { cbn [by_distance zone_step]. rewrite lookup_alter.
      destruct (decide ("hr_z" = "hr_z")) as [_ | Hne]; [|contradiction].
      rewrite Hd. reflexivity. }
    assert (Ht1 : by_time (zone_step z s) !! "hr_z"
              = Some (addPoints (zone0 z) (zone1 z) (zone3 z) (zone2 z) gt)).
    { cbn [by_time zone_step]. rewrite lookup_alter.
      destruct (decide ("hr_z" = "hr_z")) as [_ | Hne]; [|contradiction].
      rewrite Ht. reflexivity. }
    destruct (IH (zone_step z s) _ _ Hd1 Ht1)
      as (gd' & gt' & Hd' & Ht' & Hpd' & Hpt' & Hgd' & Hgt').
    exists gd', gt'. rewrite Hpd', Hpt', Hgd', Hgt', Hpd, Hpt, Hgd, Hgt.
    unfold zone_points. cbn [flat_map]. rewrite app_nil_r, <- !app_assoc.
    auto 10.
Qed.

(** The zone series after series generation on an activity that had
    none. *)
Lemma point_series_zones `{Externals} (main : pytrainer_main) (a : Activity)
    (tl : list trkpoint) (s : series) :
  point_series main a tl = Ok s ->
  distance_data a !! "hr_z" = None -> time_data a !! "hr_z" = None ->
  match by_distance s !! "hr" with
  | Some _ =>
      exists gd gt, by_distance s !! "hr_z" = Some gd
        /\ by_time s !! "hr_z" = Some gt
        /\ points gd = zone_points (getZones main)
        /\ points gt = zone_points (getZones main)
        /\ graphType gd = Some "hspan" /\ graphType gt = None
  | None => by_distance s !! "hr_z" = None /\ by_time s !! "hr_z" = None
  end.
Proof.
  intros Hs Hd0 Ht0.
  destruct (point_series_before_zones _ _ _ _ Hs) as (s0 & -> & Hother).
  destruct (Hother "hr_z" eq_refl) as [Hdz Htz]. rewrite Hd0 in Hdz.
  rewrite Ht0 in Htz. cbn in Hdz, Htz.
  destruct (add_hr_zones_lookup a (getZones main) s0 "hr") as [-> _];
    [discriminate|].
  unfold add_hr_zones. destruct (by_distance s0 !! "hr"); [|auto].
  match goal with
  | |- context [foldl _ ?s1 _] =>
      destruct (foldl_zone_step_points (getZones main) s1 _ _
                  (lookup_insert_eq _ _ _) (lookup_insert_eq _ _ _))
        as (gd & gt & Hgd & Hgt & Hpd & Hpt & Htd & Htt)
  end.
  exists gd, gt. rewrite Hpd, Hpt, Htd, Htt. simpl. auto 10.
Qed.

(** The zone series and the names of the series before the graphs per
    lap are added. *)
Lemma point_series_other_names `{Externals} (main : pytrainer_main)
    (a : Activity) (tl : list trkpoint) (s : series) (k : string) :
  point_series main a tl = Ok s ->
  plotted (pace_limit a) (getMaxHR main) k = None -> k <> "hr_z" ->
  distance_data a !! k = None -> time_data a !! k = None ->
  by_distance s !! k = None /\ by_time s !! k = None.
Proof.
  intros Hs Hk Hz Hd0 Ht0.
  destruct (point_series_before_zones _ _ _ _ Hs) as (s0 & -> & Hother).
  destruct (add_hr_zones_lookup a (getZones main) s0 k Hz) as [-> ->].
  destruct (Hother k Hk) as [-> ->]. rewrite Hd0, Ht0. auto.
Qed.

Lemma _init_from_gpx_file_markers `{Externals} (g : Gpx) (a a' : Activity) :
  _init_from_gpx_file g a = Ok a' ->
  lap_distance a' = lap_distance a /\ lap_time a' = lap_time a.
Proof.
  unfold _init_from_gpx_file. intros Hg. returned Hg; subst a'; simpl; auto.
Qed.

Lemma _init_from_db_markers `{Externals} (main : pytrainer_main) (a : Activity)
    (r : Activity * list Lap.t) :
  _init_from_db main a = Ok r ->
  lap_distance r.1 = lap_distance a /\ lap_time r.1 = lap_time a.
Proof.
  unfold _init_from_db. intros Hr.
  destruct (select_result main) as [|row [|row' rows]]; try discriminate Hr.
  destruct (populate row a) as [a1|] eqn:Hp; [|discriminate Hr].
  rewrite bind_Ok in Hr.
  assert (Hm : lap_distance a1 = lap_distance a /\ lap_time a1 = lap_time a).
  { unfold populate in Hp. returned Hp; subst a1; simpl; auto. }
  destruct Hm as [<- <-]. returned Hr; subst r; simpl; auto.
Qed.

Lemma _init_graph_data_markers `{Externals} (main : pytrainer_main)
    (a a' : Activity) :
  _init_graph_data main a = Ok a' ->
  lap_distance a' = lap_distance a /\ lap_time a' = lap_time a
  /\ tracklist a' = tracklist a.
Proof.
  unfold _init_graph_data. intros Hg. returned Hg; subst a'; simpl; auto.
Qed.

(** The activity as it reaches [_generate_per_lap_graphs]. *)
Lemma __init___before_laps `{Externals} (main : pytrainer_main)
    (self_id : pyval) (a : Activity) (log : list Lap.t) :
  __init__ (Some main) self_id = Ok (Populated a, log) ->
  exists a2, _generate_per_lap_graphs a2 = Ok a
    /\ lap_distance a2 = None /\ lap_time a2 = None
    /\ (forall k, k = "pace_lap" \/ k = "speed_lap" ->
          distance_data a2 !! k = None /\ time_data a2 !! k = None)
    /\ (forall k, k <> "pace_lap" -> k <> "speed_lap" ->
          distance_data a !! k = distance_data a2 !! k
          /\ time_data a !! k = time_data a2 !! k).
Proof.
  intros Hi.
  destruct (__init___steps _ _ _ _ Hi) as (a0 & r & a2 & H0 & Hdb & Hgd & Hlap & _).
  destruct (before_db_no_series _ _ _ H0) as (Hd0 & Ht0 & _).
  assert (Hm0 : lap_distance a0 = None /\ lap_time a0 = None).
  { destruct (gpx main) as [g|].
    - destruct (_init_from_gpx_file_markers _ _ _ H0) as [-> ->]. auto.
    - injection H0 as <-. auto. }
  destruct Hm0 as [Hld0 Hlt0].
  destruct (_init_from_db_frame _ _ _ Hdb) as (_ & _ & _ & _ & Hd1 & Ht1 & _).
  destruct (_init_from_db_markers _ _ _ Hdb) as [Hld1 Hlt1].
  destruct (_init_graph_data_markers _ _ _ Hgd) as (Hld2 & Hlt2 & _).
  exists a2. split; [exact Hlap|]. split; [congruence|]. split; [congruence|].
  split.
  - intros k Hk. unfold _init_graph_data in Hgd.
    destruct (tracklist r.1) as [tl|].
    + destruct (point_series main r.1 tl) as [s|] eqn:Hs; [|discriminate Hgd].
      rewrite bind_Ok in Hgd. injection Hgd as <-. simpl.
      apply (point_series_other_names main r.1 tl s k Hs).
      * destruct Hk as [-> | ->]; reflexivity.
      * destruct Hk as [-> | ->]; discriminate.
      * rewrite Hd1, Hd0. apply lookup_empty.
      * rewrite Ht1, Ht0. apply lookup_empty.
    + injection Hgd as <-. rewrite Hd1, Ht1, Hd0, Ht0, !lookup_empty. auto.
  - intros k Hp Hv. exact (_generate_per_lap_graphs_lookup _ _ k Hlap Hp Hv).
Qed.

(** X11.  The zone series exist exactly when the heart-rate series by
    distance survived the removal: it is this one series that decides
    for both mappings.  The two zone series then hold the same points,
    one for every zone of the profile whose bounds are true values, in
    the order of the profile and with the label and colour of the zone;
    only the one by distance is drawn as horizontal spans. *)
Theorem zones_follow_heart_rate_by_distance `{Externals}
    (main : pytrainer_main) (self_id : pyval) (a : Activity)
    (log : list Lap.t) :
  __init__ (Some main) self_id = Ok (Populated a, log) ->
  (distance_data a !! "hr" = None ->
     distance_data a !! "hr_z" = None /\ time_data a !! "hr_z" = None)
  /\ (is_Some (distance_data a !! "hr") ->
      exists gd gt, distance_data a !! "hr_z" = Some gd
        /\ time_data a !! "hr_z" = Some gt
        /\ points gd = zone_points (getZones main)
        /\ points gt = zone_points (getZones main)
        /\ graphType gd = Some "hspan" /\ graphType gt = None).
Proof.
  intros Hi.
  destruct (__init___series _ _ _ _ Hi) as (a1 & _ & _ & Hd1 & Ht1 & Hs).
  destruct (gpx main) as [g|].
  - destruct Hs as (s & Hs & Hsame).
    destruct (Hsame "hr") as [Hhr _]; [discriminate | discriminate |].
    destruct (Hsame "hr_z") as [Hdz Htz]; [discriminate | discriminate |].
    rewrite Hhr, Hdz, Htz.
    pose proof (point_series_zones main a1 (trkpoints g) s Hs) as Hz.
    rewrite Hd1, Ht1 in Hz. specialize (Hz (lookup_empty _) (lookup_empty _)).
    destruct (by_distance s !! "hr") as [ghr|].
    + split; [discriminate | intros _; exact Hz].
    + split; [intros _; exact Hz | intros [? Hn]; discriminate Hn].
  - destruct (Hs "hr") as [Hhr _]; [discriminate | discriminate |].
    destruct (Hs "hr_z") as [Hdz Htz]; [discriminate | discriminate |].
    rewrite Hhr. split; [auto | intros [? Hn]; discriminate Hn].
Qed.

Lemma zones_follow_heart_rate_by_distance_witness :
  exists a log gd gt,
    __init__ (H := sample_externals) (Some (sample_with_gpx "False" 3598 3600)) (PInt 7)
      = Ok (Populated a, log)
    /\ distance_data a !! "hr_z" = Some gd /\ time_data a !! "hr_z" = Some gt
    /\ points gd = points gt /\ graphType gd = Some "hspan".
Proof.
  assert (E : exists a log,
      __init__ (H := sample_externals) (Some (sample_with_gpx "False" 3598 3600))
        (PInt 7) = Ok (Populated a, log)
      /\ is_Some (distance_data a !! "hr")).
  { eexists _, _. split; [vm_compute; reflexivity|].
    eexists. vm_compute. reflexivity. }
  destruct E as (a & log & E & Hhr).
  destruct (zones_follow_heart_rate_by_distance (H := sample_externals) _ _ _ _ E)
    as [_ Hz].
  destruct (Hz Hhr) as (gd & gt & Hgd & Hgt & Hpd & Hpt & Htd & _).
  exists a, log, gd, gt. rewrite Hpd, Hpt. auto 10.
Defined.

(** X12.  The two mappings of a constructed activity hold series under
    ten names only: the seven series of the track points, the zones and
    the two series per lap.  Without a track log only the two series
    per lap can be there, and without laps these two are absent. *)
Theorem only_known_series `{Externals} (main : pytrainer_main)
    (self_id : pyval) (a : Activity) (log : list Lap.t) (k : string) :
  __init__ (Some main) self_id = Ok (Populated a, log) ->
  is_Some (distance_data a !! k) \/ is_Some (time_data a !! k) ->
  k ∈ series_names
  /\ (gpx main = None -> k = "pace_lap" \/ k = "speed_lap")
  /\ (laps a = None -> k <> "pace_lap" /\ k <> "speed_lap").
Proof.
  intros Hi Hk.
  assert (Hnone : forall o1 o2 : option GraphData,
            o1 = None /\ o2 = None -> is_Some o1 \/ is_Some o2 -> False).
  { intros o1 o2 [-> ->] [[? Hn] | [? Hn]]; discriminate Hn. }
  split; [|split].
  - destruct (decide (k ∈ series_names)) as [Hin | Hout]; [exact Hin|].
    exfalso. unfold series_names in Hout.
    repeat (apply not_elem_of_cons in Hout as [? Hout]).
    destruct (__init___series _ _ _ _ Hi) as (a1 & _ & _ & Hd1 & Ht1 & Hs).
    destruct (gpx main) as [g|].
    + destruct Hs as (s & Hs & Hsame).
      destruct (Hsame k) as [Hd Ht]; [assumption | assumption |].
      rewrite Hd, Ht in Hk. revert Hk. apply Hnone.
      apply (point_series_other_names main a1 (trkpoints g) s k Hs);
        [|assumption | rewrite Hd1; apply lookup_empty
         | rewrite Ht1; apply lookup_empty].
      unfold plotted.
      repeat match goal with
      | |- context [String.eqb k ?c] =>
          destruct (String.eqb_spec k c) as [? | _]; [contradiction|]
      end.
      reflexivity.
    + revert Hk. apply Hnone. apply Hs; assumption.
  - intros Hg.
    destruct (decide (k = "pace_lap")) as [? | Hp]; [auto|].
    destruct (decide (k = "speed_lap")) as [? | Hv]; [auto|].
    exfalso. destruct (__init___series _ _ _ _ Hi) as (a1 & _ & _ & _ & _ & Hs).
    rewrite Hg in Hs. revert Hk. apply Hnone. apply Hs; assumption.
  - intros Hl.
    destruct (__init___before_laps _ _ _ _ Hi) as (a2 & Hlap & _ & _ & Hnew & _).
    destruct (_generate_per_lap_graphs_keeps _ _ Hlap) as (_ & Hl2 & _).
    unfold _generate_per_lap_graphs in Hlap. rewrite <- Hl2, Hl in Hlap.
    injection Hlap as <-.
    split; intros ->; revert Hk; apply Hnone; apply Hnew; auto.
Qed.

Lemma only_known_series_witness :
  exists a log,
    __init__ (H := sample_externals)
      (Some (sample_without_gpx
               [sample_row (PFloat (Qc_of_Z 10)) (PFloat (Qc_of_Z 6)) (PInt 0)]
               (Some sample_laps))) (PInt 7) = Ok (Populated a, log)
    /\ is_Some (distance_data a !! "pace_lap")
    /\ "pace_lap" ∈ series_names.
Proof.
  assert (E : exists a log,
      __init__ (H := sample_externals)
        (Some (sample_without_gpx
                 [sample_row (PFloat (Qc_of_Z 10)) (PFloat (Qc_of_Z 6)) (PInt 0)]
                 (Some sample_laps))) (PInt 7) = Ok (Populated a, log)
      /\ is_Some (distance_data a !! "pace_lap")).
  { eexists _, _. split; [vm_compute; reflexivity|].
    eexists. vm_compute. reflexivity. }
  destruct E as (a & log & E & Hk).
  destruct (only_known_series (H := sample_externals) _ _ _ _ "pace_lap" E
              (or_introl Hk)) as (Hin & _).
  exists a, log. auto.
Defined.

(** ** The graphs per lap *)

(** One lap, in either system. *)
Lemma lap_step_bars (us : bool) (limit : pyval) (lap : Lap.t)
    (s s' : lap_graphs) :
  lap_step us limit lap s = Ok s' ->
  exists b, bar_of_lap us lap b
    /\ lg_lap_time s' = addBars (bar_time b) (PInt 10) (lg_lap_time s)
    /\ lg_lap_distance s' = addBars (bar_dist b) (PInt 10) (lg_lap_distance s)
    /\ lg_distance_data s'
         = bar_to "speed_lap" (bar_dist b) (bar_speed b)
             (bar_to "pace_lap" (bar_dist b) (bar_pace b) (lg_distance_data s))
    /\ lg_time_data s'
         = bar_to "speed_lap" (bar_time b) (bar_speed b)
             (bar_to "pace_lap" (bar_time b) (bar_pace b) (lg_time_data s)).
Proof.
  unfold lap_step, bar_of_lap. intros Hs.
  destruct (lap_seconds lap) as [time|]; [|discriminate Hs].
  rewrite bind_Ok in Hs.
  destruct (lap_km lap) as [dist|]; [|discriminate Hs].
  rewrite bind_Ok in Hs.
  destruct (lap_pace time dist) as [pace|]; [|discriminate Hs].
  rewrite bind_Ok in Hs. destruct us.
  - destruct (km2miles dist) as [d|] eqn:Hd; [|discriminate Hs].
    rewrite bind_Ok in Hs.
    destruct (pacekm2miles (limit_lap_pace limit pace)) as [p|]; [|discriminate Hs].
    rewrite bind_Ok in Hs.
    destruct (km2miles (lap_avg_speed time dist)) as [v|]; [|discriminate Hs].
    rewrite bind_Ok in Hs. injection Hs as <-.
    exists {| bar_time := time; bar_dist := d; bar_pace := p; bar_speed := v |}.
    simpl. eauto 10.
  - injection Hs as <-.
    exists {| bar_time := time; bar_dist := dist;
              bar_pace := limit_lap_pace limit pace;
              bar_speed := lap_avg_speed time dist |}.
    simpl. eauto 10.
Qed.

Lemma points_bar_to (key k : string) (x y : pyval) (d : gmap string GraphData) :
  points <$> bar_to key x y d !! k
    = if decide (key = k)
      then (fun l => (l ++ [bar x y])%list) <$> (points <$> d !! k)
      else points <$> d !! k.
Proof.
  unfold bar_to. rewrite lookup_alter.
  destruct (decide (key = k)) as [-> | _]; [|reflexivity].
  destruct (d !! k) as [g|]; reflexivity.
Qed.

Ltac pick_bars :=
  repeat (rewrite points_bar_to;
          match goal with
          | |- context [decide (?a = ?b)] =>
              destruct (decide (a = b)) as [? | ?];
                [try discriminate | try (exfalso; auto; fail)]
          end).

(** The loop over the laps. *)
Lemma for_each_lap_step_bars (us : bool) (limit : pyval) (ls : list Lap.t) :
  forall s s', for_each (lap_step us limit) ls s = Ok s' ->
  exists bars, Forall2 (bar_of_lap us) ls bars
    /\ points (lg_lap_time s')
         = (points (lg_lap_time s)
              ++ map (fun b => bar (bar_time b) (PInt 10)) bars)%list
    /\ points (lg_lap_distance s')
         = (points (lg_lap_distance s)
              ++ map (fun b => bar (bar_dist b) (PInt 10)) bars)%list
    /\ points <$> lg_distance_data s' !! "pace_lap"
         = (fun l => (l ++ map (fun b => bar (bar_dist b) (bar_pace b)) bars)%list)
             <$> (points <$> lg_distance_data s !! "pace_lap")
    /\ points <$> lg_distance_data s' !! "speed_lap"
         = (fun l => (l ++ map (fun b => bar (bar_dist b) (bar_speed b)) bars)%list)
             <$> (points <$> lg_distance_data s !! "speed_lap")
    /\ points <$> lg_time_data s' !! "pace_lap"
         = (fun l => (l ++ map (fun b => bar (bar_time b) (bar_pace b)) bars)%list)
             <$> (points <$> lg_time_data s !! "pace_lap")
    /\ points <$> lg_time_data s' !! "speed_lap"
         = (fun l => (l ++ map (fun b => bar (bar_time b) (bar_speed b)) bars)%list)
             <$> (points <$> lg_time_data s !! "speed_lap").
Proof.
  induction ls as [|lap ls IH]; cbn [for_each]; intros s s' Hloop.
  - injection Hloop as <-. exists []. split; [constructor|].
    cbn [map]. rewrite !app_nil_r.
    repeat split;
      match goal with
      | |- context [?d !! ?k] => destruct (d !! k); simpl;
                                 rewrite ?app_nil_r; reflexivity
      end.
  - destruct (lap_step us limit lap s) as [s1|] eqn:E1; [|discriminate Hloop].
    rewrite bind_Ok in Hloop.
    destruct (lap_step_bars _ _ _ _ _ E1) as (b & Hb & Hlt & Hld & Hdd & Htd).
    destruct (IH s1 s' Hloop) as (bars & Hbars & Hlt' & Hld' & Hdp & Hds & Htp & Hts).
    exists (b :: bars). split; [constructor; assumption|].
    rewrite Hlt', Hld', Hdp, Hds, Htp, Hts, Hlt, Hld, Hdd, Htd. cbn [map].
    split; [unfold addBars, append_point; simpl; rewrite <- app_assoc; reflexivity|].
    split; [unfold addBars, append_point; simpl; rewrite <- app_assoc; reflexivity|].
    repeat split; pick_bars;
      match goal with
      | |- context [?d !! ?k] => destruct (d !! k); simpl;
                                 rewrite <- ?app_assoc; reflexivity
      end.
Qed.

Lemma new_lap_graphs_points (a : Activity) :
  points <$> lg_distance_data (new_lap_graphs a) !! "pace_lap" = Some []
  /\ points <$> lg_distance_data (new_lap_graphs a) !! "speed_lap" = Some []
  /\ points <$> lg_time_data (new_lap_graphs a) !! "pace_lap" = Some []
  /\ points <$> lg_time_data (new_lap_graphs a) !! "speed_lap" = Some [].
Proof.
  unfold new_lap_graphs. cbn [lg_distance_data lg_time_data].
  repeat split;
    repeat first [rewrite lookup_insert_eq
                 | rewrite lookup_insert_ne by discriminate];
    reflexivity.
Qed.

(** X13.  When the activity has laps, each of its six graphs per lap
    (the two markers, and pace and speed by distance and by time) holds
    exactly one bar for every lap, in the order of the laps: the bars
    of a lap all stand at the elapsed time of the lap, read as a float,
    or at its distance in kilometres (miles in the imperial system);
    the markers have height 10, and pace and speed of a lap are the
    same by distance and by time.  Without laps there is no marker. *)
Theorem one_bar_per_lap `{Externals} (main : pytrainer_main) (self_id : pyval)
    (a : Activity) (log : list Lap.t) :
  __init__ (Some main) self_id = Ok (Populated a, log) ->
  match laps a with
  | None => lap_distance a = None /\ lap_time a = None
  | Some ls =>
      exists bars, Forall2 (bar_of_lap (us_system a)) ls bars
        /\ points <$> lap_time a
             = Some (map (fun b => bar (bar_time b) (PInt 10)) bars)
        /\ points <$> lap_distance a
             = Some (map (fun b => bar (bar_dist b) (PInt 10)) bars)
        /\ points <$> distance_data a !! "pace_lap"
             = Some (map (fun b => bar (bar_dist b) (bar_pace b)) bars)
        /\ points <$> distance_data a !! "speed_lap"
             = Some (map (fun b => bar (bar_dist b) (bar_speed b)) bars)
        /\ points <$> time_data a !! "pace_lap"
             = Some (map (fun b => bar (bar_time b) (bar_pace b)) bars)
        /\ points <$> time_data a !! "speed_lap"
             = Some (map (fun b => bar (bar_time b) (bar_speed b)) bars)
  end.
Proof.
  intros Hi.
  destruct (__init___before_laps _ _ _ _ Hi) as (a2 & Hlap & Hld & Hlt & _).
  destruct (_generate_per_lap_graphs_keeps _ _ Hlap) as (_ & Hl & _).
  destruct (_generate_per_lap_graphs_frame _ _ Hlap) as (_ & _ & _ & Hus).
  rewrite Hl, Hus. unfold _generate_per_lap_graphs in Hlap.
  destruct (laps a2) as [ls|].
  - destruct (for_each _ ls _) as [s|] eqn:Hloop; [|discriminate Hlap].
    rewrite bind_Ok in Hlap. injection Hlap as <-.
    destruct (for_each_lap_step_bars _ _ _ _ _ Hloop)
      as (bars & Hbars & Hlt' & Hld' & Hdp & Hds & Htp & Hts).
    exists bars. split; [exact Hbars|]. simpl.
    rewrite Hlt', Hld', Hdp, Hds, Htp, Hts.
    destruct (new_lap_graphs_points a2) as (-> & -> & -> & ->).
    unfold new_lap_graphs. simpl. auto 10.
  - injection Hlap as <-. auto.
Qed.

Lemma one_bar_per_lap_witness :
  exists a log bars,
    __init__ (H := sample_externals) (Some (sample_with_gpx "True" 3598 3600)) (PInt 7)
      = Ok (Populated a, log)
    /\ Forall2 (bar_of_lap true) sample_laps bars
    /\ points <$> time_data a !! "pace_lap"
         = Some (map (fun b => bar (bar_time b) (bar_pace b)) bars).
Proof.
  assert (E : exists a log,
      __init__ (H := sample_externals) (Some (sample_with_gpx "True" 3598 3600))
        (PInt 7) = Ok (Populated a, log)
      /\ laps a = Some sample_laps /\ us_system a = true).
  { eexists _, _. split; [vm_compute; reflexivity|]. split; reflexivity. }
  destruct E as (a & log & E & Hl & Hus).
  pose proof (one_bar_per_lap (H := sample_externals) _ _ _ _ E) as Hb.
  rewrite Hl, Hus in Hb.
  destruct Hb as (bars & Hbars & _ & _ & _ & _ & Htp & _).
  exists a, log, bars. auto.
Defined.

(** ** Pace as text: the general round trip *)

Lemma take_digits_cons (c : ascii) (l : list ascii) (acc : Z) (cnt : nat) :
  take_digits (c :: l) acc cnt
    = match digit_of c with
      | Some d => take_digits l (10 * acc + d) (S cnt)
      | None => (acc, cnt, c :: l)
      end.
Proof. reflexivity. Qed.

Lemma take_digits_uint (d : Decimal.uint) (rest : list ascii) :
  forall acc cnt,
    exists cnt',
      take_digits (list_ascii_of_string (NilEmpty.string_of_uint d) ++ rest) acc cnt
        = take_digits rest (uint_value d acc) cnt'.
Proof.
  induction d; intros acc cnt;
    cbn [NilEmpty.string_of_uint list_ascii_of_string app uint_value];
    [eauto | ..]; rewrite take_digits_cons; apply IHd.
Qed.

Lemma uint_value_revapp (d : Decimal.uint) :
  forall d', uint_value d (Z.of_N (DecimalPos.Unsigned.of_lu d'))
             = Z.of_N (DecimalPos.Unsigned.of_lu (Decimal.revapp d d')).
Proof.
  induction d; intros d'; cbn [uint_value Decimal.revapp]; [reflexivity | ..];
    rewrite <- IHd; f_equal; cbn [DecimalPos.Unsigned.of_lu]; lia.
Qed.

Lemma uint_value_to_uint (n : N) : uint_value (N.to_uint n) 0 = Z.of_N n.
Proof.
  rewrite <- (DecimalN.Unsigned.of_to n) at 2.
  unfold N.of_uint. rewrite DecimalPos.Unsigned.of_uint_alt.
  exact (uint_value_revapp (N.to_uint n) Decimal.Nil).
Qed.

Lemma take_digits_str_of_nonneg (z : Z) (rest : list ascii) (cnt : nat) :
  0 <= z ->
  exists cnt',
    take_digits (list_ascii_of_string (str_of_nonneg z) ++ rest) 0 cnt
      = take_digits rest z cnt'.
Proof.
  intros Hz. unfold str_of_nonneg.
  assert (Hv : uint_value (N.to_uint (Z.to_N z)) 0 = z).
  { rewrite uint_value_to_uint. lia. }
  destruct (N.to_uint (Z.to_N z)) eqn:Hd.
  1: { simpl in Hv. subst z. cbn. eauto. }
  all: rewrite <- Hv; apply take_digits_uint.
Qed.

Lemma digits_of_uint (d : Decimal.uint) :
  Forall (fun c => is_Some (digit_of c))
    (list_ascii_of_string (NilEmpty.string_of_uint d)).
Proof.
  induction d; cbn [NilEmpty.string_of_uint list_ascii_of_string];
    constructor; try assumption; eexists; reflexivity.
Qed.

Lemma digits_of_str_of_nonneg (z : Z) :
  Forall (fun c => is_Some (digit_of c)) (list_ascii_of_string (str_of_nonneg z))
  /\ list_ascii_of_string (str_of_nonneg z) <> [].
Proof.
  unfold str_of_nonneg. destruct (N.to_uint (Z.to_N z)) eqn:Hd.
  1: { cbn. split; [repeat constructor; eexists; reflexivity | discriminate]. }
  all: split; [apply (digits_of_uint) | discriminate].
Qed.

Lemma two_digits_ok_all :
  forallb (fun n => two_digits_ok (Z.of_nat n)) (seq 0 100) = true.
Proof. vm_compute. reflexivity. Qed.

Lemma two_digits_spec (f : Z) :
  0 <= f < 100 ->
  exists c1 c2 a b,
    list_ascii_of_string (two_digits f) = [c1; c2]
    /\ digit_of c1 = Some a /\ digit_of c2 = Some b /\ 10 * a + b = f
    /\ is_space c2 = false.
Proof.
  intros Hf. pose proof two_digits_ok_all as Hall.
  rewrite forallb_forall in Hall. specialize (Hall (Z.to_nat f)).
  rewrite Z2Nat.id in Hall by lia.
  assert (Hin : In (Z.to_nat f) (seq 0 100)) by (apply in_seq; lia).
  specialize (Hall Hin). unfold two_digits_ok in Hall.
  destruct (list_ascii_of_string (two_digits f)) as [|c1 [|c2 [|c3 l]]];
    try discriminate Hall.
  destruct (digit_of c1) as [a|] eqn:H1; [|discriminate Hall].
  destruct (digit_of c2) as [b|] eqn:H2; [|discriminate Hall].
  apply andb_true_iff in Hall as [Hv Hs].
  apply Z.eqb_eq in Hv. apply negb_true_iff in Hs.
  exists c1, c2, a, b. auto 10.
Qed.

Lemma list_ascii_of_string_app (s1 s2 : string) :
  list_ascii_of_string (s1 ++ s2)
    = (list_ascii_of_string s1 ++ list_ascii_of_string s2)%list.
Proof. induction s1 as [|c s1 IH]; simpl; [reflexivity | rewrite IH; reflexivity]. Qed.

Lemma digit_not_space (c : ascii) : is_Some (digit_of c) -> is_space c = false.
Proof.
  unfold digit_of, is_space. intros [d Hd].
  destruct ((48 <=? N_of_ascii c)%N && (N_of_ascii c <=? 57)%N)%bool eqn:E;
    [|discriminate Hd].
  apply andb_true_iff in E as [E1 E2].
  apply N.leb_le in E1. apply N.leb_le in E2.
  apply orb_false_iff. split.
  - apply N.eqb_neq. lia.
  - apply andb_false_iff. right. apply N.leb_gt. lia.
Qed.

Lemma digit_not_char (c x : ascii) :
  is_Some (digit_of c) -> digit_of x = None -> Ascii.eqb c x = false.
Proof.
  intros [d Hd] Hx. apply Ascii.eqb_neq. intros ->. congruence.
Qed.

Lemma lstrip_digit (c : ascii) (l : list ascii) :
  is_space c = false -> lstrip (c :: l) = c :: l.
Proof. intros Hc. simpl. rewrite Hc. reflexivity. Qed.

Lemma Qc_of_Z_1 : Qc_of_Z 1 = 1%Qc.
Proof. apply Qc_is_canon. reflexivity. Qed.

Lemma ratio_hundredths (i f : Z) :
  ((Qc_of_Z i + ratio f (10 ^ Z.of_nat 2)) * pow10 0)%Qc = ratio (100 * i + f) 100.
Proof.
  unfold pow10, ratio. change (10 ^ Z.of_nat 2) with 100. change (10 ^ 0) with 1.
  cbn [Z.leb Z.compare]. rewrite Qc_of_Z_1, Qc_of_Z_add, Qc_of_Z_mul.
  assert (Hc : Qc_of_Z 100 <> 0%Qc) by (apply Qc_of_Z_neq_0; lia).
  field. exact Hc.
Qed.

Lemma strip_id (c0 c2 : ascii) (m : list ascii) :
  is_space c0 = false -> is_space c2 = false ->
  strip (c0 :: m ++ [c2]) = (c0 :: m ++ [c2])%list.
Proof.
  intros H0 H2. unfold strip. rewrite (lstrip_digit c0 _ H0).
  change (c0 :: m ++ [c2])%list with ((c0 :: m) ++ [c2])%list.
  rewrite rev_unit, (lstrip_digit c2 _ H2).
  cbn [rev]. rewrite rev_app_distr, rev_involutive. reflexivity.
Qed.

(** [float] reads what ["%0.2f"] prints for a number that is not
    negative. *)
Lemma float_of_string_hundredths (i f : Z) :
  0 <= i -> 0 <= f < 100 ->
  float_of_string (str_of_nonneg i ++ "." ++ two_digits f)
    = Some (ratio (100 * i + f) 100).
Proof.
  intros Hi Hf. unfold float_of_string.
  rewrite !list_ascii_of_string_app.
  destruct (two_digits_spec f Hf) as (c1 & c2 & a & b & -> & Ha & Hb & Hab & Hs).
  destruct (digits_of_str_of_nonneg i) as [Hdig Hne].
  change (list_ascii_of_string ".") with ["."%char].
  destruct (take_digits_str_of_nonneg i ("."%char :: [c1; c2]) 0 Hi) as [ni Hread].
  set (A := list_ascii_of_string (str_of_nonneg i)) in *.
  destruct A as [|c0 A'] eqn:HA; [contradiction|].
  apply Forall_cons in Hdig as [H0 _].
  replace ((c0 :: A') ++ ["."%char] ++ [c1; c2])%list
    with (c0 :: (A' ++ ["."%char; c1]) ++ [c2])%list
    by (cbn [app]; rewrite <- app_assoc; reflexivity).
  rewrite (strip_id c0 c2 _ (digit_not_space _ H0) Hs).
  replace (c0 :: (A' ++ ["."%char; c1]) ++ [c2])%list
    with ((c0 :: A') ++ "."%char :: [c1; c2])%list
    by (cbn [app]; rewrite <- app_assoc; reflexivity).
  unfold take_sign. cbn [app].
  rewrite (digit_not_char c0 "-"%char H0 eq_refl),
    (digit_not_char c0 "+"%char H0 eq_refl).
  cbn [app] in Hread. rewrite Hread.
  rewrite take_digits_cons. change (digit_of "."%char) with (@None Z).
  cbn iota. rewrite Ascii.eqb_refl.
  rewrite take_digits_cons, Ha. rewrite take_digits_cons, Hb. cbn [take_digits].
  rewrite Nat.add_comm. cbn [Nat.add take_exponent].
  f_equal. rewrite ratio_hundredths. f_equal. lia.
Qed.

Lemma replace_app (a b : ascii) (s1 s2 : string) :
  replace a b (s1 ++ s2) = replace a b s1 ++ replace a b s2.
Proof. induction s1 as [|c s1 IH]; simpl; [reflexivity | rewrite IH; reflexivity]. Qed.

Lemma replace_digits (a b : ascii) (s : string) :
  digit_of a = None ->
  Forall (fun c => is_Some (digit_of c)) (list_ascii_of_string s) ->
  replace a b s = s.
Proof.
  intros Ha. induction s as [|c s IH]; simpl; intros Hs; [reflexivity|].
  apply Forall_cons in Hs as [Hc Hs].
  rewrite (digit_not_char c a Hc Ha), (IH Hs). reflexivity.
Qed.

Lemma digits_of_two_digits (f : Z) :
  0 <= f < 100 ->
  Forall (fun c => is_Some (digit_of c)) (list_ascii_of_string (two_digits f)).
Proof.
  intros Hf. destruct (two_digits_spec f Hf) as (c1 & c2 & a & b & -> & Ha & Hb & _).
  repeat constructor; eauto.
Qed.

(** Replacing the separator of a printed pace. *)
Lemma replace_separator (a b : ascii) (i f : Z) :
  digit_of a = None -> 0 <= f < 100 ->
  replace a b (str_of_nonneg i ++ String a (two_digits f))
    = str_of_nonneg i ++ String b (two_digits f).
Proof.
  intros Ha Hf. rewrite replace_app. cbn [replace]. rewrite Ascii.eqb_refl.
  rewrite (replace_digits a b (str_of_nonneg i) Ha
             (proj1 (digits_of_str_of_nonneg i))).
  rewrite (replace_digits a b (two_digits f) Ha (digits_of_two_digits f Hf)).
  reflexivity.
Qed.

Lemma round_hundredths_nonneg (q : Qc) : 0 <= round_hundredths q.
Proof.
  unfold round_hundredths.
  assert (0 <= Z.abs (Qnum q) * 100 / Z.pos (Qden q))
    by (apply Z.div_pos; lia).
  destruct (_ <? _); [assumption|]. destruct (_ <? _); [lia|].
  destruct (Z.even _); lia.
Qed.

Lemma Qnum_ratio_hundredths (h : Z) :
  Qnum (ratio h 100) * 100 = h * Z.pos (Qden (ratio h 100)).
Proof.
  assert (E : (this (ratio h 100) == h # 100)%Q).
  { unfold ratio, Qc_of_Z. simpl. rewrite !Qred_correct.
    unfold Qeq. simpl. change (Z.pos (1 * 100)) with 100. lia. }
  exact E.
Qed.

Lemma round_hundredths_exact (h : Z) :
  0 <= h -> round_hundredths (ratio h 100) = h.
Proof.
  intros Hh. pose proof (Qnum_ratio_hundredths h) as E.
  unfold round_hundredths.
  assert (Ha : Z.abs (Qnum (ratio h 100)) * 100 = h * Z.pos (Qden (ratio h 100)))
    by nia.
  rewrite Ha, Z.div_mul, Z.mod_mul by lia.
  destruct (2 * 0 <? Z.pos (Qden (ratio h 100))) eqn:E2; [reflexivity|].
  apply Z.ltb_ge in E2. lia.
Qed.

Lemma round_half_even_error (a b : Z) :
  0 < b -> - b <= 2 * (round_half_even a b * b - a) <= b.
Proof.
  intros Hb. unfold round_half_even.
  pose proof (Z.div_mod a b ltac:(lia)) as E.
  pose proof (Z.mod_pos_bound a b Hb) as Hr.
  destruct (Z.ltb_spec (2 * (a mod b)) b); [nia|].
  destruct (Z.ltb_spec b (2 * (a mod b))); [nia|].
  destruct (Z.even (a / b)); nia.
Qed.

(** Numerator and denominator of [a / b]. *)
Lemma ratio_parts (a b : Z) :
  0 < b -> Qnum (ratio a b) * b = a * Z.pos (Qden (ratio a b)).
Proof.
  intros Hb.
  assert (E : (this (ratio a b) == a # Z.to_pos b)%Q).
  { unfold ratio, Qc_of_Z. simpl. rewrite !Qred_correct.
    unfold Qdiv, Qinv, Qmult, inject_Z, Qeq. simpl.
    destruct b as [|p|p]; try lia. simpl. lia. }
  unfold Qeq in E. simpl in E. rewrite Z2Pos.id in E by lia. exact E.
Qed.

Lemma round_hundredths_eq (q : Qc) :
  round_hundredths q = round_half_even (Z.abs (Qnum q) * 100) (Z.pos (Qden q)).
Proof. reflexivity. Qed.

(** The float nearest to a number of hundredths prints as that number
    of hundredths: the error of the rounding, at most half a unit of the
    53rd bit, is far below half a hundredth. *)
Lemma round_hundredths_fl (h : Z) :
  0 < h < 2 ^ 45 -> round_hundredths (fl (ratio h 100)) = h.
Proof.
  intros Hh.
  pose proof (ratio_parts h 100 ltac:(lia)) as E.
  set (x := ratio h 100) in *.
  set (n := Qnum x) in *. set (d := Z.pos (Qden x)) in *.
  assert (Hd : 0 < d) by (unfold d; lia).
  assert (Hn : 0 < n) by nia.
  pose proof (binade_le n d) as He.
  destruct (Z.log2_spec d Hd) as [Hd1 Hd2].
  pose proof (Z.log2_nonneg d) as Hld.
  assert (Hl : Z.log2 n < 46 + Z.log2 d).
  { apply Z.log2_lt_pow2; [exact Hn|].
    rewrite Z.pow_add_r by lia. rewrite Z.pow_succ_r in Hd2 by lia.
    change (2 ^ 46) with (2 * 2 ^ 45). nia. }
  set (s := 52 - binade n d) in *.
  assert (Hs : 7 <= s) by (unfold s; lia).
  assert (HP : 128 <= 2 ^ s).
  { change 128 with (2 ^ 7). apply Z.pow_le_mono_r; lia. }
  assert (Hfl : fl x = ratio (round_half_even (n * 2 ^ s) d) (2 ^ s)).
  { unfold fl. fold n d. rewrite (Z.abs_eq n) by lia.
    destruct (Z.eqb_spec n 0); [lia|].
    destruct (Z.ltb_spec n 0); [lia|]. fold s.
    destruct (Z.leb_spec 0 s); [reflexivity | lia]. }
  rewrite Hfl.
  set (m := round_half_even (n * 2 ^ s) d) in *.
  pose proof (round_half_even_error (n * 2 ^ s) d Hd) as Hm. fold m in Hm.
  assert (Hmpos : 0 < m).
  { destruct (significand_pos n d Hn Hd) as [H1 _]. apply H1. fold s. lia. }
  pose proof (ratio_parts m (2 ^ s) ltac:(lia)) as Eq.
  rewrite round_hundredths_eq.
  set (q := ratio m (2 ^ s)) in *.
  set (N := Qnum q) in *. set (D := Z.pos (Qden q)) in *.
  assert (HD : 0 < D) by (unfold D; lia).
  assert (HN : 0 < N) by nia.
  rewrite (Z.abs_eq N) by lia.
  pose proof (round_half_even_error (N * 100) D HD) as Hr.
  set (r := round_half_even (N * 100) D) in *.
  set (P := 2 ^ s) in *.
  assert (A : - P <= 2 * (r * P - 100 * m) <= P).
  { assert (- (D * P) <= D * (2 * (r * P - 100 * m)) <= D * P) by nia.
    split; apply (Z.mul_le_mono_pos_l _ _ D HD); lia. }
  assert (B : - 100 <= 2 * (100 * m - h * P) <= 100).
  { assert (- (d * 100) <= d * (2 * (100 * m - h * P)) <= d * 100) by nia.
    split; apply (Z.mul_le_mono_pos_l _ _ d Hd); lia. }
  nia.
Qed.

Lemma format_2f_nonneg (q : Qc) :
  Qc_ltb q 0 = false ->
  format_2f q
    = str_of_nonneg (round_hundredths q / 100)
        ++ String "." (two_digits (round_hundredths q mod 100)).
Proof. intros Hq. unfold format_2f, two_digits. rewrite Hq. reflexivity. Qed.

(** A pace above zero, printed and read back. *)
Lemma pace_print_read `{Externals} (q : Qc) :
  (0 < q)%Qc ->
  exists m f, 0 <= m /\ 0 <= f < 100 /\ round_hundredths q = 100 * m + f
    /\ pace_from_float (PFloat q)
         = Ok (PStr (str_of_nonneg m ++ ":" ++ two_digits f))
    /\ pace_to_float (PStr (str_of_nonneg m ++ ":" ++ two_digits f))
         = Ok (PFloat (fl (ratio (round_hundredths q) 100)))
    /\ pace_to_float (PStr (str_of_nonneg m ++ "." ++ two_digits f))
         = Ok (PFloat (fl (ratio (round_hundredths q) 100)))
    /\ (forall h, 0 < h < 2 ^ 45 -> q = fl (ratio h 100) ->
          (let* s := pace_from_float (PFloat q) in pace_to_float s)
            = Ok (PFloat q)).
Proof.
  intros Hq.
  pose proof (round_hundredths_nonneg q) as Hn.
  set (n := round_hundredths q) in *.
  assert (Hf : 0 <= n mod 100 < 100) by (apply Z.mod_pos_bound; lia).
  assert (Hm : 0 <= n / 100) by (apply Z.div_pos; lia).
  assert (Hsum : n = 100 * (n / 100) + n mod 100) by (apply Z.div_mod; lia).
  assert (Hlt : Qc_ltb q 0 = false).
  { apply Qc_ltb_false. apply Qclt_le_weak, Hq. }
  assert (Hne : Qc_eqb q 0 = false).
  { apply Qc_eqb_false. intros ->. exact (Qclt_not_le _ _ Hq (Qcle_refl _)). }
  assert (Hprint : pace_from_float (PFloat q)
            = Ok (PStr (str_of_nonneg (n / 100) ++ ":" ++ two_digits (n mod 100)))).
  { unfold pace_from_float, py_not. cbn [truthy py_float]. rewrite Hne.
    cbn [negb]. rewrite bind_Ok, (format_2f_nonneg q Hlt). fold n.
    rewrite (replace_separator "." ":" (n / 100) (n mod 100) eq_refl Hf).
    reflexivity. }
  assert (Hread : forall sep : ascii, sep = ":"%char \/ sep = "."%char ->
            pace_to_float (PStr (str_of_nonneg (n / 100)
                                   ++ String sep (two_digits (n mod 100))))
              = Ok (PFloat (fl (ratio n 100)))).
  { intros sep Hsep. unfold pace_to_float.
    assert (Hrep : replace ":" "." (str_of_nonneg (n / 100)
                                      ++ String sep (two_digits (n mod 100)))
              = str_of_nonneg (n / 100) ++ "." ++ two_digits (n mod 100)).
    { destruct Hsep as [-> | ->].
      - exact (replace_separator ":" "." (n / 100) (n mod 100) eq_refl Hf).
      - rewrite replace_app. cbn [replace].
        change (Ascii.eqb "." ":") with false. cbn iota.
        rewrite (replace_digits ":" "." (str_of_nonneg (n / 100)) eq_refl
                   (proj1 (digits_of_str_of_nonneg (n / 100)))).
        rewrite (replace_digits ":" "." (two_digits (n mod 100)) eq_refl
                   (digits_of_two_digits _ Hf)).
        reflexivity. }
    rewrite Hrep. unfold py_float, float_text.
    rewrite (float_of_string_hundredths (n / 100) (n mod 100) Hm Hf).
    rewrite <- Hsum. reflexivity. }
  exists (n / 100), (n mod 100).
  split; [exact Hm|]. split; [exact Hf|]. split; [exact Hsum|].
  split; [exact Hprint|]. split; [apply Hread; auto|]. split; [apply Hread; auto|].
  intros h Hrange Hh. rewrite Hprint, bind_Ok.
  change (str_of_nonneg (n / 100) ++ ":" ++ two_digits (n mod 100))
    with (str_of_nonneg (n / 100) ++ String ":" (two_digits (n mod 100))).
  rewrite (Hread ":"%char) by auto. do 2 f_equal.
  unfold n. rewrite Hh at 1. rewrite (round_hundredths_fl h Hrange).
  symmetry. exact Hh.
Qed.

(** X14.  A pace above zero, written as text and read back, comes back
    rounded to hundredths: [pace_from_float] prints it as minutes, a
    colon and two digits, [pace_to_float] reads that text (and the same
    text with a period) as the float nearest to the number of
    hundredths printed.  A pace that is the float nearest to a whole
    number of hundredths (below [2 ^ 45] hundredths) therefore survives
    the round trip unchanged. *)
Theorem pace_text_round_trip `{Externals} (q : Qc) :
  (0 < q)%Qc ->
  exists m f, 0 <= m /\ 0 <= f < 100 /\ round_hundredths q = 100 * m + f
    /\ pace_from_float (PFloat q)
         = Ok (PStr (str_of_nonneg m ++ ":" ++ two_digits f))
    /\ pace_to_float (PStr (str_of_nonneg m ++ ":" ++ two_digits f))
         = Ok (PFloat (fl (ratio (round_hundredths q) 100)))
    /\ pace_to_float (PStr (str_of_nonneg m ++ "." ++ two_digits f))
         = Ok (PFloat (fl (ratio (round_hundredths q) 100)))
    /\ (forall h, 0 < h < 2 ^ 45 -> q = fl (ratio h 100) ->
          (let* s := pace_from_float (PFloat q) in pace_to_float s)
            = Ok (PFloat q)).
Proof. apply pace_print_read. Qed.

Lemma pace_text_round_trip_witness :
  (let* s := pace_from_float (H := sample_externals) (PFloat (fl (ratio 1275 100))) in
   pace_to_float s) = Ok (PFloat (fl (ratio 1275 100))).
Proof.
  destruct (pace_text_round_trip (H := sample_externals) (fl (ratio 1275 100)))
    as (m & f & _ & _ & _ & _ & _ & _ & Hback); [apply fl_pos; reflexivity|].
  apply (Hback 1275); [lia | reflexivity].
Defined.

(** X15.  The pace that [get_value] shows reads back, with
    [pace_to_float], as the pace on display rounded to hundredths (the
    float nearest to that number of hundredths): the stored pace in
    the metric system, the stored pace divided by 0.621371 (the float
    nearest to the quotient) in the imperial one. *)
Theorem shown_pace_reads_back `{Externals} (a : Activity) (f : db_fields)
    (q : Qc) :
  fields a = Some f -> pace f = PFloat q -> (0 < q)%Qc ->
  let shown := if us_system a then fl (q / miles_per_km) else q in
  (let* s := get_value a "pace" in pace_to_float s)
    = Ok (PFloat (fl (ratio (round_hundredths shown) 100))).
Proof.
  intros Hf Hp Hq shown.
  assert (Hshown : (0 < shown)%Qc).
  { unfold shown. destruct (us_system a); [|exact Hq].
    apply fl_pos, Qcdiv_pos; [exact Hq | reflexivity]. }
  assert (Hv : (let* v := converted a pacekm2miles pace in pace_from_float v)
            = pace_from_float (PFloat shown)).
  { unfold converted, attribute. rewrite Hf, bind_Ok, Hp. unfold shown.
    destruct (us_system a); [|rewrite bind_Ok; reflexivity].
    unfold pacekm2miles.
    rewrite (py_div_float (PFloat q) q miles_per_km eq_refl miles_per_km_neq_0).
    rewrite bind_Ok. reflexivity. }
  change (get_value a "pace")
    with (let* v := converted a pacekm2miles pace in pace_from_float v).
  rewrite Hv.
  destruct (pace_print_read shown Hshown)
    as (m & d & _ & _ & _ & Hprint & Hread & _).
  rewrite Hprint, bind_Ok. exact Hread.
Qed.

Lemma shown_pace_reads_back_witness :
  exists a log f,
    __init__ (H := sample_externals) (Some (sample_with_gpx "False" 3598 3600)) (PInt 7)
      = Ok (Populated a, log)
    /\ fields a = Some f /\ pace f = PFloat (Qc_of_Z 6)
    /\ (let* s := get_value (H := sample_externals) a "pace" in pace_to_float s)
         = Ok (PFloat (fl (ratio (round_hundredths (Qc_of_Z 6)) 100))).
Proof.
  assert (E : exists a log f,
      __init__ (H := sample_externals) (Some (sample_with_gpx "False" 3598 3600))
        (PInt 7) = Ok (Populated a, log)
      /\ fields a = Some f /\ pace f = PFloat (Qc_of_Z 6) /\ us_system a = false).
  { eexists _, _, _. split; [vm_compute; reflexivity|].
    split; [reflexivity|]. split; [|reflexivity].
    qc_compute. }
  destruct E as (a & log & f & E & Hf & Hp & Hus).
  pose proof (shown_pace_reads_back (H := sample_externals) a f (Qc_of_Z 6)
                Hf Hp eq_refl) as Hback.
  rewrite Hus in Hback. exists a, log, f. auto.
Defined.

(** ** An identifier that is no number *)

(** X16.  When the query finds the row of the activity, the timestamp
    of the row can be read (parsed, moved to the local time zone when it
    is the one in UTC, and formatted) and no lap is stored, the
    constructor formats the identifier with [%d] for its debug message
    before it looks at the track log: an identifier that [%d] rejects
    makes the construction fail with that exception, a text identifier
    with [TypeError], whether or not there is a track log. *)
Theorem identifier_must_format_without_laps `{Externals}
    (main : pytrainer_main) (row : DbRow.t) (self_id : pyval) (e : pyexn) :
  select_result main = [row] ->
  timestamp_parses row ->
  no_laps (select_dict_result main) = true ->
  self_id <> PNone ->
  percent_d self_id = Raise e ->
  __init__ (Some main) self_id = Raise e
  /\ (forall s, self_id = PStr s -> e = TypeError).
Proof.
  intros Hsel Hts Hno Hid He. split.
  - unfold __init__. destruct (decide (self_id = PNone)); [contradiction|].
    destruct (before_db_returns main self_id) as (a0 & -> & Hid0 & _).
    rewrite bind_Ok. unfold _init_from_db. rewrite Hsel.
    destruct (populate_returns row a0 Hts) as [a1 Ha1]. rewrite Ha1, bind_Ok.
    destruct (populate_frame _ _ _ Ha1) as (_ & Hid1 & _).
    rewrite Hno, Hid1, Hid0, He. reflexivity.
  - intros s ->. simpl in He. congruence.
Qed.

Lemma identifier_must_format_without_laps_witness :
  __init__ (H := sample_externals)
    (Some (sample_main "False" (Some sample_gpx_with_laps)
             [sample_row (PFloat (Qc_of_Z 10)) (PFloat (Qc_of_Z 6)) PNone] None))
    (PStr "7") = Raise TypeError.
Proof.
  refine (proj1 (identifier_must_format_without_laps (H := sample_externals)
            (sample_main "False" (Some sample_gpx_with_laps)
               [sample_row (PFloat (Qc_of_Z 10)) (PFloat (Qc_of_Z 6)) PNone] None)
            (sample_row (PFloat (Qc_of_Z 10)) (PFloat (Qc_of_Z 6)) PNone)
            (PStr "7") TypeError eq_refl _ eq_refl _ eq_refl)).
  - eexists _, _. split; reflexivity.
  - discriminate.
Defined.

(** ** The timestamp of the activity *)

Lemma populate_timestamp `{Externals} (row : DbRow.t) (a a' : Activity) :
  populate row a = Ok a' ->
  exists f s, fields a' = Some f
    /\ strftime_X (date_time f) = Ok s /\ starttime a' = PStr s
    /\ (DbRow.date_time_local row <> PNone ->
        dateutil_parse (DbRow.date_time_local row) = Ok (date_time f))
    /\ (DbRow.date_time_local row = PNone ->
        exists d, dateutil_parse (DbRow.date_time_utc row) = Ok d
          /\ astimezone_tzlocal d = Ok (date_time f)).
Proof.
  unfold populate. intros Hp.
  destruct (decide (DbRow.date_time_local row = PNone)) as [Hl | Hl].
  - destruct (dateutil_parse (DbRow.date_time_utc row)) as [d|] eqn:Hd;
      [|discriminate Hp].
    rewrite bind_Ok in Hp.
    destruct (astimezone_tzlocal d) as [d'|] eqn:Hd'; [|discriminate Hp].
    rewrite bind_Ok in Hp.
    destruct (strftime_X d') as [s|] eqn:Hs; [|discriminate Hp].
    rewrite bind_Ok in Hp. injection Hp as <-.
    eexists _, s. split; [reflexivity|]. simpl.
    split; [exact Hs|]. split; [reflexivity|]. split; [contradiction | eauto].
  - destruct (dateutil_parse (DbRow.date_time_local row)) as [d|] eqn:Hd;
      [|discriminate Hp].
    rewrite bind_Ok in Hp.
    destruct (strftime_X d) as [s|] eqn:Hs; [|discriminate Hp].
    rewrite bind_Ok in Hp. injection Hp as <-.
    eexists _, s. split; [reflexivity|]. simpl.
    split; [exact Hs|]. split; [reflexivity|]. split; [auto | contradiction].
Qed.

Lemma populate_timestamp_raises `{Externals} (row : DbRow.t) (a : Activity)
    (e : pyexn) :
  (let* d :=
     if decide (DbRow.date_time_local row = PNone)
     then let* tmpDateTime := dateutil_parse (DbRow.date_time_utc row) in
          astimezone_tzlocal tmpDateTime
     else dateutil_parse (DbRow.date_time_local row) in
   strftime_X d) = Raise e ->
  populate row a = Raise e.
Proof.
  unfold populate. cbv zeta. intros He.
  destruct (if decide (DbRow.date_time_local row = PNone) then _ else _)
    as [d|e'] eqn:Hd.
  - cbn [bind] in He |- *. rewrite He. reflexivity.
  - cbn [bind] in He. injection He as ->. reflexivity.
Qed.

Lemma starttime_kept `{Externals} (main : pytrainer_main) (a1 : Activity)
    (r : Activity * list Lap.t) (a2 a3 : Activity) (row : DbRow.t) (a0 : Activity) :
  select_result main = [row] -> populate row a0 = Ok a1 ->
  _init_from_db main a0 = Ok r ->
  _init_graph_data main r.1 = Ok a2 ->
  _generate_per_lap_graphs a2 = Ok a3 ->
  starttime a3 = starttime a1 /\ fields a3 = fields a1.
Proof.
  intros Hsel Hp Hdb Hgd Hlap.
  assert (H1 : starttime r.1 = starttime a1 /\ fields r.1 = fields a1).
  { unfold _init_from_db in Hdb. rewrite Hsel, Hp, bind_Ok in Hdb.
    returned Hdb; subst r; simpl; auto. }
  assert (H2 : starttime a2 = starttime r.1 /\ fields a2 = fields r.1).
  { unfold _init_graph_data in Hgd. returned Hgd; subst a2; simpl; auto. }
  assert (H3 : starttime a3 = starttime a2 /\ fields a3 = fields a2).
  { unfold _generate_per_lap_graphs in Hlap. returned Hlap; subst a3; simpl; auto. }
  destruct H1, H2, H3. split; congruence.
Qed.

(** X17.  The timestamp of a constructed activity is the local one of
    the row, parsed, whenever the row has one; only when it has none is
    the timestamp in UTC parsed and moved to the local time zone.  The
    start time is that timestamp formatted with [%X].  When the
    timestamp that is used cannot be parsed, the construction fails
    with the exception of the parser; likewise when it cannot be moved
    to the local time zone (a timestamp in UTC without time zone) or
    cannot be formatted. *)
Theorem local_timestamp_preferred `{Externals} (main : pytrainer_main)
    (self_id : pyval) :
  (forall a log,
     __init__ (Some main) self_id = Ok (Populated a, log) ->
     exists row f s, select_result main = [row] /\ fields a = Some f
       /\ strftime_X (date_time f) = Ok s /\ starttime a = PStr s
       /\ (DbRow.date_time_local row <> PNone ->
           dateutil_parse (DbRow.date_time_local row) = Ok (date_time f))
       /\ (DbRow.date_time_local row = PNone ->
           exists d, dateutil_parse (DbRow.date_time_utc row) = Ok d
             /\ astimezone_tzlocal d = Ok (date_time f)))
  /\ (forall row e,
        self_id <> PNone -> select_result main = [row] ->
        (if decide (DbRow.date_time_local row = PNone)
         then dateutil_parse (DbRow.date_time_utc row)
         else dateutil_parse (DbRow.date_time_local row)) = Raise e ->
        __init__ (Some main) self_id = Raise e)
  /\ (forall row e,
        self_id <> PNone -> select_result main = [row] ->
        (let* d :=
           if decide (DbRow.date_time_local row = PNone)
           then let* tmpDateTime := dateutil_parse (DbRow.date_time_utc row) in
                astimezone_tzlocal tmpDateTime
           else dateutil_parse (DbRow.date_time_local row) in
         strftime_X d) = Raise e ->
        __init__ (Some main) self_id = Raise e).
Proof.
  assert (Hraises : forall row e,
            self_id <> PNone -> select_result main = [row] ->
            (let* d :=
               if decide (DbRow.date_time_local row = PNone)
               then let* tmpDateTime := dateutil_parse (DbRow.date_time_utc row) in
                    astimezone_tzlocal tmpDateTime
               else dateutil_parse (DbRow.date_time_local row) in
             strftime_X d) = Raise e ->
            __init__ (Some main) self_id = Raise e).
  { intros row e Hid Hsel He. unfold __init__.
    destruct (decide (self_id = PNone)); [contradiction|].
    destruct (before_db_returns main self_id) as (a0 & -> & _).
    rewrite bind_Ok. unfold _init_from_db.
    rewrite Hsel, (populate_timestamp_raises row a0 e He). reflexivity. }
  split; [|split; [|exact Hraises]].
  - intros a log Hi.
    destruct (__init___steps _ _ _ _ Hi) as (a0 & r & a2 & H0 & Hdb & Hgd & Hlap & _).
    destruct (_init_from_db_fields _ _ _ Hdb) as (row & a1 & Hsel & Hp & _).
    destruct (starttime_kept _ _ _ _ _ _ _ Hsel Hp Hdb Hgd Hlap) as [Hst Hf].
    destruct (populate_timestamp _ _ _ Hp) as (f & s & Hf1 & Hs & Hs1 & Hloc & Hutc).
    exists row, f, s. split; [exact Hsel|]. split; [congruence|].
    split; [exact Hs|]. split; [congruence|]. split; assumption.
  - intros row e Hid Hsel He. apply (Hraises row e Hid Hsel).
    destruct (decide (DbRow.date_time_local row = PNone)); rewrite He; reflexivity.
Qed.

Lemma local_timestamp_preferred_witness :
  exists a log f,
    __init__ (H := sample_externals) (Some (sample_with_gpx "False" 3598 3600)) (PInt 7)
      = Ok (Populated a, log)
    /\ fields a = Some f
    /\ dateutil_parse (Externals := sample_externals)
         (PStr "2012-05-01T08:00:00+02:00") = Ok (date_time f).
Proof.
  assert (E : exists a log,
      __init__ (H := sample_externals) (Some (sample_with_gpx "False" 3598 3600))
        (PInt 7) = Ok (Populated a, log))
    by (vm_compute; eauto).
  destruct E as (a & log & E).
  destruct (proj1 (local_timestamp_preferred (H := sample_externals) _ _) a log E)
    as (row & f & s & Hsel & Hf & _ & _ & Hloc & _).
  injection Hsel as <-. exists a, log, f. split; [exact E|]. split; [exact Hf|].
  apply Hloc. discriminate.
Defined.

(** A row without local timestamp: a timestamp in UTC that names its
    time zone is moved to the local one; one that names none cannot be
    moved, and the construction fails. *)
Example utc_timestamp_without_zone :
  (exists a log,
     __init__ (H := sample_externals)
       (Some (sample_without_gpx [sample_row_utc "2012-05-01T06:00:00Z"]
                (Some sample_laps))) (PInt 7) = Ok (Populated a, log))
  /\ __init__ (H := sample_externals)
       (Some (sample_without_gpx [sample_row_utc "2012-05-01 06:00:00"]
                (Some sample_laps))) (PInt 7) = Raise ValueError.
Proof. split; [eexists _, _|]; vm_compute; reflexivity. Qed.

(** * Properties of the Strava upload extension *)

Lemma append_inj_l (s a b : string) : s ++ a = s ++ b -> a = b.
Proof. induction s as [|c s IH]; simpl; intros E; [exact E|]. injection E as E. auto. Qed.

Lemma gpx_path_not_token (self : Strava.StravaUpload) (id : string) :
  Strava.gpx_path self id <> Strava.strava_token self.
Proof.
  unfold Strava.gpx_path, Strava.strava_token. intros E.
  apply append_inj_l in E. discriminate E.
Qed.

Lemma follows_refl (self : Strava.StravaUpload) (n : nat) (w : Strava.world) :
  Strava.follows self n w w.
Proof.
  split; [|auto]. exists []. rewrite app_nil_r. split; [reflexivity | simpl; lia].
Qed.

Lemma follows_trans (self : Strava.StravaUpload) (n m : nat)
    (w1 w2 w3 : Strava.world) :
  Strava.follows self n w1 w2 -> Strava.follows self m w2 w3 ->
  Strava.follows self (n + m) w1 w3.
Proof.
  intros [(new1 & E1 & L1) F1] [(new2 & E2 & L2) F2]. split.
  - exists (new1 ++ new2)%list. rewrite E2, E1, app_assoc, length_app.
    split; [reflexivity | lia].
  - intros path Hp. rewrite (F2 path Hp). apply F1, Hp.
Qed.

Lemma write_token_follows (sv : Strava.service) (self : Strava.StravaUpload)
    (token : Strava.json) (w : Strava.world) :
  Strava.follows self 0 w (Strava.write_token sv self token w).
Proof.
  unfold Strava.write_token.
  destruct (Strava.writable sv (Strava.strava_token self)); [|apply follows_refl].
  split; simpl.
  - exists []. rewrite app_nil_r. auto.
  - intros path Hp. apply lookup_insert_ne. congruence.
Qed.

Lemma fetch_token_follows (sv : Strava.service) (self : Strava.StravaUpload)
    (w : Strava.world) :
  Strava.follows self 1 w (Strava.fetch_token sv self w).2
  /\ ((Strava.fetch_token sv self w).1 = Strava.Raises Strava.NoException ->
      Strava.respond sv (Strava.calls w) (Strava.login_call self)
        = Strava.Raises Strava.NoException).
Proof.
  unfold Strava.fetch_token, Strava.get_web_data, Strava.login_call.
  set (c := (Strava.login_url, _)).
  set (w1 := {| Strava.files := Strava.files w;
                Strava.calls := (Strava.calls w ++ [c])%list |}).
  assert (H1 : Strava.follows self 1 w w1).
  { split; [|auto]. exists [c]. auto. }
  destruct (Strava.respond sv (Strava.calls w) c) as [result|e] eqn:Hr;
    cbn [fst snd].
  - destruct (Strava.getitem sv result "token") as [token|e] eqn:Hg; cbn [fst snd].
    + split; [|discriminate].
      exact (follows_trans self 1 0 _ _ _ H1 (write_token_follows sv self token w1)).
    + split; [exact H1|]. intros E. injection E as ->.
      unfold Strava.getitem in Hg. destruct result; try discriminate Hg.
      destruct (Strava.lookup_member "token" members); discriminate Hg.
  - split; [exact H1|]. intros E. injection E as ->. reflexivity.
Qed.

Lemma follows_weaken (self : Strava.StravaUpload) (n m : nat)
    (w w' : Strava.world) :
  (n <= m)%nat -> Strava.follows self n w w' -> Strava.follows self m w w'.
Proof.
  intros Hnm [(new & E & L) F]. split; [|exact F]. exists new. split; [exact E | lia].
Qed.

Lemma getitem_raises (sv : Strava.service) (j : Strava.json) (key : string) :
  Strava.getitem sv j key <> Strava.Raises Strava.NoException.
Proof.
  unfold Strava.getitem. destruct j; try discriminate.
  destruct (Strava.lookup_member key members); discriminate.
Qed.

Lemma login_token_follows (sv : Strava.service) (self : Strava.StravaUpload)
    (w : Strava.world) :
  Strava.follows self 1 w (Strava.login_token sv self w).2
  /\ (Strava.answers sv ->
      (Strava.login_token sv self w).1 <> Strava.Raises Strava.NoException).
Proof.
  unfold Strava.login_token.
  destruct (fetch_token_follows sv self w) as [Hf Hn].
  assert (Hfetch : Strava.answers sv ->
            (Strava.fetch_token sv self w).1 <> Strava.Raises Strava.NoException).
  { intros Ha E. exact (Ha _ _ (Hn E)). }
  destruct (Strava.files w !! Strava.strava_token self) as [content|];
    cbn [fmap option_fmap option_map]; [|auto].
  destruct (Strava.blank (Strava.readline content)); [auto|].
  cbn [fst snd]. split; [apply follows_weaken with 0%nat; [lia | apply follows_refl]|].
  discriminate.
Qed.

Lemma upload_follows (sv : Strava.service) (self : Strava.StravaUpload)
    (token : Strava.json) (path : string) (w : Strava.world) :
  Strava.follows self 1 w (Strava.upload sv self token path w).2
  /\ (Strava.answers sv ->
      (Strava.upload sv self token path w).1 <> Strava.Raises Strava.NoException).
Proof.
  unfold Strava.upload, Strava.get_web_data.
  assert (H0 : Strava.follows self 1 w w)
    by (apply follows_weaken with 0%nat; [lia | apply follows_refl]).
  destruct (Strava.files w !! path) as [gpx|]; [|split; [exact H0 | discriminate]].
  destruct (Strava.blank gpx); [split; [exact H0 | discriminate]|].
  match goal with
  | |- context [Strava.respond sv ?h ?c] =>
      pose proof (fun Ha : Strava.answers sv => Ha h c) as Hc;
      destruct (Strava.respond sv h c) as [result|e]; cbn [fst snd];
      (split; [split; [exists [c]; auto | auto] |])
  end.
  - intros _. apply getitem_raises.
  - intros Ha E. apply (Hc Ha). exact E.
Qed.

(** X18.  [run] always ends in its message dialogue, whatever the files
    hold and whatever the service does: provided a main window was
    given and the service does not fail with something that is no
    [Exception], [run] returns, the text shown starts with "Strava
    Upload ", at most two calls were made to the service, and no file
    other than the token file was written.  Without a main window [run]
    raises instead of showing anything. *)
Theorem run_always_reports (sv : Strava.service) (self : Strava.StravaUpload)
    (id : string) (w : Strava.world) :
  Strava.follows self 2 w (Strava.run sv self id w).2
  /\ (Strava.has_main self = true -> Strava.answers sv ->
      exists text,
        (Strava.run sv self id w).1 = Strava.Returns ("Strava Upload " ++ text))
  /\ (Strava.has_main self = false ->
      exists e, (Strava.run sv self id w).1 = Strava.Raises e).
Proof.
  assert (Hattempt :
    Strava.follows self 2 w (Strava.attempt sv self id w).2
    /\ (Strava.answers sv ->
        (exists text, (Strava.attempt sv self id w).1
                        = Strava.Returns ("Strava Upload " ++ text))
        \/ (exists e, (Strava.attempt sv self id w).1 = Strava.Raises e
                      /\ e <> Strava.NoException))).
  { unfold Strava.attempt.
    destruct (login_token_follows sv self w) as [Hl Hln].
    destruct (Strava.login_token sv self w) as [[user_token|e] w1]; cbn [fst snd] in *.
    - destruct (Strava.is_none user_token); cbn [fst snd].
      + split; [apply follows_weaken with 1%nat; [lia | exact Hl]|].
        intros _. left. exists "". reflexivity.
      + destruct (upload_follows sv self user_token (Strava.gpx_path self id) w1)
          as [Hu Hun].
        destruct (Strava.upload sv self user_token (Strava.gpx_path self id) w1)
          as [[upload_id|e] w2]; cbn [fst snd] in *.
        * destruct (Strava.positive upload_id); cbn [fst snd];
            (split; [exact (follows_trans self 1 1 _ _ _ Hl Hu)|]);
            intros _; left; eexists; reflexivity.
        * split; [exact (follows_trans self 1 1 _ _ _ Hl Hu)|].
          intros Ha. right. exists e. split; [reflexivity|].
          intros ->. exact (Hun Ha eq_refl).
    - split; [apply follows_weaken with 1%nat; [lia | exact Hl]|].
      intros Ha. right. exists e. split; [reflexivity|].
      intros ->. exact (Hln Ha eq_refl). }
  destruct Hattempt as [Hf Hr]. unfold Strava.run.
  destruct (Strava.attempt sv self id w) as [r w']; cbn [fst snd] in *.
  split; [|split].
  - destruct r as [log|[t|t|t|t|]]; destruct (Strava.has_main self); exact Hf.
  - intros Hm Ha. rewrite Hm.
    destruct (Hr Ha) as [[text E] | (e & E & Hne)]; subst r.
    + exists text. reflexivity.
    + destruct e as [t|t|t|t|]; [| | | |contradiction]; eexists; reflexivity.
  - intros Hm. rewrite Hm.
    destruct r as [log|[t|t|t|t|]]; eexists; reflexivity.
Qed.

Lemma run_always_reports_witness :
  exists text,
    (Strava.run Strava.sample_service Strava.sample_self "7" Strava.sample_world).1
      = Strava.Returns ("Strava Upload " ++ text).
Proof.
  apply (run_always_reports Strava.sample_service Strava.sample_self "7"
           Strava.sample_world); [reflexivity|].
  intros history c. unfold Strava.sample_service. simpl.
  destruct (String.eqb c.1 Strava.login_url); discriminate.
Defined.

Lemma login_token_fetches (sv : Strava.service) (self : Strava.StravaUpload)
    (w : Strava.world) :
  Strava.no_stored_token self w ->
  Strava.login_token sv self w = Strava.fetch_token sv self w.
Proof.
  unfold Strava.no_stored_token, Strava.login_token.
  destruct (Strava.readline <$> Strava.files w !! Strava.strava_token self)
    as [t|]; [|reflexivity].
  intros ->. reflexivity.
Qed.

Lemma login_token_stored (sv : Strava.service) (self : Strava.StravaUpload)
    (w : Strava.world) (content : string) :
  Strava.files w !! Strava.strava_token self = Some content ->
  Strava.blank (Strava.readline content) = false ->
  Strava.login_token sv self w
    = (Strava.Returns (Strava.JVal (PStr (Strava.readline content))), w).
Proof.
  unfold Strava.login_token. intros -> Hb. simpl. rewrite Hb. reflexivity.
Qed.

Lemma fetch_token_answer (sv : Strava.service) (self : Strava.StravaUpload)
    (w : Strava.world) (members : Strava.dict) (token : Strava.json) :
  Strava.respond sv (Strava.calls w) (Strava.login_call self)
    = Strava.Returns (Strava.JDict members) ->
  Strava.lookup_member "token" members = Some token ->
  Strava.fetch_token sv self w
    = (Strava.Returns token,
       Strava.write_token sv self token
         {| Strava.files := Strava.files w;
            Strava.calls := (Strava.calls w ++ [Strava.login_call self])%list |}).
Proof.
  intros Hr Hm. unfold Strava.fetch_token, Strava.get_web_data.
  fold (Strava.login_call self). rewrite Hr. simpl. rewrite Hm. reflexivity.
Qed.

(** X19.  The token is fetched once.  A token file whose first line is
    not blank is used as it is, newline included, without any call to
    the service.  Otherwise one call asks for a token; when the answer
    holds a text token that is plain ASCII, one line and not blank, and
    the token file can be written, the token is stored, and the next
    [login_token] returns the same token without calling the service
    again. *)
Theorem token_is_fetched_once (sv : Strava.service) (self : Strava.StravaUpload)
    (w : Strava.world) :
  (forall content,
     Strava.files w !! Strava.strava_token self = Some content ->
     Strava.blank (Strava.readline content) = false ->
     Strava.login_token sv self w
       = (Strava.Returns (Strava.JVal (PStr (Strava.readline content))), w))
  /\ (forall members t,
        Strava.no_stored_token self w ->
        Strava.respond sv (Strava.calls w) (Strava.login_call self)
          = Strava.Returns (Strava.JDict members) ->
        Strava.lookup_member "token" members = Some (Strava.JVal (PStr t)) ->
        Strava.writable sv (Strava.strava_token self) = true ->
        Strava.is_ascii t = true -> Strava.readline t = t ->
        Strava.blank t = false ->
        exists w1,
          Strava.login_token sv self w = (Strava.Returns (Strava.JVal (PStr t)), w1)
          /\ Strava.calls w1 = (Strava.calls w ++ [Strava.login_call self])%list
          /\ Strava.files w1 = <[Strava.strava_token self := t]> (Strava.files w)
          /\ Strava.login_token sv self w1
               = (Strava.Returns (Strava.JVal (PStr t)), w1)).
Proof.
  split; [apply login_token_stored|].
  intros members t Hno Hr Hm Hw Ha Hline Hb.
  rewrite (login_token_fetches sv self w Hno).
  rewrite (fetch_token_answer sv self w members _ Hr Hm).
  unfold Strava.write_token. rewrite Hw, Ha. cbn [Strava.files Strava.calls].
  eexists. split; [reflexivity|]. cbn [Strava.files Strava.calls].
  split; [reflexivity|]. split; [reflexivity|].
  rewrite <- Hline at 2.
  apply login_token_stored; [apply lookup_insert_eq | rewrite Hline; exact Hb].
Qed.

Lemma sample_world_no_token :
  Strava.files Strava.sample_world !! Strava.strava_token Strava.sample_self = None.
Proof. apply lookup_singleton_ne. discriminate. Qed.

Lemma token_is_fetched_once_witness :
  exists w1,
    Strava.login_token Strava.sample_service Strava.sample_self Strava.sample_world
      = (Strava.Returns (Strava.JVal (PStr "abc")), w1)
    /\ Strava.login_token Strava.sample_service Strava.sample_self w1
         = (Strava.Returns (Strava.JVal (PStr "abc")), w1).
Proof.
  assert (Hno : Strava.no_stored_token Strava.sample_self Strava.sample_world).
  { unfold Strava.no_stored_token. rewrite sample_world_no_token. exact I. }
  destruct (proj2 (token_is_fetched_once Strava.sample_service Strava.sample_self
                     Strava.sample_world)
              (Strava.Entry "token" (Strava.JVal (PStr "abc")) Strava.Empty) "abc"
              Hno eq_refl eq_refl eq_refl eq_refl eq_refl eq_refl)
    as (w1 & H1 & _ & _ & H2).
  exists w1. auto.
Defined.

Lemma no_track_log_kept (sv : Strava.service) (self : Strava.StravaUpload)
    (id : string) (w : Strava.world) :
  Strava.files (Strava.login_token sv self w).2 !! Strava.gpx_path self id
    = Strava.files w !! Strava.gpx_path self id.
Proof.
  destruct (login_token_follows sv self w) as [[_ Hf] _].
  apply Hf, gpx_path_not_token.
Qed.

(** X20.  Nothing is uploaded without a track log: when the file of the
    activity is missing, unreadable or blank, [run] makes no call
    beyond the login, leaves the world as the login left it, and
    reports "failed to upload!". *)
Theorem no_upload_without_track_log (sv : Strava.service)
    (self : Strava.StravaUpload) (id : string) (w : Strava.world)
    (token : Strava.json) :
  Strava.no_track_log self id w ->
  Strava.has_main self = true ->
  (Strava.login_token sv self w).1 = Strava.Returns token ->
  Strava.is_none token = false ->
  Strava.run sv self id w
    = (Strava.Returns "Strava Upload failed to upload!",
       (Strava.login_token sv self w).2).
Proof.
  intros Hno Hm Hl Hn. unfold Strava.no_track_log in Hno.
  rewrite <- (no_track_log_kept sv self id w) in Hno.
  unfold Strava.run, Strava.attempt.
  destruct (Strava.login_token sv self w) as [r w1]; cbn [fst snd] in *.
  subst r. rewrite Hn. unfold Strava.upload.
  destruct (Strava.files w1 !! Strava.gpx_path self id) as [gpx|].
  - rewrite Hno. simpl. rewrite Hm. reflexivity.
  - simpl. rewrite Hm. reflexivity.
Qed.

Lemma no_upload_without_track_log_witness :
  Strava.run Strava.sample_service Strava.sample_self "7" Strava.empty_world
    = (Strava.Returns "Strava Upload failed to upload!",
       (Strava.login_token Strava.sample_service Strava.sample_self
          Strava.empty_world).2).
Proof.
  apply (no_upload_without_track_log Strava.sample_service Strava.sample_self "7"
           Strava.empty_world (Strava.JVal (PStr "abc"))).
  - unfold Strava.no_track_log. simpl. rewrite lookup_empty. exact I.
  - reflexivity.
  - rewrite login_token_fetches.
    + rewrite (fetch_token_answer Strava.sample_service Strava.sample_self
                 Strava.empty_world
                 (Strava.Entry "token" (Strava.JVal (PStr "abc")) Strava.Empty)
                 (Strava.JVal (PStr "abc")) eq_refl eq_refl).
      reflexivity.
    + unfold Strava.no_stored_token. simpl. rewrite lookup_empty. exact I.
  - reflexivity.
Defined.

Lemma upload_answer (sv : Strava.service) (self : Strava.StravaUpload)
    (token : Strava.json) (path gpx : string) (w : Strava.world) :
  Strava.files w !! path = Some gpx -> Strava.blank gpx = false ->
  Strava.upload sv self token path w
    = (match Strava.respond sv (Strava.calls w) (Strava.upload_call token gpx) with
       | Strava.Returns result => Strava.getitem sv result "upload_id"
       | Strava.Raises e => Strava.Raises e
       end,
       {| Strava.files := Strava.files w;
          Strava.calls := (Strava.calls w ++ [Strava.upload_call token gpx])%list |}).
Proof.
  intros Hf Hb. unfold Strava.upload, Strava.get_web_data. rewrite Hf, Hb.
  fold (Strava.upload_call token gpx).
  destruct (Strava.respond sv (Strava.calls w) (Strava.upload_call token gpx));
    reflexivity.
Qed.

(** X21.  What [run] reports after an upload is decided by [upload_id >
    0] in the answer of the service, compared as Python 2 compares: a
    number above zero, [True], and every text, list or dictionary count
    as success, and the dialogue shows the value; zero, a negative
    number, [False] and [None] give "failed to upload!".  The track log
    is posted with the token of the login, in one call. *)
Theorem report_follows_upload_id (sv : Strava.service)
    (self : Strava.StravaUpload) (id : string) (w : Strava.world)
    (token : Strava.json) (gpx : string) (members : Strava.dict)
    (upload_id : Strava.json) :
  Strava.has_main self = true ->
  (Strava.login_token sv self w).1 = Strava.Returns token ->
  Strava.is_none token = false ->
  Strava.files w !! Strava.gpx_path self id = Some gpx ->
  Strava.blank gpx = false ->
  Strava.respond sv (Strava.calls (Strava.login_token sv self w).2)
    (Strava.upload_call token gpx) = Strava.Returns (Strava.JDict members) ->
  Strava.lookup_member "upload_id" members = Some upload_id ->
  (Strava.run sv self id w).1
    = Strava.Returns
        (if Strava.positive upload_id
         then "Strava Upload success (id: " ++ Strava.text_of sv upload_id ++ ")!"
         else "Strava Upload failed to upload!")
  /\ Strava.calls (Strava.run sv self id w).2
       = (Strava.calls (Strava.login_token sv self w).2
            ++ [Strava.upload_call token gpx])%list
  /\ (forall s, upload_id = Strava.JVal (PStr s) ->
        Strava.positive upload_id = true)
  /\ (forall z, upload_id = Strava.JVal (PInt z) ->
        Strava.positive upload_id = (0 <? z))
  /\ (upload_id = Strava.JVal PNone -> Strava.positive upload_id = false).
Proof.
  intros Hm Hl Hn Hf Hb Hr Hid.
  rewrite <- (no_track_log_kept sv self id w) in Hf.
  split; [|split; [|split; [|split]]].
  - unfold Strava.run, Strava.attempt.
    destruct (Strava.login_token sv self w) as [r w1]; cbn [fst snd] in *.
    subst r. rewrite Hn, (upload_answer sv self token _ gpx w1 Hf Hb), Hr.
    unfold Strava.getitem. rewrite Hid.
    destruct (Strava.positive upload_id); simpl; rewrite Hm; reflexivity.
  - unfold Strava.run, Strava.attempt.
    destruct (Strava.login_token sv self w) as [r w1]; cbn [fst snd] in *.
    subst r. rewrite Hn, (upload_answer sv self token _ gpx w1 Hf Hb), Hr.
    unfold Strava.getitem. rewrite Hid.
    destruct (Strava.positive upload_id); simpl; rewrite Hm; reflexivity.
  - intros s ->. reflexivity.
  - intros z ->. unfold Strava.positive, py_gt. simpl. apply Qc_ltb_of_Z.
  - intros ->. reflexivity.
Qed.

Lemma report_follows_upload_id_witness :
  (Strava.run Strava.sample_service Strava.sample_self "7" Strava.sample_world).1
    = Strava.Returns "Strava Upload success (id: 42)!".
Proof.
  assert (Hl : Strava.login_token Strava.sample_service Strava.sample_self
                 Strava.sample_world
               = Strava.fetch_token Strava.sample_service Strava.sample_self
                   Strava.sample_world).
  { apply login_token_fetches. unfold Strava.no_stored_token.
    rewrite sample_world_no_token. exact I. }
  refine (proj1 (report_follows_upload_id Strava.sample_service Strava.sample_self
                   "7" Strava.sample_world (Strava.JVal (PStr "abc")) "<gpx></gpx>"
                   (Strava.Entry "upload_id" (Strava.JVal (PInt 42)) Strava.Empty)
                   (Strava.JVal (PInt 42)) eq_refl _ eq_refl _ eq_refl eq_refl
                   eq_refl)).
  - rewrite Hl. reflexivity.
  - apply lookup_singleton_eq.
Defined.


Lemma run_after_failed_login (sv : Strava.service) (self : Strava.StravaUpload)
    (id : string) (w w1 : Strava.world) (e : Strava.exn) :
  Strava.has_main self = true ->
  Strava.login_token sv self w = (Strava.Raises e, w1) ->
  Strava.run sv self id w
    = (match e with
       | Strava.ValueError t | Strava.KeyError t =>
           Strava.Returns ("Strava Upload JSON error: " ++ t
                             ++ ".  Username and password correct?")
       | Strava.TypeError t | Strava.OtherException t =>
           Strava.Returns ("Strava Upload failed! " ++ t)
       | Strava.NoException => Strava.Raises Strava.NoException
       end, w1).
Proof.
  intros Hm Hl. unfold Strava.run, Strava.attempt. rewrite Hl.
  destruct e; simpl; rewrite ?Hm; reflexivity.
Qed.

Lemma fetch_token_fails (sv : Strava.service) (self : Strava.StravaUpload)
    (w : Strava.world) (e : Strava.exn) :
  match Strava.respond sv (Strava.calls w) (Strava.login_call self) with
  | Strava.Returns result => Strava.getitem sv result "token"
  | Strava.Raises e => Strava.Raises e
  end = Strava.Raises e ->
  Strava.fetch_token sv self w
    = (Strava.Raises e,
       {| Strava.files := Strava.files w;
          Strava.calls := (Strava.calls w ++ [Strava.login_call self])%list |}).
Proof.
  unfold Strava.fetch_token, Strava.get_web_data. fold (Strava.login_call self).
  destruct (Strava.respond sv (Strava.calls w) (Strava.login_call self))
    as [result|e']; simpl.
  - intros ->. reflexivity.
  - intros [= ->]. reflexivity.
Qed.

(** X22.  A login that fails is reported, after one call and without
    any upload.  When there is no stored token and the call for one
    raises [ValueError] or [KeyError], or its answer is a dictionary
    without "token", the dialogue shows "JSON error: ..." with the text
    of the error (the missing key, in quotes); when the call raises
    another exception, or the answer is no dictionary, it shows
    "failed! ..." with the text of that error.  When the answer holds
    the token [null], nothing is uploaded and nothing is reported
    beyond "Strava Upload ", and the token file, if it can be written,
    is left empty. *)
Theorem failed_login_is_reported (sv : Strava.service)
    (self : Strava.StravaUpload) (id : string) (w : Strava.world) :
  Strava.no_stored_token self w ->
  Strava.has_main self = true ->
  let answer := Strava.respond sv (Strava.calls w) (Strava.login_call self) in
  let after :=
    {| Strava.files := Strava.files w;
       Strava.calls := (Strava.calls w ++ [Strava.login_call self])%list |} in
  let json_error t :=
    "Strava Upload JSON error: " ++ t ++ ".  Username and password correct?" in
  (forall t,
     answer = Strava.Raises (Strava.ValueError t)
     \/ answer = Strava.Raises (Strava.KeyError t) ->
     Strava.run sv self id w = (Strava.Returns (json_error t), after))
  /\ (forall t,
        answer = Strava.Raises (Strava.TypeError t)
        \/ answer = Strava.Raises (Strava.OtherException t) ->
        Strava.run sv self id w
          = (Strava.Returns ("Strava Upload failed! " ++ t), after))
  /\ (forall members,
        answer = Strava.Returns (Strava.JDict members) ->
        Strava.lookup_member "token" members = None ->
        Strava.run sv self id w = (Strava.Returns (json_error "'token'"), after))
  /\ (forall j,
        answer = Strava.Returns j -> (forall members, j <> Strava.JDict members) ->
        Strava.run sv self id w
          = (Strava.Returns ("Strava Upload failed! " ++ Strava.subscript_error sv j),
             after))
  /\ (forall members,
        answer = Strava.Returns (Strava.JDict members) ->
        Strava.lookup_member "token" members = Some (Strava.JVal PNone) ->
        Strava.run sv self id w
          = (Strava.Returns "Strava Upload ",
             Strava.write_token sv self (Strava.JVal PNone) after)
        /\ (Strava.writable sv (Strava.strava_token self) = true ->
            Strava.files (Strava.run sv self id w).2 !! Strava.strava_token self
              = Some "")).
Proof.
  intros Hno Hm answer after json_error.
  assert (Hfail : forall e,
            match answer with
            | Strava.Returns result => Strava.getitem sv result "token"
            | Strava.Raises e => Strava.Raises e
            end = Strava.Raises e ->
            Strava.login_token sv self w = (Strava.Raises e, after)).
  { intros e He. rewrite (login_token_fetches sv self w Hno).
    apply fetch_token_fails, He. }
  split; [|split; [|split; [|split]]].
  - intros t [Ha | Ha];
      rewrite (run_after_failed_login sv self id w after _ Hm
                 (Hfail _ ltac:(rewrite Ha; reflexivity))); reflexivity.
  - intros t [Ha | Ha];
      rewrite (run_after_failed_login sv self id w after _ Hm
                 (Hfail _ ltac:(rewrite Ha; reflexivity))); reflexivity.
  - intros members Ha Hk.
    rewrite (run_after_failed_login sv self id w after
               (Strava.KeyError "'token'") Hm); [reflexivity|].
    apply Hfail. rewrite Ha. unfold Strava.getitem. rewrite Hk. reflexivity.
  - intros j Ha Hj.
    rewrite (run_after_failed_login sv self id w after
               (Strava.TypeError (Strava.subscript_error sv j)) Hm);
      [reflexivity|].
    apply Hfail. rewrite Ha. unfold Strava.getitem.
    destruct j; try reflexivity. exfalso. exact (Hj members eq_refl).
  - intros members Ha Hk.
    assert (Hrun : Strava.run sv self id w
              = (Strava.Returns "Strava Upload ",
                 Strava.write_token sv self (Strava.JVal PNone) after)).
    { unfold Strava.run, Strava.attempt.
      rewrite (login_token_fetches sv self w Hno).
      rewrite (fetch_token_answer sv self w members _ Ha Hk).
      simpl. rewrite Hm. reflexivity. }
    split; [exact Hrun|]. intros Hw. rewrite Hrun. cbn [snd].
    unfold Strava.write_token. rewrite Hw. simpl. apply lookup_insert_eq.
Qed.

Lemma failed_login_is_reported_witness :
  Strava.run Strava.empty_service Strava.sample_self "7" Strava.empty_world
  = (Strava.Returns
       "Strava Upload JSON error: 'token'.  Username and password correct?",
     {| Strava.files := ∅;
        Strava.calls := [Strava.login_call Strava.sample_self] |}).
Proof.
  assert (Hno : Strava.no_stored_token Strava.sample_self Strava.empty_world).
  { unfold Strava.no_stored_token. simpl. rewrite lookup_empty. exact I. }
  exact (proj1 (proj2 (proj2 (failed_login_is_reported Strava.empty_service
                                Strava.sample_self "7" Strava.empty_world
                                Hno eq_refl)))
           Strava.Empty eq_refl eq_refl).
Defined.
